(** * binance-trade-bot: ratio engine, trailing stop-loss and trade log

    A shallow embedding of
      - [binance_trade_bot/database.py]  (class [Database], class [TradeLog]),
      - [binance_trade_bot/strategies/test1_strategy.py]  (class [Strategy]),
      - [binance_trade_bot/strategies/custom1_strategy.py]  (class [Strategy]),
    followed by the properties of the scouting and decision engine.

    Conventions of the embedding.
      - Numbers are embedded twice.  First as exact rationals ([Q]), where
        the only arithmetic behaviour of Python kept beyond field arithmetic
        is that [/] raises [ZeroDivisionError] on a zero divisor and that an
        arithmetic operation on [None] raises [TypeError]: this reading is
        exact for the comparison and the maximum of stored numbers, and is
        used for what does not depend on how a computed number is rounded
        (control flow, the tables, the order of effects, algebraic facts
        about the formulas).  Then as binary64 floats (module [Binary64],
        over the kernel's [float]), for the methods whose decision or
        result rests on a computed number: there every [+], [-], [*] and
        [/] is rounded as Python rounds it.
      - [datetime]s are integers (seconds); [timedelta(hours=h)] is
        [3600 * h] seconds.  [now] is the clock as the call at hand reads
        it; [elapse] moves it on between two calls.
      - Stateful code is a function [World -> res A * World]: a raised
        exception keeps the effects performed before it, as in Python.
      - The exchange gateway ([self.manager]), the configuration
        ([self.config]) and the methods inherited from [AutoTrader] are not
        part of the embedded files; they are parameters.  A [Manager.t]
        holds the answers of the gateway at one moment; where the code
        asks for a price twice, the price asked for first is an argument
        of its own and need not be the one the gateway answers later. *)

From Stdlib Require Import ZArith QArith String List Bool Lia.
From Stdlib Require Import Permutation Lqa Floats.
Import ListNotations.

Set Warnings "-inexact-float".

Open Scope string_scope.
Open Scope Q_scope.

(* ================================================================== *)
(** * Python results, exceptions and truthiness                        *)
(* ================================================================== *)

(** The exceptions the embedded code can meet.  [ExternalError] stands for
    whatever an external collaborator (exchange client, network) raises;
    all four are subclasses of Python's [Exception]. *)
Inductive exn : Type :=
| ZeroDivisionError
| TypeError
| AttributeError
| ExternalError (msg : string).

Inductive res (A : Type) : Type :=
| Ok (a : A)
| Raise (e : exn).

Arguments Ok {A} a.
Arguments Raise {A} e.

Definition is_ok {A} (r : res A) : bool :=
  match r with Ok _ => true | Raise _ => false end.

(** [x < y] on rationals, as a boolean. *)
Definition Qlt_bool (x y : Q) : bool := negb (Qle_bool y x).

(** Truthiness of a Python number: zero is falsy. *)
Definition truthy (x : Q) : bool := negb (Qeq_bool x 0).

(** Truthiness of an optional number: [None] and zero are falsy. *)
Definition truthy_opt (x : option Q) : bool :=
  match x with Some v => truthy v | None => false end.

(** Python's [a / b]. *)
Definition py_div (a b : Q) : res Q :=
  if Qeq_bool b 0 then Raise ZeroDivisionError else Ok (a / b).

(** Python's [a * b] where [b] may be [None]. *)
Definition py_mul_opt (a : Q) (b : option Q) : res Q :=
  match b with Some v => Ok (a * v) | None => Raise TypeError end.

(** Python's [max(a, b)]: the first maximal argument. *)
Definition py_max (a b : Q) : Q := if Qlt_bool a b then b else a.

(** Python's [max(prices)] over a non-empty list; [None] on the empty one
    (the callers test emptiness first). *)
Fixpoint py_max_list (l : list Q) : option Q :=
  match l with
  | [] => None
  | x :: tl =>
      match py_max_list tl with
      | None => Some x
      | Some m => Some (if Qlt_bool x m then m else x)
      end
  end.

Fixpoint py_sum (l : list Q) : Q :=
  match l with
  | [] => 0
  | x :: tl => x + py_sum tl
  end.

(* ================================================================== *)
(** * models: Coin, Pair, ScoutHistory, CoinValue, Trade               *)
(* ================================================================== *)

Module Coin.
Record t : Type := mk { symbol : string; enabled : bool }.

(** Coins are compared by primary key, the symbol. *)
Definition eqb (a b : t) : bool := String.eqb (symbol a) (symbol b).

(** [coin + bridge]: the ticker symbol of a coin against another. *)
Definition add (a b : t) : string := symbol a ++ symbol b.
End Coin.

Module Pair.
Record t : Type := mk {
  id : Z;
  from_coin : Coin.t;
  to_coin : Coin.t;
  ratio : Q;
  enabled : bool
}.

(** A [Pair] object stands for its row: identity is the primary key. *)
Definition eqb (a b : t) : bool := Z.eqb (id a) (id b).
End Pair.

Module ScoutHistory.
Record t : Type := mk {
  pair : Pair.t;
  target_ratio : Q;
  current_coin_price : option Q;
  other_coin_price : option Q;
  datetime : Z
}.
End ScoutHistory.

Module CoinValue.
Record t : Type := mk {
  coin : Coin.t;
  usd_price : option Q;
  datetime : Z
}.
End CoinValue.

Module Trade.
(** Modelled from the spec: the enumeration of trade states lives in
    [models/trade.py], which is not among the embedded files; the code only
    names [TradeState.ORDERED] and [TradeState.COMPLETE].  The spec's state
    machine is [CREATED -> ORDERED -> COMPLETE], [CREATED] being the state a
    trade is constructed in. *)
Inductive TradeState : Type := CREATED | ORDERED | COMPLETE.

Record t : Type := mk {
  alt_coin : Coin.t;
  crypto_coin : Coin.t;
  selling : bool;
  state : TradeState;
  alt_starting_balance : option Q;
  alt_trade_amount : option Q;
  crypto_starting_balance : option Q;
  crypto_trade_amount : option Q
}.

(** Modelled from the spec: the constructor [Trade(from_coin, to_coin,
    selling)] of [models/trade.py]: a fresh record in state [CREATED] with no
    amount set yet. *)
Definition new (from_coin to_coin : Coin.t) (selling : bool) : t :=
  mk from_coin to_coin selling CREATED None None None None.
End Trade.

(* ================================================================== *)
(** * The world: repository tables, logger and exchange calls          *)
(* ================================================================== *)

Inductive Level : Type := DEBUG | INFO | WARNING | ERROR.

(** One logger call: level, message, and the exception it reports (the
    [{e}] of the source's f-strings), if any. *)
Record LogEntry : Type := mkLog {
  level : Level;
  message : string;
  cause : option exn
}.

(** An order sent to the exchange. *)
Inductive OrderCall : Type :=
| SellAlt (origin target : Coin.t)
| BuyAlt (origin target : Coin.t).

Record World : Type := mkWorld {
  coins : list Coin.t;                     (* table Coin *)
  pairs : list Pair.t;                     (* table Pair *)
  current_coin_history : list Coin.t;      (* table CurrentCoin, newest first *)
  scout_history : list ScoutHistory.t;     (* table ScoutHistory, oldest first *)
  coin_values : list CoinValue.t;          (* table CoinValue *)
  trades : list Trade.t;                   (* table Trade, row id = position *)
  log : list LogEntry;                     (* logger output, newest first *)
  order_calls : list OrderCall;            (* orders sent, newest first *)
  now : Z                                  (* datetime.now() *)
}.

Definition with_current_coin_history (h : list Coin.t) (w : World) : World :=
  mkWorld (coins w) (pairs w) h (scout_history w) (coin_values w) (trades w)
          (log w) (order_calls w) (now w).

Definition with_scout_history (h : list ScoutHistory.t) (w : World) : World :=
  mkWorld (coins w) (pairs w) (current_coin_history w) h (coin_values w)
          (trades w) (log w) (order_calls w) (now w).

Definition with_trades (t : list Trade.t) (w : World) : World :=
  mkWorld (coins w) (pairs w) (current_coin_history w) (scout_history w)
          (coin_values w) t (log w) (order_calls w) (now w).

Definition with_log (l : list LogEntry) (w : World) : World :=
  mkWorld (coins w) (pairs w) (current_coin_history w) (scout_history w)
          (coin_values w) (trades w) l (order_calls w) (now w).

Definition with_order_calls (c : list OrderCall) (w : World) : World :=
  mkWorld (coins w) (pairs w) (current_coin_history w) (scout_history w)
          (coin_values w) (trades w) (log w) c (now w).

(* ================================================================== *)
(** * The monad of stateful, fallible code                             *)
(* ================================================================== *)

Definition M (A : Type) : Type := World -> res A * World.

Definition ret {A} (a : A) : M A := fun w => (Ok a, w).

Definition raise {A} (e : exn) : M A := fun w => (Raise e, w).

Definition bind {A B} (m : M A) (k : A -> M B) : M B :=
  fun w =>
    match m w with
    | (Ok a, w') => k a w'
    | (Raise e, w') => (Raise e, w')
    end.

(** [try: m  except Exception as e: h e]. *)
Definition try_except {A} (m : M A) (h : exn -> M A) : M A :=
  fun w =>
    match m w with
    | (Ok a, w') => (Ok a, w')
    | (Raise e, w') => h e w'
    end.

(** A call whose outcome does not depend on the world and leaves it alone. *)
Definition lift {A} (r : res A) : M A := fun w => (r, w).

Declare Scope py_scope.
Delimit Scope py_scope with py.
Notation "x <- m ;; k" := (bind m (fun x => k))
  (at level 61, m at next level, right associativity) : py_scope.
Notation "m ;;; k" := (bind m (fun _ => k))
  (at level 61, right associativity) : py_scope.
Open Scope py_scope.

(** [self.logger.<level>(message)]. *)
Definition logger (lv : Level) (msg : string) (c : option exn) : M unit :=
  fun w => (Ok tt, with_log (mkLog lv msg c :: log w) w).

(** A monadic [for x in l: acc = body x acc]. *)
Fixpoint for_each {A B} (l : list A) (body : A -> B -> M B) (acc : B) : M B :=
  match l with
  | [] => ret acc
  | x :: tl => acc' <- body x acc ;; for_each tl body acc'
  end.

(* ================================================================== *)
(** * database.py: class Database                                      *)
(* ================================================================== *)

(** The methods below leave out [send_update] (the live-update push
    channel): it returns without effect when the socket is not connected
    and never changes a table. *)
Module Database.

(** [get_coins(only_enabled)]. *)
Definition get_coins (only_enabled : bool) (w : World) : list Coin.t :=
  if only_enabled then filter Coin.enabled (coins w) else coins w.

(** [set_current_coin(coin)]: a new [CurrentCoin] row; no [CurrentCoin]
    row is updated in place.  The [session.merge(coin)] before it writes
    the coin handed in over the row of the Coin table with its symbol;
    that write is left out here, where the callers hand in a row read
    from the Coin table, and is embedded in [Binary64.Database]. *)
Definition set_current_coin (coin : Coin.t) : M unit :=
  fun w => (Ok tt, with_current_coin_history (coin :: current_coin_history w) w).

(** [get_current_coin()]: the coin of the most recent [CurrentCoin] row. *)
Definition get_current_coin (w : World) : option Coin.t :=
  match current_coin_history w with
  | [] => None
  | c :: _ => Some c
  end.

(** [get_pairs_from(from_coin, only_enabled)]. *)
Definition get_pairs_from (from_coin : Coin.t) (only_enabled : bool) (w : World)
  : list Pair.t :=
  let pairs := filter (fun p => Coin.eqb (Pair.from_coin p) from_coin) (pairs w) in
  if only_enabled then filter Pair.enabled pairs else pairs.

(** [current_time - timedelta(hours=hours) if current_time else
    datetime.now() - timedelta(hours=hours)]. *)
Definition time_diff (hours : Z) (current_time : option Z) (w : World) : Z :=
  match current_time with
  | Some t => (t - 3600 * hours)%Z
  | None => (now w - 3600 * hours)%Z
  end.

(** The inner loop of [get_coin_recent_high_price] over the scout records
    of one pair. *)
Definition scan_records (records : list ScoutHistory.t) (max_price : Q) : Q :=
  fold_left
    (fun max_price record =>
       match ScoutHistory.current_coin_price record with
       | Some p => if truthy p && Qlt_bool max_price p then p else max_price
       | None => max_price
       end)
    records max_price.

(** The scout records the query of [get_coin_recent_high_price] selects for
    one pair. *)
Definition scout_records (pair : Pair.t) (since : Z) (w : World)
  : list ScoutHistory.t :=
  filter
    (fun r => Pair.eqb (ScoutHistory.pair r) pair
              && (since <=? ScoutHistory.datetime r)%Z)
    (scout_history w).

(** [get_coin_recent_high_price(coin, hours, current_time)]. *)
Definition get_coin_recent_high_price
  (coin : Coin.t) (hours : Z) (current_time : option Z) (w : World) : option Q :=
  let since := time_diff hours current_time w in
  let pairs_from := filter (fun p => Coin.eqb (Pair.from_coin p) coin) (pairs w) in
  match pairs_from with
  | [] => None
  | _ =>
      let max_price :=
        fold_left
          (fun max_price pair => scan_records (scout_records pair since w) max_price)
          pairs_from 0 in
      if Qlt_bool 0 max_price then Some max_price else None
  end.

(** The prices that are not [None], in row order. *)
Fixpoint usd_prices (l : list CoinValue.t) : list Q :=
  match l with
  | [] => []
  | cv :: tl =>
      match CoinValue.usd_price cv with
      | Some p => p :: usd_prices tl
      | None => usd_prices tl
      end
  end.

(** [get_coin_high_price_from_values(coin, hours, current_time)]. *)
Definition get_coin_high_price_from_values
  (coin : Coin.t) (hours : Z) (current_time : option Z) (w : World) : option Q :=
  let since := time_diff hours current_time w in
  let coin_values :=
    filter
      (fun cv => Coin.eqb (CoinValue.coin cv) coin
                 && (since <=? CoinValue.datetime cv)%Z)
      (coin_values w) in
  match coin_values with
  | [] => None
  | _ => py_max_list (usd_prices coin_values)
  end.

(** [log_scout(pair, target_ratio, current_coin_price, other_coin_price)]:
    a new [ScoutHistory] row stamped with the current time. *)
Definition log_scout
  (pair : Pair.t) (target_ratio current_coin_price other_coin_price : Q) : M unit :=
  fun w =>
    (Ok tt,
     with_scout_history
       (scout_history w ++
        [ScoutHistory.mk pair target_ratio (Some current_coin_price)
                         (Some other_coin_price) (now w)])
       w).

End Database.

(* ================================================================== *)
(** * database.py: class TradeLog                                      *)
(* ================================================================== *)

Module TradeLog.

(** A [TradeLog] holds the row of its [Trade]. *)
Record t : Type := mk { trade : nat }.

Fixpoint update_row (n : nat) (f : Trade.t -> Trade.t) (l : list Trade.t)
  : list Trade.t :=
  match l, n with
  | [], _ => []
  | x :: tl, O => f x :: tl
  | x :: tl, S n' => x :: update_row n' f tl
  end.

(** [TradeLog(db, from_coin, to_coin, selling)]: adds the new [Trade]. *)
Definition init (from_coin to_coin : Coin.t) (selling : bool) : M t :=
  fun w =>
    (Ok (mk (length (trades w))),
     with_trades (trades w ++ [Trade.new from_coin to_coin selling]) w).

(** The assignments of [set_ordered] on the merged row. *)
Definition ordered
  (alt_starting_balance crypto_starting_balance alt_trade_amount : Q)
  (trade : Trade.t) : Trade.t :=
  Trade.mk (Trade.alt_coin trade) (Trade.crypto_coin trade) (Trade.selling trade)
           Trade.ORDERED
           (Some alt_starting_balance)
           (Some alt_trade_amount)
           (Some crypto_starting_balance)
           (Trade.crypto_trade_amount trade).

(** The assignments of [set_complete] on the merged row. *)
Definition complete (crypto_trade_amount : Q) (trade : Trade.t) : Trade.t :=
  Trade.mk (Trade.alt_coin trade) (Trade.crypto_coin trade) (Trade.selling trade)
           Trade.COMPLETE
           (Trade.alt_starting_balance trade)
           (Trade.alt_trade_amount trade)
           (Trade.crypto_starting_balance trade)
           (Some crypto_trade_amount).

(** [set_ordered(alt_starting_balance, crypto_starting_balance,
    alt_trade_amount)]. *)
Definition set_ordered
  (self : t) (alt_starting_balance crypto_starting_balance alt_trade_amount : Q)
  : M unit :=
  fun w =>
    (Ok tt,
     with_trades
       (update_row (trade self)
          (ordered alt_starting_balance crypto_starting_balance alt_trade_amount)
          (trades w))
       w).

(** [set_complete(crypto_trade_amount)]. *)
Definition set_complete (self : t) (crypto_trade_amount : Q) : M unit :=
  fun w =>
    (Ok tt,
     with_trades (update_row (trade self) (complete crypto_trade_amount) (trades w)) w).

(** The log's trade as stored, and its state. *)
Definition row (self : t) (w : World) : option Trade.t :=
  nth_error (trades w) (trade self).

Definition state (self : t) (w : World) : option Trade.TradeState :=
  option_map Trade.state (row self w).

End TradeLog.

(** [start_trade_log(from_coin, to_coin, selling)]. *)
Definition start_trade_log (from_coin to_coin : Coin.t) (selling : bool)
  : M TradeLog.t :=
  TradeLog.init from_coin to_coin selling.

(* ================================================================== *)
(** * External collaborators: configuration and exchange gateway       *)
(* ================================================================== *)

Module Config.
Record t : Type := mk {
  BRIDGE : Coin.t;
  SCOUT_MULTIPLIER : Q;
  STOP_LOSS_ENABLED : bool;
  STOP_LOSS_PERCENTAGE : Q;
  TRAILING_STOP_HOURS : Z
}.
End Config.

Module Order.
(** What [buy_alt] and [sell_alt] return on success: an object with a
    [price] attribute. *)
Record t : Type := mk { price : Q }.
End Order.

Module Manager.
(** The gateway answers within one scouting cycle.  Every call may raise;
    [get_ticker_price], [sell_alt] and [buy_alt] may return [None]. *)
Record t : Type := mk {
  get_ticker_price : string -> res (option Q);
  get_fee : Coin.t -> Coin.t -> bool -> res Q;
  get_min_notional : string -> string -> res Q;
  get_currency_balance : string -> res Q;
  sell_alt : Coin.t -> Coin.t -> res (option Order.t);
  buy_alt : Coin.t -> Coin.t -> res (option Order.t)
}.
End Manager.

(** The value bound to [result] in [transaction_through_bridge]: the order
    object of [buy_alt], or the dict literal [{"price": 1}]. *)
Inductive PyResult : Type :=
| OrderObj (o : Order.t)
| DictObj (items : list (string * Q)).

(** Attribute access [result.price]: a dict has keys, not attributes. *)
Definition attr_price (r : PyResult) : res Q :=
  match r with
  | OrderObj o => Ok (Order.price o)
  | DictObj _ => Raise AttributeError
  end.

(** A [Dict[Pair, float]] in insertion order. *)
Definition RatioDict : Type := list (Pair.t * Q).

(** [d[k] = v]: replaces the value of an existing key, else appends. *)
Fixpoint dict_set (d : RatioDict) (k : Pair.t) (v : Q) : RatioDict :=
  match d with
  | [] => [(k, v)]
  | (k', v') :: tl =>
      if Pair.eqb k' k then (k', v) :: tl else (k', v') :: dict_set tl k v
  end.

Fixpoint dict_get (d : RatioDict) (k : Pair.t) : option Q :=
  match d with
  | [] => None
  | (k', v') :: tl => if Pair.eqb k' k then Some v' else dict_get tl k
  end.

Definition dict_values (d : RatioDict) : list Q := map snd d.

(** Reading the world. *)
Definition reads {A} (f : World -> A) : M A := fun w => (Ok (f w), w).

(** [self.manager.sell_alt(origin, target)]: the order reaches the
    exchange, whatever the answer. *)
Definition sell_alt (manager : Manager.t) (origin target : Coin.t)
  : M (option Order.t) :=
  fun w =>
    (Manager.sell_alt manager origin target,
     with_order_calls (SellAlt origin target :: order_calls w) w).

(** [self.manager.buy_alt(origin, target)]. *)
Definition buy_alt (manager : Manager.t) (origin target : Coin.t)
  : M (option Order.t) :=
  fun w =>
    (Manager.buy_alt manager origin target,
     with_order_calls (BuyAlt origin target :: order_calls w) w).

(** [coin.symbol == 'USDT']. *)
Definition is_USDT (coin : Coin.t) : bool := String.eqb (Coin.symbol coin) "USDT".

(* ================================================================== *)
(** * strategies/test1_strategy.py: class Strategy                     *)
(* ================================================================== *)

Module Test1Strategy.
Section Strategy.

Variable config : Config.t.
Variable manager : Manager.t.

(** Inherited from [AutoTrader], which is not among the embedded files. *)
Variable update_trade_threshold : Coin.t -> Q -> M unit.

Let BRIDGE : Coin.t := Config.BRIDGE config.

(** Lines 44-52 of [transaction_through_bridge]: the value of [can_sell],
    with the log line of the branch that leaves it [False]. *)
Definition can_sell (pair : Pair.t) : M bool :=
  let from_coin := Pair.from_coin pair in
  balance <- lift (Manager.get_currency_balance manager (Coin.symbol from_coin)) ;;
  from_coin_price <- lift (Manager.get_ticker_price manager (Coin.add from_coin BRIDGE)) ;;
  can_sell <-
    (if negb (is_USDT from_coin) && truthy balance then
       notional <- lift (py_mul_opt balance from_coin_price) ;;
       min_notional <- lift (Manager.get_min_notional manager
                               (Coin.symbol from_coin) (Coin.symbol BRIDGE)) ;;
       ret (Qlt_bool min_notional notional)
     else ret false) ;;
  if can_sell then ret true
  else logger INFO "Skipping sell" None ;;; ret false.

(** [transaction_through_bridge(pair)]: jump from the source coin to the
    destination coin through the bridge coin.  The result is [None] or the
    value of [result]. *)
Definition transaction_through_bridge (pair : Pair.t) : M (option PyResult) :=
  let from_coin := Pair.from_coin pair in
  let to_coin := Pair.to_coin pair in
  can_sell <- can_sell pair ;;
  sell_failed <-
    (if can_sell then
       sold <- sell_alt manager from_coin BRIDGE ;;
       ret (match sold with None => true | Some _ => false end)
     else ret false) ;;
  if sell_failed then
    logger INFO "Couldn't sell, going back to scouting mode..." None ;;;
    ret None
  else
    result <-
      (if negb (is_USDT to_coin) then
         bought <- buy_alt manager to_coin BRIDGE ;;
         ret (option_map OrderObj bought)
       else ret (Some (DictObj [("price", 1)]))) ;;
    match result with
    | Some r =>
        Database.set_current_coin to_coin ;;;
        price <- lift (attr_price r) ;;
        update_trade_threshold to_coin price ;;;
        ret (Some r)
    | None =>
        logger INFO "Couldn't buy, going back to scouting mode..." None ;;;
        ret None
    end.

(** Lines 110-113 of [_get_ratios]: the multiplier chosen from the coin
    that is held. *)
Definition cmt (coin : Coin.t) : Q :=
  if is_USDT coin then Config.SCOUT_MULTIPLIER config * 1.4
  else Config.SCOUT_MULTIPLIER config.

(** Lines 135-139 of [_get_ratios]: the multiplier of one pair. *)
Definition mt (pair : Pair.t) (transaction_fee cmt : Q) : res Q :=
  if is_USDT (Pair.to_coin pair) then py_div (-0.001) transaction_fee
  else Ok cmt.

(** Lines 116-121 of [_get_ratios]: price and exit fee of the target. *)
Definition quote (pair : Pair.t) : M (option Q * Q) :=
  if is_USDT (Pair.to_coin pair) then ret (Some 1, 0)
  else
    optional_coin_price <-
      lift (Manager.get_ticker_price manager (Coin.add (Pair.to_coin pair) BRIDGE)) ;;
    fee_out <- lift (Manager.get_fee manager (Pair.to_coin pair) BRIDGE false) ;;
    ret (optional_coin_price, fee_out).

(** The body of the loop of [_get_ratios] (lines 116-141). *)
Definition _get_ratios_body (coin_price cmt : Q) (pair : Pair.t) (ratio_dict : RatioDict)
  : M RatioDict :=
  q <- quote pair ;;
  match fst q with
  | None =>
      logger INFO ("Skipping scouting... optional coin "
                   ++ Coin.add (Pair.to_coin pair) BRIDGE ++ " not found") None ;;;
      ret ratio_dict
  | Some optional_coin_price =>
      let fee_out := snd q in
      Database.log_scout pair (Pair.ratio pair) coin_price optional_coin_price ;;;
      coin_opt_coin_ratio <- lift (py_div coin_price optional_coin_price) ;;
      fee_in <- lift (Manager.get_fee manager (Pair.from_coin pair) BRIDGE true) ;;
      let transaction_fee := fee_in + fee_out in
      mt <- lift (mt pair transaction_fee cmt) ;;
      ret (dict_set ratio_dict pair
             (coin_opt_coin_ratio * (1 - transaction_fee * mt) - Pair.ratio pair))
  end.

(** [_get_ratios(coin, coin_price)]: given a coin, the current price ratio
    for every other enabled coin. *)
Definition _get_ratios (coin : Coin.t) (coin_price : Q) : M RatioDict :=
  pairs <- reads (Database.get_pairs_from coin true) ;;
  for_each pairs (_get_ratios_body coin_price (cmt coin)) [].

End Strategy.
End Test1Strategy.

(* ================================================================== *)
(** * strategies/custom1_strategy.py: class Strategy                   *)
(* ================================================================== *)

Module Custom1Strategy.
Section Strategy.

Variable config : Config.t.
Variable manager : Manager.t.

(** Inherited from [AutoTrader], which is not among the embedded files:
    this class does not override [_get_ratios]. *)
Variable _get_ratios : Coin.t -> Q -> M RatioDict.
Variable _jump_to_best_coin : Coin.t -> Q -> M unit.

Let BRIDGE : Coin.t := Config.BRIDGE config.

(** Set by [initialize] from the configuration. *)
Let stop_loss_enabled : bool := Config.STOP_LOSS_ENABLED config.
Let stop_loss_percentage : Q := Config.STOP_LOSS_PERCENTAGE config.
Let trailing_stop_hours : Z := Config.TRAILING_STOP_HOURS config.

(** [positive_ratios = [ratio for ratio in ratio_dict.values() if ratio > 0]]. *)
Definition positive_ratios (ratio_dict : RatioDict) : list Q :=
  filter (fun ratio => Qlt_bool 0 ratio) (dict_values ratio_dict).

(** [sum(positive_ratios) / len(positive_ratios)]. *)
Definition avg_potential (positive_ratios : list Q) : res Q :=
  py_div (py_sum positive_ratios) (inject_Z (Z.of_nat (length positive_ratios))).

(** Lines 77-87 of [_scout_from_usdt]: the average of the positive ratios
    of one coin; [None] when the loop moves on without one. *)
Definition potential (coin : Coin.t) : M (option Q) :=
  coin_price <- lift (Manager.get_ticker_price manager (Coin.add coin BRIDGE)) ;;
  match coin_price with
  | None => ret None
  | Some coin_price =>
      ratio_dict <- _get_ratios coin coin_price ;;
      match positive_ratios ratio_dict with
      | [] => ret None
      | positive_ratios =>
          avg_potential <- lift (avg_potential positive_ratios) ;;
          ret (Some avg_potential)
      end
  end.

(** The body of the loop of [_scout_from_usdt] (lines 76-94); the
    accumulator is [(best_coin, best_potential)]. *)
Definition _scout_from_usdt_body (coin : Coin.t) (best : option Coin.t * Q)
  : M (option Coin.t * Q) :=
  try_except
    (avg <- potential coin ;;
     match avg with
     | Some avg_potential =>
         if Qlt_bool (snd best) avg_potential
         then ret (Some coin, avg_potential)
         else ret best
     | None => ret best
     end)
    (fun e =>
       logger DEBUG ("Error evaluating coin " ++ Coin.symbol coin ++ ": ") (Some e) ;;;
       ret best).

(** Lines 62-108 of [_scout_from_usdt]: what its [try] protects. *)
Definition _scout_from_usdt_try : M unit :=
  all_coins <- reads (Database.get_coins true) ;;
  let target_coins := filter (fun coin => negb (is_USDT coin)) all_coins in
  match target_coins with
  | [] => logger WARNING "No target coins available for USDT trading" None
  | _ =>
      best <- for_each target_coins _scout_from_usdt_body (None, 0) ;;
      match best with
      | (Some best_coin, best_potential) =>
          if Qlt_bool 0 best_potential then
            logger INFO ("USDT -> " ++ Coin.symbol best_coin ++ ": potential") None ;;;
            result <- buy_alt manager best_coin BRIDGE ;;
            match result with
            | Some _ =>
                Database.set_current_coin best_coin ;;;
                logger INFO ("Successfully bought " ++ Coin.symbol best_coin
                             ++ " from USDT") None
            | None =>
                logger WARNING ("Failed to buy " ++ Coin.symbol best_coin
                                ++ " from USDT") None
            end
          else ret tt
      | (None, _) => ret tt
      end
  end.

(** [_scout_from_usdt()]: the special case of a held USDT. *)
Definition _scout_from_usdt : M unit :=
  try_except _scout_from_usdt_try
    (fun e => logger ERROR "Error in USDT scouting: " (Some e)).

(** A value that is neither [None] nor zero, as the [if]/[elif] tests of
    [_get_recent_high_price] see it. *)
Definition if_truthy (x : option Q) : option Q :=
  match x with
  | Some v => if truthy v then Some v else None
  | None => None
  end.

(** [_get_recent_high_price(current_coin, current_time)]: the highest price
    of the last N hours. *)
Definition _get_recent_high_price (current_coin : Coin.t) (current_time : option Z)
  : M (option Q) :=
  try_except
    (high_price_from_values <-
       reads (Database.get_coin_high_price_from_values
                current_coin (trailing_stop_hours / 24 + 1)%Z current_time) ;;
     high_price_from_scout <-
       reads (Database.get_coin_recent_high_price
                current_coin trailing_stop_hours current_time) ;;
     match if_truthy high_price_from_values, if_truthy high_price_from_scout with
     | Some v, Some s => ret (Some (py_max v s))
     | Some v, None => ret (Some v)
     | None, Some s => ret (Some s)
     | None, None =>
         current_price <-
           lift (Manager.get_ticker_price manager (Coin.add current_coin BRIDGE)) ;;
         logger WARNING ("No high price history for " ++ Coin.symbol current_coin
                         ++ ", using current price as reference") None ;;;
         ret current_price
     end)
    (fun e => logger ERROR "Error getting recent high price: " (Some e) ;;; ret None).

(** [_execute_stop_loss(current_coin)]: sell the held coin for USDT. *)
Definition _execute_stop_loss (current_coin : Coin.t) : M bool :=
  try_except
    (balance <- lift (Manager.get_currency_balance manager (Coin.symbol current_coin)) ;;
     if Qle_bool balance 0 then
       logger INFO "No balance to sell for stop loss" None ;;;
       ret false
     else
       current_price <-
         lift (Manager.get_ticker_price manager (Coin.add current_coin BRIDGE)) ;;
       min_notional <-
         lift (Manager.get_min_notional manager
                 (Coin.symbol current_coin) (Coin.symbol BRIDGE)) ;;
       notional <- lift (py_mul_opt balance current_price) ;;
       if Qlt_bool notional min_notional then
         logger INFO "Balance too small for stop loss trade" None ;;;
         ret false
       else
         logger INFO ("Executing stop loss: selling " ++ Coin.symbol current_coin) None ;;;
         sell_result <- sell_alt manager current_coin BRIDGE ;;
         match sell_result with
         | None =>
             logger ERROR "Failed to sell coin for stop loss" None ;;;
             ret false
         | Some _ =>
             (if negb (is_USDT BRIDGE) then
                all_coins <- reads (Database.get_coins true) ;;
                match find is_USDT all_coins with
                | Some usdt_coin =>
                    buy_result <- buy_alt manager usdt_coin BRIDGE ;;
                    match buy_result with
                    | Some _ =>
                        Database.set_current_coin usdt_coin ;;;
                        logger INFO "Stop loss completed: converted to USDT" None
                    | None =>
                        logger ERROR "Failed to convert to USDT after stop loss" None
                    end
                | None => logger WARNING "USDT coin not found, staying in bridge coin" None
                end
              else
                Database.set_current_coin BRIDGE ;;;
                logger INFO "Stop loss completed: converted to USDT" None) ;;;
             ret true
         end)
    (fun e => logger ERROR "Error executing stop loss: " (Some e) ;;; ret false).

(** [((recent_high_price - current_price) / recent_high_price) * 100]. *)
Definition price_drop_percentage (recent_high_price current_price : Q) : res Q :=
  match py_div (recent_high_price - current_price) recent_high_price with
  | Ok d => Ok (d * 100)
  | Raise e => Raise e
  end.

(** [_check_trailing_stop_loss(current_coin, current_price, current_time)]:
    the trailing stop-loss test against the recent high. *)
Definition _check_trailing_stop_loss
  (current_coin : Coin.t) (current_price : Q) (current_time : option Z) : M bool :=
  try_except
    (if is_USDT current_coin then ret false
     else
       recent_high_price <- _get_recent_high_price current_coin current_time ;;
       match recent_high_price with
       | None =>
           logger DEBUG ("No recent high price data for " ++ Coin.symbol current_coin) None ;;;
           ret false
       | Some recent_high_price =>
           price_drop_percentage <-
             lift (price_drop_percentage recent_high_price current_price) ;;
           if Qle_bool stop_loss_percentage price_drop_percentage
           then _execute_stop_loss current_coin
           else ret false
       end)
    (fun e => logger ERROR "Error checking trailing stop loss: " (Some e) ;;; ret false).

(** [scout(current_time=...)]: one scouting cycle. *)
Definition scout (current_time : option Z) : M unit :=
  current_coin <- reads Database.get_current_coin ;;
  match current_coin with
  | None => raise TypeError
  | Some current_coin =>
      if is_USDT current_coin then _scout_from_usdt
      else
        current_coin_price <-
          lift (Manager.get_ticker_price manager (Coin.add current_coin BRIDGE)) ;;
        match current_coin_price with
        | None =>
            logger INFO ("Skipping scouting... current coin "
                         ++ Coin.add current_coin BRIDGE ++ " not found") None
        | Some current_coin_price =>
            stopped <-
              (if stop_loss_enabled
               then _check_trailing_stop_loss current_coin current_coin_price current_time
               else ret false) ;;
            if stopped then ret tt
            else _jump_to_best_coin current_coin current_coin_price
        end
  end.

End Strategy.
End Custom1Strategy.

(* ================================================================== *)
(** * Specification-level functions used in the statements             *)
(* ================================================================== *)

(** The price and exit fee [_get_ratios] uses for the target of a pair, as
    a function of the gateway alone. *)
Definition target_quote (config : Config.t) (manager : Manager.t) (pair : Pair.t)
  : res (option Q * Q) :=
  if is_USDT (Pair.to_coin pair) then Ok (Some 1, 0)
  else
    match Manager.get_ticker_price manager
            (Coin.add (Pair.to_coin pair) (Config.BRIDGE config)) with
    | Raise e => Raise e
    | Ok price =>
        match Manager.get_fee manager (Pair.to_coin pair) (Config.BRIDGE config) false with
        | Raise e => Raise e
        | Ok fee_out => Ok (price, fee_out)
        end
    end.

(** The score one pass of the loop of [_get_ratios] stores for a pair:
    [Ok None] when the pair is skipped, [Raise] when the pass raises. *)
Definition score (config : Config.t) (manager : Manager.t)
  (coin_price cmt : Q) (pair : Pair.t) : res (option Q) :=
  match target_quote config manager pair with
  | Raise e => Raise e
  | Ok (None, _) => Ok None
  | Ok (Some optional_coin_price, fee_out) =>
      match py_div coin_price optional_coin_price with
      | Raise e => Raise e
      | Ok coin_opt_coin_ratio =>
          match Manager.get_fee manager (Pair.from_coin pair) (Config.BRIDGE config) true with
          | Raise e => Raise e
          | Ok fee_in =>
              match Test1Strategy.mt pair (fee_in + fee_out) cmt with
              | Raise e => Raise e
              | Ok mt =>
                  Ok (Some (coin_opt_coin_ratio * (1 - (fee_in + fee_out) * mt)
                            - Pair.ratio pair))
              end
          end
      end
  end.

(** The dictionary the loop of [_get_ratios] builds, as a function of the
    gateway alone. *)
Fixpoint ratios_of (config : Config.t) (manager : Manager.t)
  (coin_price cmt : Q) (pairs : list Pair.t) (ratio_dict : RatioDict) : res RatioDict :=
  match pairs with
  | [] => Ok ratio_dict
  | p :: tl =>
      match score config manager coin_price cmt p with
      | Raise e => Raise e
      | Ok None => ratios_of config manager coin_price cmt tl ratio_dict
      | Ok (Some s) =>
          ratios_of config manager coin_price cmt tl (dict_set ratio_dict p s)
      end
  end.

(** Modelled from the spec: the order legs of the Market Gateway
    ([binance_api_manager.py], not among the embedded files), which are the
    callers of a [TradeLog]: "[CREATED] is set at the moment a rotation is
    decided and before any exchange call is issued.  [ORDERED] is set after
    the sell leg (or bridge pass-through) confirms, carrying the observed
    starting balances and traded amount.  [COMPLETE] is set after the buy
    leg confirms, carrying the final acquired amount."  [ordered] and
    [completed] are the confirmations of the exchange, [None] for a leg
    that failed; the result is the sequence of states observed in the
    [Trade] table. *)
Definition trade_lifecycle
  (from_coin to_coin : Coin.t) (selling : bool)
  (ordered : option (Q * Q * Q)) (completed : option Q)
  : M (list (option Trade.TradeState)) :=
  trade_log <- start_trade_log from_coin to_coin selling ;;
  s0 <- reads (TradeLog.state trade_log) ;;
  match ordered with
  | None => ret [s0]
  | Some (alt_starting_balance, crypto_starting_balance, alt_trade_amount) =>
      TradeLog.set_ordered trade_log
        alt_starting_balance crypto_starting_balance alt_trade_amount ;;;
      s1 <- reads (TradeLog.state trade_log) ;;
      match completed with
      | None => ret [s0; s1]
      | Some crypto_trade_amount =>
          TradeLog.set_complete trade_log crypto_trade_amount ;;;
          s2 <- reads (TradeLog.state trade_log) ;;
          ret [s0; s1; s2]
      end
  end.

(** The order of the states of a trade. *)
Definition state_rank (s : Trade.TradeState) : nat :=
  match s with
  | Trade.CREATED => 0
  | Trade.ORDERED => 1
  | Trade.COMPLETE => 2
  end.

(** The lines [transaction_through_bridge] logs. *)
Definition skipping_sell : LogEntry := mkLog INFO "Skipping sell" None.

Definition could_not_sell : LogEntry :=
  mkLog INFO "Couldn't sell, going back to scouting mode..." None.

Definition could_not_buy : LogEntry :=
  mkLog INFO "Couldn't buy, going back to scouting mode..." None.

(** The world after the sell leg of [transaction_through_bridge]: unchanged
    but for the order sent, or for the log line of a skipped sell. *)
Definition after_sell_leg (config : Config.t) (can_sell : bool) (pair : Pair.t)
  (w : World) : World :=
  if can_sell
  then with_order_calls
         (SellAlt (Pair.from_coin pair) (Config.BRIDGE config) :: order_calls w) w
  else with_log (skipping_sell :: log w) w.

(** [p] is the [current_coin_price] of a scout record, not older than
    [since], of a pair whose source is [coin]. *)
Definition scouted_price (coin : Coin.t) (since : Z) (w : World) (p : Q) : Prop :=
  exists pair record,
    In pair (pairs w) /\
    Coin.eqb (Pair.from_coin pair) coin = true /\
    In record (scout_history w) /\
    Pair.eqb (ScoutHistory.pair record) pair = true /\
    (since <= ScoutHistory.datetime record)%Z /\
    ScoutHistory.current_coin_price record = Some p.

(** [p] is the [usd_price] of a price point of [coin] not older than
    [since]. *)
Definition sampled_price (coin : Coin.t) (since : Z) (w : World) (p : Q) : Prop :=
  exists cv,
    In cv (coin_values w) /\
    Coin.eqb (CoinValue.coin cv) coin = true /\
    (since <= CoinValue.datetime cv)%Z /\
    CoinValue.usd_price cv = Some p.

(** The two lookups of [_get_recent_high_price], with its arguments. *)
Definition high_from_values (config : Config.t) (coin : Coin.t) (ct : option Z)
  (w : World) : option Q :=
  Database.get_coin_high_price_from_values
    coin (Config.TRAILING_STOP_HOURS config / 24 + 1)%Z ct w.

Definition high_from_scout (config : Config.t) (coin : Coin.t) (ct : option Z)
  (w : World) : option Q :=
  Database.get_coin_recent_high_price coin (Config.TRAILING_STOP_HOURS config) ct w.

(** The lines the stop-loss monitor logs when it has nothing to do. *)
Definition no_history_warning (coin : Coin.t) : LogEntry :=
  mkLog WARNING ("No high price history for " ++ Coin.symbol coin
                 ++ ", using current price as reference") None.

Definition no_balance : LogEntry := mkLog INFO "No balance to sell for stop loss" None.

Definition balance_too_small : LogEntry :=
  mkLog INFO "Balance too small for stop loss trade" None.

(** The body of the loop of [_scout_from_usdt], by a shorter name. *)
Definition usdt_body (config : Config.t) (manager : Manager.t)
  (_get_ratios : Coin.t -> Q -> M RatioDict)
  : Coin.t -> option Coin.t * Q -> M (option Coin.t * Q) :=
  Custom1Strategy._scout_from_usdt_body config manager _get_ratios.

(** The accumulator of the loop of [_scout_from_usdt]: no coin and
    potential [0], or a coin of the list with a positive potential. *)
Definition selected_candidate (coins : list Coin.t) (best : option Coin.t * Q) : Prop :=
  match fst best with
  | None => snd best = 0
  | Some coin => In coin coins /\ 0 < snd best
  end.

(** Walks two positions of a short explicit list of states. *)
Ltac rank_cases :=
  repeat match goal with
    | H : nth_error [] ?i = Some _ |- _ => destruct i; discriminate H
    | H : nth_error (_ :: _) ?i = Some _ |- _ => destruct i; simpl in H
    | H : Some _ = Some _ |- _ => injection H as <-
    end;
  simpl; lia.

(** Splits the outcome of every gateway call and test in the goal. *)
Ltac split_calls :=
  repeat match goal with
    | |- context [match ?x with Ok _ => _ | Raise _ => _ end] =>
        let E := fresh "Hcall" in destruct x eqn:E; simpl
    | |- context [match ?x with Some _ => _ | None => _ end] =>
        let E := fresh "Hopt" in destruct x eqn:E; simpl
    | |- context [if ?b then _ else _] =>
        let E := fresh "Htest" in destruct b eqn:E; simpl
    end.

(* ================================================================== *)
(** * Scenarios                                                        *)
(* ================================================================== *)

Module Scenario.

Definition ETH : Coin.t := Coin.mk "ETH" true.
Definition BTC : Coin.t := Coin.mk "BTC" true.
Definition USDT : Coin.t := Coin.mk "USDT" true.

(** Bridge USDT, sensitivity 5, stop-loss at 15% over 24 hours. *)
Definition config : Config.t := Config.mk USDT 5 true 15 24.

(** ETH at 2000, BTC at 40000, a fee of 0.001 per leg (0.002 for the round
    trip), one ETH held, minimum notional 10, every order filled. *)
Definition manager : Manager.t :=
  Manager.mk
    (fun ticker =>
       if String.eqb ticker "ETHUSDT" then Ok (Some 2000)
       else if String.eqb ticker "BTCUSDT" then Ok (Some 40000)
       else Ok None)
    (fun _ _ _ => Ok 0.001)
    (fun _ _ => Ok 10)
    (fun _ => Ok 1)
    (fun _ _ => Ok (Some (Order.mk 2000)))
    (fun _ _ => Ok (Some (Order.mk 40000))).

Definition ETH_BTC : Pair.t := Pair.mk 1 ETH BTC 0.05 true.
Definition ETH_USDT : Pair.t := Pair.mk 2 ETH USDT 2000 true.
Definition BTC_ETH : Pair.t := Pair.mk 3 BTC ETH 20 true.

(** ETH is held; nothing has been scouted, sampled or logged yet. *)
Definition world : World :=
  mkWorld [ETH; BTC; USDT] [ETH_BTC] [ETH] [] [] [] [] [] 1000000.

(** The inherited [update_trade_threshold], as a stub that only logs. *)
Definition update_trade_threshold (coin : Coin.t) (price : Q) : M unit :=
  logger DEBUG "update_trade_threshold" None.

(** The inherited [_jump_to_best_coin], as a stub that only logs. *)
Definition _jump_to_best_coin (coin : Coin.t) (price : Q) : M unit :=
  logger DEBUG "_jump_to_best_coin" None.

(** The inherited [_get_ratios], as a stub: one positive ratio for BTC,
    none for any other coin. *)
Definition _get_ratios (coin : Coin.t) (price : Q) : M RatioDict :=
  if Coin.eqb coin BTC then ret [(BTC_ETH, 0.01)] else ret [].

(** The gateway of [manager] with one answer replaced. *)
Definition manager_sell_fails : Manager.t :=
  Manager.mk (Manager.get_ticker_price manager) (Manager.get_fee manager)
             (Manager.get_min_notional manager) (Manager.get_currency_balance manager)
             (fun _ _ => Ok None) (Manager.buy_alt manager).

Definition manager_buy_fails : Manager.t :=
  Manager.mk (Manager.get_ticker_price manager) (Manager.get_fee manager)
             (Manager.get_min_notional manager) (Manager.get_currency_balance manager)
             (Manager.sell_alt manager) (fun _ _ => Ok None).

Definition manager_zero_fee : Manager.t :=
  Manager.mk (Manager.get_ticker_price manager) (fun _ _ _ => Ok 0)
             (Manager.get_min_notional manager) (Manager.get_currency_balance manager)
             (Manager.sell_alt manager) (Manager.buy_alt manager).

Definition manager_no_balance : Manager.t :=
  Manager.mk (Manager.get_ticker_price manager) (Manager.get_fee manager)
             (Manager.get_min_notional manager) (fun _ => Ok 0)
             (Manager.sell_alt manager) (Manager.buy_alt manager).

(** 0.001 ETH at 2000 is worth 2, below the minimum notional of 10. *)
Definition manager_dust : Manager.t :=
  Manager.mk (Manager.get_ticker_price manager) (Manager.get_fee manager)
             (Manager.get_min_notional manager) (fun _ => Ok 0.001)
             (Manager.sell_alt manager) (Manager.buy_alt manager).

(** ETH has fallen to 80. *)
Definition manager_eth_80 : Manager.t :=
  Manager.mk
    (fun ticker => if String.eqb ticker "ETHUSDT" then Ok (Some 80) else Ok None)
    (Manager.get_fee manager)
    (Manager.get_min_notional manager) (Manager.get_currency_balance manager)
    (Manager.sell_alt manager) (Manager.buy_alt manager).

(** The configuration with a stop-loss percentage of zero. *)
Definition config_zero_threshold : Config.t := Config.mk USDT 5 true 0 24.

(** The world with the pair from ETH to USDT as well. *)
Definition world_with_usdt_pair : World :=
  mkWorld [ETH; BTC; USDT] [ETH_BTC; ETH_USDT] [ETH] [] [] [] [] [] 1000000.

(** ETH was sampled at 100 an hour ago. *)
Definition world_high_100 : World :=
  mkWorld [ETH; BTC; USDT] [ETH_BTC] [ETH] []
          [CoinValue.mk ETH (Some 100) (1000000 - 3600)] [] [] [] 1000000.

(** ETH was sampled at 100 five hours ago. *)
Definition world_high_100_five_hours_ago : World :=
  mkWorld [ETH; BTC; USDT] [ETH_BTC] [ETH] []
          [CoinValue.mk ETH (Some 100) (1000000 - 5 * 3600)] [] [] [] 1000000.

(** USDT is held. *)
Definition world_in_usdt : World :=
  mkWorld [ETH; BTC; USDT] [BTC_ETH] [USDT] [] [] [] [] [] 1000000.

(** A holding too small to sell, and an exchange that refuses the buy. *)
Definition manager_dust_buy_fails : Manager.t :=
  Manager.mk (Manager.get_ticker_price manager) (Manager.get_fee manager)
             (Manager.get_min_notional manager) (fun _ => Ok 0.001)
             (Manager.sell_alt manager) (fun _ _ => Ok None).


(** The configuration with a stop-loss percentage of 0.01. *)
Definition config_low_threshold : Config.t := Config.mk USDT 5 true 0.01 24.

End Scenario.

(* ================================================================== *)
(** * database.py: further methods of class Database                   *)
(* ================================================================== *)

Definition with_coin_values (v : list CoinValue.t) (w : World) : World :=
  mkWorld (coins w) (pairs w) (current_coin_history w) (scout_history w) v
          (trades w) (log w) (order_calls w) (now w).

(** Time passes between two calls: every method reads [datetime.now()]
    anew, so a call made [seconds] later than another runs in the world
    whose clock has moved on by [seconds]. *)
Definition elapse (seconds : Z) (w : World) : World :=
  mkWorld (coins w) (pairs w) (current_coin_history w) (scout_history w)
          (coin_values w) (trades w) (log w) (order_calls w) (now w + seconds)%Z.

(** A method argument of type [Union[Coin, str]]. *)
Definition CoinOrSymbol : Type := (Coin.t + string)%type.

Module Db.

(** What [session.expunge(None)] raises: the row looked up is missing. *)
Definition UnmappedInstanceError : exn := ExternalError "UnmappedInstanceError".

(** [get_coin(coin)]: a [Coin] is returned as it is; a symbol is looked up
    by primary key, and expunging the [None] of a missing row raises. *)
Definition get_coin (coin : CoinOrSymbol) : M Coin.t :=
  match coin with
  | inl c => ret c
  | inr symbol =>
      found <- reads (fun w => find (fun c => String.eqb (Coin.symbol c) symbol) (coins w)) ;;
      match found with
      | Some c => ret c
      | None => raise UnmappedInstanceError
      end
  end.

(** [set_current_coin(coin)] for a [Coin] or a symbol. *)
Definition set_current_coin (coin : CoinOrSymbol) : M unit :=
  c <- get_coin coin ;;
  Database.set_current_coin c.

(** [get_pair(from_coin, to_coin)]: the first pair of the two coins;
    expunging the [None] of a missing pair raises. *)
Definition get_pair (from_coin to_coin : CoinOrSymbol) : M Pair.t :=
  from_coin <- get_coin from_coin ;;
  to_coin <- get_coin to_coin ;;
  found <-
    reads (fun w =>
             find (fun p => Coin.eqb (Pair.from_coin p) from_coin
                            && Coin.eqb (Pair.to_coin p) to_coin)
                  (pairs w)) ;;
  match found with
  | Some p => ret p
  | None => raise UnmappedInstanceError
  end.

(** [get_pairs(only_enabled)]. *)
Definition get_pairs (only_enabled : bool) (w : World) : list Pair.t :=
  if only_enabled then filter Pair.enabled (pairs w) else pairs w.

(** [Trade.state == TradeState.COMPLETE]. *)
Definition is_COMPLETE (s : Trade.TradeState) : bool :=
  match s with Trade.COMPLETE => true | _ => false end.

(** The filter of [get_latest_buy_trade]. *)
Definition is_completed_buy (coin : Coin.t) (trade : Trade.t) : bool :=
  Coin.eqb (Trade.alt_coin trade) coin
  && negb (Trade.selling trade)
  && is_COMPLETE (Trade.state trade).

(** [get_latest_buy_trade(coin)]: the latest completed buy trade of a coin.
    A trade is stamped when it is created and rows are in the order of
    their creation, so the latest by [datetime] is the last row. *)
Definition get_latest_buy_trade (coin : CoinOrSymbol) : M (option Trade.t) :=
  coin <- get_coin coin ;;
  reads (fun w => find (is_completed_buy coin) (rev (trades w))).

(** [record_price_point(coin, price, current_time)]: a new [CoinValue] row
    at [current_time or datetime.now()].  Of the row the embedding keeps
    the coin, [usd_price] and [datetime]. *)
Definition record_price_point
  (coin : CoinOrSymbol) (price : Q) (current_time : option Z) : M unit :=
  coin <- get_coin coin ;;
  fun w =>
    (Ok tt,
     with_coin_values
       (coin_values w ++
        [CoinValue.mk coin (Some price)
           (match current_time with Some t => t | None => now w end)])
       w).

(** The rows the query of [clear_coin_values_before] selects, for
    [interval=None]. *)
Definition is_cleared (before_time : Z) (coin : option Coin.t) (cv : CoinValue.t) : bool :=
  (CoinValue.datetime cv <? before_time)%Z
  && match coin with
     | Some c => Coin.eqb (CoinValue.coin cv) c
     | None => true
     end.

(** [clear_coin_values_before(before_time, coin, interval=None)]: deletes
    the [CoinValue] rows older than [before_time], of one coin or of all,
    and returns their number.  The argument [interval] is left at its
    default, as [clear_old_coin_values] calls the method. *)
Definition clear_coin_values_before
  (before_time : Z) (coin : option CoinOrSymbol) : M nat :=
  coin <-
    (match coin with
     | Some c => c' <- get_coin c ;; ret (Some c')
     | None => ret None
     end) ;;
  count <- reads (fun w => length (filter (is_cleared before_time coin) (coin_values w))) ;;
  (if (0 <? count)%nat then
     (fun w =>
        (Ok tt,
         with_coin_values
           (filter (fun cv => negb (is_cleared before_time coin cv)) (coin_values w)) w)) ;;;
     logger INFO "Cleared CoinValue records" None
   else logger INFO "No CoinValue records found to clear" None) ;;;
  ret count.

(** [clear_old_coin_values(days, coin)]: with
    [cutoff_time = datetime.now() - timedelta(days=days)]. *)
Definition clear_old_coin_values (days : Z) (coin : option CoinOrSymbol) : M nat :=
  cutoff_time <- reads (fun w => (now w - 86400 * days)%Z) ;;
  clear_coin_values_before cutoff_time coin.

(** [prune_scout_history()]: deletes the scout records older than
    [SCOUT_HISTORY_PRUNE_TIME] hours, a whole number here. *)
Definition prune_scout_history (SCOUT_HISTORY_PRUNE_TIME : Z) : M unit :=
  fun w =>
    let time_diff := (now w - 3600 * SCOUT_HISTORY_PRUNE_TIME)%Z in
    (Ok tt,
     with_scout_history
       (filter (fun r => negb (ScoutHistory.datetime r <? time_diff)%Z) (scout_history w))
       w).

End Db.

(* ================================================================== *)
(** * The methods both strategy files define alike                     *)
(* ================================================================== *)

(** How [initialize_current_coin] ends: it returns, or [sys.exit] ends
    the process. *)
Inductive Startup : Type :=
| Returned
| SystemExit (message : string).

Module SharedStrategy.
Section Strategy.

Variable config : Config.t.
Variable manager : Manager.t.

(** [self.config.SUPPORTED_COIN_LIST] and [self.config.CURRENT_COIN_SYMBOL]. *)
Variable SUPPORTED_COIN_LIST : list string.
Variable CURRENT_COIN_SYMBOL : string.

(** The draw of [random.choice]: an index into its argument. *)
Variable random_index : nat.

(** [super().bridge_scout()], inherited from [AutoTrader]. *)
Variable super_bridge_scout : M (option Coin.t).

Let BRIDGE : Coin.t := Config.BRIDGE config.

(** [random.choice(seq)]: [IndexError] on an empty sequence. *)
Definition random_choice (seq : list string) : res string :=
  match seq with
  | [] => Raise (ExternalError "IndexError")
  | x :: _ => Ok (nth (random_index mod length seq) seq x)
  end.

(** [bridge_scout()] (test1_strategy.py lines 71-80, custom1_strategy.py
    lines 274-283). *)
Definition bridge_scout : M unit :=
  current_coin <- reads Database.get_current_coin ;;
  match current_coin with
  | None => raise AttributeError
  | Some current_coin =>
      balance <- lift (Manager.get_currency_balance manager (Coin.symbol current_coin)) ;;
      min_notional <-
        lift (Manager.get_min_notional manager
                (Coin.symbol current_coin) (Coin.symbol BRIDGE)) ;;
      if Qlt_bool min_notional balance then ret tt
      else
        new_coin <- super_bridge_scout ;;
        match new_coin with
        | Some new_coin => Database.set_current_coin new_coin
        | None => ret tt
        end
  end.

(** [initialize_current_coin()] (test1_strategy.py lines 82-102,
    custom1_strategy.py lines 285-305): decide what the current coin is,
    and set it up in the database. *)
Definition initialize_current_coin : M Startup :=
  current_coin <- reads Database.get_current_coin ;;
  match current_coin with
  | Some _ => ret Returned
  | None =>
      current_coin_symbol <-
        (if String.eqb CURRENT_COIN_SYMBOL ""
         then lift (random_choice SUPPORTED_COIN_LIST)
         else ret CURRENT_COIN_SYMBOL) ;;
      logger INFO ("Setting initial coin to " ++ current_coin_symbol) None ;;;
      if negb (existsb (String.eqb current_coin_symbol) SUPPORTED_COIN_LIST) then
        ret (SystemExit "Since there is no backup file, a proper coin name must be provided at init")
      else
        Db.set_current_coin (inr current_coin_symbol) ;;;
        if String.eqb CURRENT_COIN_SYMBOL "" then
          current_coin <- reads Database.get_current_coin ;;
          match current_coin with
          | None => raise TypeError
          | Some current_coin =>
              logger INFO ("Purchasing " ++ Coin.symbol current_coin
                           ++ " to begin trading") None ;;;
              buy_alt manager current_coin BRIDGE ;;;
              logger INFO "Ready to start trading" None ;;;
              ret Returned
          end
        else ret Returned
  end.

End Strategy.
End SharedStrategy.

(* ================================================================== *)
(** * strategies/test1_strategy.py: the scouting cycle                 *)
(* ================================================================== *)

Module Test1Scout.
Section Strategy.

Variable config : Config.t.
Variable manager : Manager.t.

(** Inherited from [AutoTrader]. *)
Variable _jump_to_best_coin : Coin.t -> Q -> M unit.

Let BRIDGE : Coin.t := Config.BRIDGE config.

(** [scout()] (lines 15-35): scout for potential jumps from the current
    coin to another coin. *)
Definition scout : M unit :=
  current_coin <- reads Database.get_current_coin ;;
  match current_coin with
  | None => raise TypeError
  | Some current_coin =>
      current_coin_price <-
        lift (Manager.get_ticker_price manager (Coin.add current_coin BRIDGE)) ;;
      match current_coin_price with
      | None =>
          logger INFO ("Skipping scouting... current coin "
                       ++ Coin.add current_coin BRIDGE ++ " not found") None
      | Some current_coin_price => _jump_to_best_coin current_coin current_coin_price
      end
  end.

End Strategy.
End Test1Scout.

(* ================================================================== *)
(** * strategies/custom1_strategy.py: price points and entry price     *)
(* ================================================================== *)

Module Custom1Prices.
Section Strategy.

Variable config : Config.t.
Variable manager : Manager.t.

(** [_record_price_point(current_coin, current_price, current_time)]
    (lines 113-124). *)
Definition _record_price_point
  (current_coin : Coin.t) (current_price : Q) (current_time : option Z) : M unit :=
  try_except
    (if is_USDT current_coin then ret tt
     else Db.record_price_point (inl current_coin) current_price current_time)
    (fun e => logger ERROR "Error recording price point: " (Some e)).

(** [_check_stop_loss(current_coin, current_price)] (lines 193-197). *)
Definition _check_stop_loss (current_coin : Coin.t) (current_price : Q) : M bool :=
  Custom1Strategy._check_trailing_stop_loss config manager current_coin current_price None.

(** [_get_entry_price(current_coin)] (lines 199-215): the price the coin
    was last bought at. *)
Definition _get_entry_price (current_coin : Coin.t) : M (option Q) :=
  try_except
    (latest_trade <- Db.get_latest_buy_trade (inl current_coin) ;;
     match latest_trade with
     | Some latest_trade =>
         if truthy_opt (Trade.crypto_trade_amount latest_trade)
            && truthy_opt (Trade.alt_trade_amount latest_trade)
         then
           match Trade.crypto_trade_amount latest_trade,
                 Trade.alt_trade_amount latest_trade with
           | Some crypto_trade_amount, Some alt_trade_amount =>
               entry_price <- lift (py_div crypto_trade_amount alt_trade_amount) ;;
               ret (Some entry_price)
           | _, _ => raise TypeError
           end
         else ret None
     | None => ret None
     end)
    (fun e => logger ERROR "Error getting entry price: " (Some e) ;;; ret None).

End Strategy.
End Custom1Prices.

(* ================================================================== *)
(** * Specification-level functions of the further properties          *)
(* ================================================================== *)

(** The scout records [_get_ratios] writes for a list of pairs at the
    price [coin_price]: one for every pair whose target price resolves. *)
Fixpoint scouted_rows (config : Config.t) (manager : Manager.t)
  (coin_price : Q) (at_time : Z) (pairs : list Pair.t) : list ScoutHistory.t :=
  match pairs with
  | [] => []
  | p :: tl =>
      match target_quote config manager p with
      | Ok (Some optional_coin_price, _) =>
          ScoutHistory.mk p (Pair.ratio p) (Some coin_price)
                          (Some optional_coin_price) at_time
          :: scouted_rows config manager coin_price at_time tl
      | _ => scouted_rows config manager coin_price at_time tl
      end
  end.

(** [w'] differs from [w] by scout records and log lines added, at most. *)
Definition only_scouted (w w' : World) : Prop :=
  coins w' = coins w /\
  pairs w' = pairs w /\
  current_coin_history w' = current_coin_history w /\
  coin_values w' = coin_values w /\
  trades w' = trades w /\
  order_calls w' = order_calls w /\
  now w' = now w /\
  (exists rows, scout_history w' = (scout_history w ++ rows)%list) /\
  (exists lines, log w' = (lines ++ log w)%list).

(* ================================================================== *)
(** * The same code over binary64                                      *)
(* ================================================================== *)

(** Python's [float] is the IEEE 754 binary64 format with rounding to the
    nearest, ties to even: the kernel's primitive [float], with the same
    reading of decimal literals.  Over exact rationals the comparison and
    the maximum of stored numbers are what Python computes, but the result
    of [+], [-], [*] and [/] is not: it is rounded.  The methods whose
    decisions rest on a computed number are embedded again below, over
    [float]: the ratio engine and the sell guard of test1_strategy.py, the
    stop-loss monitor and the scouting from USDT of custom1_strategy.py,
    and the methods of database.py they call. *)
Module Binary64.

#[local] Open Scope float_scope.

(** Truthiness of a Python float: zero (of either sign) is falsy. *)
Definition truthy (x : float) : bool := negb (x =? 0).

Definition truthy_opt (x : option float) : bool :=
  match x with Some v => truthy v | None => false end.

(** Python's [a / b]: [ZeroDivisionError] on a zero divisor. *)
Definition py_div (a b : float) : res float :=
  if b =? 0 then Raise ZeroDivisionError else Ok (a / b).

(** Python's [a * b] where [b] may be [None]. *)
Definition py_mul_opt (a : float) (b : option float) : res float :=
  match b with Some v => Ok (a * v) | None => Raise TypeError end.

(** Python's [max(a, b)]: [b] when [b > a], else [a]. *)
Definition py_max (a b : float) : float := if a <? b then b else a.

(** Python's [max(prices)], left to right; [None] on the empty list (the
    callers test emptiness first). *)
Definition py_max_list (l : list float) : option float :=
  match l with
  | [] => None
  | x :: tl => Some (fold_left py_max tl x)
  end.

(** [len(l)] as the float it is converted to by [/]. *)
Definition py_len {A} (l : list A) : float :=
  of_uint63 (Uint63.of_Z (Z.of_nat (length l))).

(** The exact value of a float, in lowest terms: [None] for an infinity
    or a NaN. *)
Definition exact (x : float) : option Q :=
  match Prim2SF x with
  | S754_zero _ => Some (0 # 1)
  | S754_finite s m e =>
      let v := match e with
               | Z0 => Zpos m # 1
               | Zpos p => (Zpos m * 2 ^ Zpos p)%Z # 1
               | Zneg p => Zpos m # (2 ^ p)%positive
               end in
      Some (Qred (if s then Qopp v else v))
  | _ => None
  end.

Module Pair.
Record t : Type := mk {
  id : Z;
  from_coin : Coin.t;
  to_coin : Coin.t;
  ratio : float;
  enabled : bool
}.

Definition eqb (a b : t) : bool := Z.eqb (id a) (id b).
End Pair.

Module ScoutHistory.
Record t : Type := mk {
  pair : Pair.t;
  target_ratio : float;
  current_coin_price : option float;
  other_coin_price : option float;
  datetime : Z
}.
End ScoutHistory.

Module CoinValue.
Record t : Type := mk {
  coin : Coin.t;
  usd_price : option float;
  datetime : Z
}.
End CoinValue.

Record World : Type := mkWorld {
  coins : list Coin.t;                     (* table Coin *)
  pairs : list Pair.t;                     (* table Pair *)
  current_coin_history : list Coin.t;      (* table CurrentCoin, newest first *)
  scout_history : list ScoutHistory.t;     (* table ScoutHistory, oldest first *)
  coin_values : list CoinValue.t;          (* table CoinValue *)
  log : list LogEntry;                     (* logger output, newest first *)
  order_calls : list OrderCall;            (* orders sent, newest first *)
  now : Z                                  (* the clock *)
}.

Definition with_scout_history (h : list ScoutHistory.t) (w : World) : World :=
  mkWorld (coins w) (pairs w) (current_coin_history w) h (coin_values w)
          (log w) (order_calls w) (now w).

Definition with_log (l : list LogEntry) (w : World) : World :=
  mkWorld (coins w) (pairs w) (current_coin_history w) (scout_history w)
          (coin_values w) l (order_calls w) (now w).

Definition with_order_calls (c : list OrderCall) (w : World) : World :=
  mkWorld (coins w) (pairs w) (current_coin_history w) (scout_history w)
          (coin_values w) (log w) c (now w).

Definition M (A : Type) : Type := World -> res A * World.

Definition ret {A} (a : A) : M A := fun w => (Ok a, w).

Definition raise {A} (e : exn) : M A := fun w => (Raise e, w).

Definition bind {A B} (m : M A) (k : A -> M B) : M B :=
  fun w =>
    match m w with
    | (Ok a, w') => k a w'
    | (Raise e, w') => (Raise e, w')
    end.

Definition try_except {A} (m : M A) (h : exn -> M A) : M A :=
  fun w =>
    match m w with
    | (Ok a, w') => (Ok a, w')
    | (Raise e, w') => h e w'
    end.

Definition lift {A} (r : res A) : M A := fun w => (r, w).

Definition reads {A} (f : World -> A) : M A := fun w => (Ok (f w), w).

Declare Scope b64_scope.
Notation "x <- m ;; k" := (bind m (fun x => k))
  (at level 61, m at next level, right associativity) : b64_scope.
Notation "m ;;; k" := (bind m (fun _ => k))
  (at level 61, right associativity) : b64_scope.
#[local] Open Scope b64_scope.

Definition logger (lv : Level) (msg : string) (c : option exn) : M unit :=
  fun w => (Ok tt, with_log (mkLog lv msg c :: log w) w).

Fixpoint for_each {A B} (l : list A) (body : A -> B -> M B) (acc : B) : M B :=
  match l with
  | [] => ret acc
  | x :: tl => acc' <- body x acc ;; for_each tl body acc'
  end.

Module Database.

(** [get_coins(only_enabled)]. *)
Definition get_coins (only_enabled : bool) (w : World) : list Coin.t :=
  if only_enabled then filter Coin.enabled (coins w) else coins w.

(** [session.merge(coin)]: the row of the Coin table that has the symbol of
    [coin] takes the attributes of [coin]; a symbol the table does not hold
    gets a new row. *)
Definition merge (coin : Coin.t) (table : list Coin.t) : list Coin.t :=
  if existsb (fun row => Coin.eqb row coin) table
  then map (fun row => if Coin.eqb row coin then coin else row) table
  else (table ++ [coin])%list.

(** [set_current_coin(coin)] for a [Coin]: the coin is merged into the
    session and a new [CurrentCoin] row is added. *)
Definition set_current_coin (coin : Coin.t) : M unit :=
  fun w =>
    (Ok tt,
     mkWorld (merge coin (coins w)) (pairs w) (coin :: current_coin_history w)
             (scout_history w) (coin_values w) (log w) (order_calls w) (now w)).

(** [get_current_coin()]: the coin of the most recent [CurrentCoin] row. *)
Definition get_current_coin (w : World) : option Coin.t :=
  match current_coin_history w with
  | [] => None
  | c :: _ => Some c
  end.

(** [get_pairs_from(from_coin, only_enabled)]. *)
Definition get_pairs_from (from_coin : Coin.t) (only_enabled : bool) (w : World)
  : list Pair.t :=
  let pairs := filter (fun p => Coin.eqb (Pair.from_coin p) from_coin) (pairs w) in
  if only_enabled then filter Pair.enabled pairs else pairs.

(** [current_time - timedelta(hours=hours) if current_time else
    datetime.now() - timedelta(hours=hours)]. *)
Definition time_diff (hours : Z) (current_time : option Z) (w : World) : Z :=
  match current_time with
  | Some t => (t - 3600 * hours)%Z
  | None => (now w - 3600 * hours)%Z
  end.

(** The inner loop of [get_coin_recent_high_price] over the scout records
    of one pair. *)
Definition scan_records (records : list ScoutHistory.t) (max_price : float) : float :=
  fold_left
    (fun max_price record =>
       match ScoutHistory.current_coin_price record with
       | Some p => if truthy p && (max_price <? p) then p else max_price
       | None => max_price
       end)
    records max_price.

Definition scout_records (pair : Pair.t) (since : Z) (w : World)
  : list ScoutHistory.t :=
  filter
    (fun r => Pair.eqb (ScoutHistory.pair r) pair
              && (since <=? ScoutHistory.datetime r)%Z)
    (scout_history w).

(** [get_coin_recent_high_price(coin, hours, current_time)]. *)
Definition get_coin_recent_high_price
  (coin : Coin.t) (hours : Z) (current_time : option Z) (w : World) : option float :=
  let since := time_diff hours current_time w in
  let pairs_from := filter (fun p => Coin.eqb (Pair.from_coin p) coin) (pairs w) in
  match pairs_from with
  | [] => None
  | _ =>
      let max_price :=
        fold_left
          (fun max_price pair => scan_records (scout_records pair since w) max_price)
          pairs_from 0 in
      if 0 <? max_price then Some max_price else None
  end.

(** The prices that are not [None], in row order. *)
Fixpoint usd_prices (l : list CoinValue.t) : list float :=
  match l with
  | [] => []
  | cv :: tl =>
      match CoinValue.usd_price cv with
      | Some p => p :: usd_prices tl
      | None => usd_prices tl
      end
  end.

(** [get_coin_high_price_from_values(coin, hours, current_time)]. *)
Definition get_coin_high_price_from_values
  (coin : Coin.t) (hours : Z) (current_time : option Z) (w : World) : option float :=
  let since := time_diff hours current_time w in
  let coin_values :=
    filter
      (fun cv => Coin.eqb (CoinValue.coin cv) coin
                 && (since <=? CoinValue.datetime cv)%Z)
      (coin_values w) in
  match coin_values with
  | [] => None
  | _ => py_max_list (usd_prices coin_values)
  end.

(** [log_scout(pair, target_ratio, current_coin_price, other_coin_price)]:
    a new [ScoutHistory] row stamped with the current time. *)
Definition log_scout
  (pair : Pair.t) (target_ratio current_coin_price other_coin_price : float) : M unit :=
  fun w =>
    (Ok tt,
     with_scout_history
       (scout_history w ++
        [ScoutHistory.mk pair target_ratio (Some current_coin_price)
                         (Some other_coin_price) (now w)])
       w).

End Database.

Module Config.
Record t : Type := mk {
  BRIDGE : Coin.t;
  SCOUT_MULTIPLIER : float;
  STOP_LOSS_ENABLED : bool;
  STOP_LOSS_PERCENTAGE : float;
  TRAILING_STOP_HOURS : Z
}.
End Config.

Module Order.
Record t : Type := mk { price : float }.
End Order.

Module Manager.
(** The answers of the gateway.  Every call may raise;
    [get_ticker_price], [sell_alt] and [buy_alt] may return [None]. *)
Record t : Type := mk {
  get_ticker_price : string -> res (option float);
  get_fee : Coin.t -> Coin.t -> bool -> res float;
  get_min_notional : string -> string -> res float;
  get_currency_balance : string -> res float;
  sell_alt : Coin.t -> Coin.t -> res (option Order.t);
  buy_alt : Coin.t -> Coin.t -> res (option Order.t)
}.
End Manager.

(** A [Dict[Pair, float]] in insertion order. *)
Definition RatioDict : Type := list (Pair.t * float).

Fixpoint dict_set (d : RatioDict) (k : Pair.t) (v : float) : RatioDict :=
  match d with
  | [] => [(k, v)]
  | (k', v') :: tl =>
      if Pair.eqb k' k then (k', v) :: tl else (k', v') :: dict_set tl k v
  end.

Fixpoint dict_get (d : RatioDict) (k : Pair.t) : option float :=
  match d with
  | [] => None
  | (k', v') :: tl => if Pair.eqb k' k then Some v' else dict_get tl k
  end.

Definition dict_values (d : RatioDict) : list float := map snd d.

Definition sell_alt (manager : Manager.t) (origin target : Coin.t)
  : M (option Order.t) :=
  fun w =>
    (Manager.sell_alt manager origin target,
     with_order_calls (SellAlt origin target :: order_calls w) w).

Definition buy_alt (manager : Manager.t) (origin target : Coin.t)
  : M (option Order.t) :=
  fun w =>
    (Manager.buy_alt manager origin target,
     with_order_calls (BuyAlt origin target :: order_calls w) w).

(* ------------------------------------------------------------------ *)
(** ** strategies/test1_strategy.py                                    *)
(* ------------------------------------------------------------------ *)

Module Test1Strategy.
Section Strategy.

Variable config : Config.t.
Variable manager : Manager.t.

Let BRIDGE : Coin.t := Config.BRIDGE config.

(** Lines 44-52 of [transaction_through_bridge]: the value of [can_sell],
    with the log line of the branch that leaves it [False]. *)
Definition can_sell (pair : Pair.t) : M bool :=
  let from_coin := Pair.from_coin pair in
  balance <- lift (Manager.get_currency_balance manager (Coin.symbol from_coin)) ;;
  from_coin_price <- lift (Manager.get_ticker_price manager (Coin.add from_coin BRIDGE)) ;;
  can_sell <-
    (if negb (is_USDT from_coin) && truthy balance then
       notional <- lift (py_mul_opt balance from_coin_price) ;;
       min_notional <- lift (Manager.get_min_notional manager
                               (Coin.symbol from_coin) (Coin.symbol BRIDGE)) ;;
       ret (min_notional <? notional)
     else ret false) ;;
  if can_sell then ret true
  else logger INFO "Skipping sell" None ;;; ret false.

(** Lines 110-113 of [_get_ratios]. *)
Definition cmt (coin : Coin.t) : float :=
  if is_USDT coin then Config.SCOUT_MULTIPLIER config * 1.4
  else Config.SCOUT_MULTIPLIER config.

(** Lines 135-139 of [_get_ratios]. *)
Definition mt (pair : Pair.t) (transaction_fee cmt : float) : res float :=
  if is_USDT (Pair.to_coin pair) then py_div (-0.001) transaction_fee
  else Ok cmt.

(** Lines 116-121 of [_get_ratios]: price and exit fee of the target. *)
Definition quote (pair : Pair.t) : M (option float * float) :=
  if is_USDT (Pair.to_coin pair) then ret (Some 1, 0)
  else
    optional_coin_price <-
      lift (Manager.get_ticker_price manager (Coin.add (Pair.to_coin pair) BRIDGE)) ;;
    fee_out <- lift (Manager.get_fee manager (Pair.to_coin pair) BRIDGE false) ;;
    ret (optional_coin_price, fee_out).

(** The body of the loop of [_get_ratios] (lines 116-141). *)
Definition _get_ratios_body (coin_price cmt : float) (pair : Pair.t)
  (ratio_dict : RatioDict) : M RatioDict :=
  q <- quote pair ;;
  match fst q with
  | None =>
      logger INFO ("Skipping scouting... optional coin "
                   ++ Coin.add (Pair.to_coin pair) BRIDGE ++ " not found") None ;;;
      ret ratio_dict
  | Some optional_coin_price =>
      let fee_out := snd q in
      Database.log_scout pair (Pair.ratio pair) coin_price optional_coin_price ;;;
      coin_opt_coin_ratio <- lift (py_div coin_price optional_coin_price) ;;
      fee_in <- lift (Manager.get_fee manager (Pair.from_coin pair) BRIDGE true) ;;
      let transaction_fee := fee_in + fee_out in
      mt <- lift (mt pair transaction_fee cmt) ;;
      ret (dict_set ratio_dict pair
             (coin_opt_coin_ratio * (1 - transaction_fee * mt) - Pair.ratio pair))
  end.

(** [_get_ratios(coin, coin_price)]. *)
Definition _get_ratios (coin : Coin.t) (coin_price : float) : M RatioDict :=
  pairs <- reads (Database.get_pairs_from coin true) ;;
  for_each pairs (_get_ratios_body coin_price (cmt coin)) [].

End Strategy.
End Test1Strategy.

(* ------------------------------------------------------------------ *)
(** ** strategies/custom1_strategy.py                                  *)
(* ------------------------------------------------------------------ *)

Module Custom1Strategy.
Section Strategy.

Variable config : Config.t.
Variable manager : Manager.t.

(** Python's built-in [sum] over a list of floats.  The interpreter adds
    from left to right, with a compensated summation since Python 3.12, so
    the rounding of the result depends on the version: the built-in is a
    parameter. *)
Variable py_sum : list float -> float.

(** Inherited from [AutoTrader]. *)
Variable _get_ratios : Coin.t -> float -> M RatioDict.
Variable _jump_to_best_coin : Coin.t -> float -> M unit.

Let BRIDGE : Coin.t := Config.BRIDGE config.

Let stop_loss_enabled : bool := Config.STOP_LOSS_ENABLED config.
Let stop_loss_percentage : float := Config.STOP_LOSS_PERCENTAGE config.
Let trailing_stop_hours : Z := Config.TRAILING_STOP_HOURS config.

(** [positive_ratios = [ratio for ratio in ratio_dict.values() if ratio > 0]]. *)
Definition positive_ratios (ratio_dict : RatioDict) : list float :=
  filter (fun ratio => 0 <? ratio) (dict_values ratio_dict).

(** [sum(positive_ratios) / len(positive_ratios)]. *)
Definition avg_potential (positive_ratios : list float) : res float :=
  py_div (py_sum positive_ratios) (py_len positive_ratios).

(** Lines 77-87 of [_scout_from_usdt]. *)
Definition potential (coin : Coin.t) : M (option float) :=
  coin_price <- lift (Manager.get_ticker_price manager (Coin.add coin BRIDGE)) ;;
  match coin_price with
  | None => ret None
  | Some coin_price =>
      ratio_dict <- _get_ratios coin coin_price ;;
      match positive_ratios ratio_dict with
      | [] => ret None
      | positive_ratios =>
          avg_potential <- lift (avg_potential positive_ratios) ;;
          ret (Some avg_potential)
      end
  end.

(** The body of the loop of [_scout_from_usdt] (lines 76-94); the
    accumulator is [(best_coin, best_potential)]. *)
Definition _scout_from_usdt_body (coin : Coin.t) (best : option Coin.t * float)
  : M (option Coin.t * float) :=
  try_except
    (avg <- potential coin ;;
     match avg with
     | Some avg_potential =>
         if snd best <? avg_potential
         then ret (Some coin, avg_potential)
         else ret best
     | None => ret best
     end)
    (fun e =>
       logger DEBUG ("Error evaluating coin " ++ Coin.symbol coin ++ ": ") (Some e) ;;;
       ret best).

(** Lines 62-108 of [_scout_from_usdt]: what its [try] protects. *)
Definition _scout_from_usdt_try : M unit :=
  all_coins <- reads (Database.get_coins true) ;;
  let target_coins := filter (fun coin => negb (is_USDT coin)) all_coins in
  match target_coins with
  | [] => logger WARNING "No target coins available for USDT trading" None
  | _ =>
      best <- for_each target_coins _scout_from_usdt_body (None, 0) ;;
      match best with
      | (Some best_coin, best_potential) =>
          if 0 <? best_potential then
            logger INFO ("USDT -> " ++ Coin.symbol best_coin ++ ": potential") None ;;;
            result <- buy_alt manager best_coin BRIDGE ;;
            match result with
            | Some _ =>
                Database.set_current_coin best_coin ;;;
                logger INFO ("Successfully bought " ++ Coin.symbol best_coin
                             ++ " from USDT") None
            | None =>
                logger WARNING ("Failed to buy " ++ Coin.symbol best_coin
                                ++ " from USDT") None
            end
          else ret tt
      | (None, _) => ret tt
      end
  end.

(** [_scout_from_usdt()]. *)
Definition _scout_from_usdt : M unit :=
  try_except _scout_from_usdt_try
    (fun e => logger ERROR "Error in USDT scouting: " (Some e)).

Definition if_truthy (x : option float) : option float :=
  match x with
  | Some v => if truthy v then Some v else None
  | None => None
  end.

(** [_get_recent_high_price(current_coin, current_time)]. *)
Definition _get_recent_high_price (current_coin : Coin.t) (current_time : option Z)
  : M (option float) :=
  try_except
    (high_price_from_values <-
       reads (Database.get_coin_high_price_from_values
                current_coin (trailing_stop_hours / 24 + 1)%Z current_time) ;;
     high_price_from_scout <-
       reads (Database.get_coin_recent_high_price
                current_coin trailing_stop_hours current_time) ;;
     match if_truthy high_price_from_values, if_truthy high_price_from_scout with
     | Some v, Some s => ret (Some (py_max v s))
     | Some v, None => ret (Some v)
     | None, Some s => ret (Some s)
     | None, None =>
         current_price <-
           lift (Manager.get_ticker_price manager (Coin.add current_coin BRIDGE)) ;;
         logger WARNING ("No high price history for " ++ Coin.symbol current_coin
                         ++ ", using current price as reference") None ;;;
         ret current_price
     end)
    (fun e => logger ERROR "Error getting recent high price: " (Some e) ;;; ret None).

(** [_execute_stop_loss(current_coin)]. *)
Definition _execute_stop_loss (current_coin : Coin.t) : M bool :=
  try_except
    (balance <- lift (Manager.get_currency_balance manager (Coin.symbol current_coin)) ;;
     if balance <=? 0 then
       logger INFO "No balance to sell for stop loss" None ;;;
       ret false
     else
       current_price <-
         lift (Manager.get_ticker_price manager (Coin.add current_coin BRIDGE)) ;;
       min_notional <-
         lift (Manager.get_min_notional manager
                 (Coin.symbol current_coin) (Coin.symbol BRIDGE)) ;;
       notional <- lift (py_mul_opt balance current_price) ;;
       if notional <? min_notional then
         logger INFO "Balance too small for stop loss trade" None ;;;
         ret false
       else
         logger INFO ("Executing stop loss: selling " ++ Coin.symbol current_coin) None ;;;
         sell_result <- sell_alt manager current_coin BRIDGE ;;
         match sell_result with
         | None =>
             logger ERROR "Failed to sell coin for stop loss" None ;;;
             ret false
         | Some _ =>
             (if negb (is_USDT BRIDGE) then
                all_coins <- reads (Database.get_coins true) ;;
                match find is_USDT all_coins with
                | Some usdt_coin =>
                    buy_result <- buy_alt manager usdt_coin BRIDGE ;;
                    match buy_result with
                    | Some _ =>
                        Database.set_current_coin usdt_coin ;;;
                        logger INFO "Stop loss completed: converted to USDT" None
                    | None =>
                        logger ERROR "Failed to convert to USDT after stop loss" None
                    end
                | None => logger WARNING "USDT coin not found, staying in bridge coin" None
                end
              else
                Database.set_current_coin BRIDGE ;;;
                logger INFO "Stop loss completed: converted to USDT" None) ;;;
             ret true
         end)
    (fun e => logger ERROR "Error executing stop loss: " (Some e) ;;; ret false).

(** [((recent_high_price - current_price) / recent_high_price) * 100]. *)
Definition price_drop_percentage (recent_high_price current_price : float) : res float :=
  match py_div (recent_high_price - current_price) recent_high_price with
  | Ok d => Ok (d * 100)
  | Raise e => Raise e
  end.

(** [_check_trailing_stop_loss(current_coin, current_price, current_time)]. *)
Definition _check_trailing_stop_loss
  (current_coin : Coin.t) (current_price : float) (current_time : option Z) : M bool :=
  try_except
    (if is_USDT current_coin then ret false
     else
       recent_high_price <- _get_recent_high_price current_coin current_time ;;
       match recent_high_price with
       | None =>
           logger DEBUG ("No recent high price data for " ++ Coin.symbol current_coin) None ;;;
           ret false
       | Some recent_high_price =>
           price_drop_percentage <-
             lift (price_drop_percentage recent_high_price current_price) ;;
           if stop_loss_percentage <=? price_drop_percentage
           then _execute_stop_loss current_coin
           else ret false
       end)
    (fun e => logger ERROR "Error checking trailing stop loss: " (Some e) ;;; ret false).

(** [scout(current_time=...)]: one scouting cycle. *)
Definition scout (current_time : option Z) : M unit :=
  current_coin <- reads Database.get_current_coin ;;
  match current_coin with
  | None => raise TypeError
  | Some current_coin =>
      if is_USDT current_coin then _scout_from_usdt
      else
        current_coin_price <-
          lift (Manager.get_ticker_price manager (Coin.add current_coin BRIDGE)) ;;
        match current_coin_price with
        | None =>
            logger INFO ("Skipping scouting... current coin "
                         ++ Coin.add current_coin BRIDGE ++ " not found") None
        | Some current_coin_price =>
            stopped <-
              (if stop_loss_enabled
               then _check_trailing_stop_loss current_coin current_coin_price current_time
               else ret false) ;;
            if stopped then ret tt
            else _jump_to_best_coin current_coin current_coin_price
        end
  end.

End Strategy.
End Custom1Strategy.

(* ------------------------------------------------------------------ *)
(** ** Specification-level functions and scenarios over binary64       *)
(* ------------------------------------------------------------------ *)

(** The price and exit fee [_get_ratios] uses for the target of a pair, as
    a function of the gateway alone. *)
Definition target_quote (config : Config.t) (manager : Manager.t) (pair : Pair.t)
  : res (option float * float) :=
  if is_USDT (Pair.to_coin pair) then Ok (Some 1, 0)
  else
    match Manager.get_ticker_price manager
            (Coin.add (Pair.to_coin pair) (Config.BRIDGE config)) with
    | Raise e => Raise e
    | Ok price =>
        match Manager.get_fee manager (Pair.to_coin pair) (Config.BRIDGE config) false with
        | Raise e => Raise e
        | Ok fee_out => Ok (price, fee_out)
        end
    end.

(** The score one pass of the loop of [_get_ratios] stores for a pair:
    [Ok None] when the pair is skipped, [Raise] when the pass raises. *)
Definition score (config : Config.t) (manager : Manager.t)
  (coin_price cmt : float) (pair : Pair.t) : res (option float) :=
  match target_quote config manager pair with
  | Raise e => Raise e
  | Ok (None, _) => Ok None
  | Ok (Some optional_coin_price, fee_out) =>
      match py_div coin_price optional_coin_price with
      | Raise e => Raise e
      | Ok coin_opt_coin_ratio =>
          match Manager.get_fee manager (Pair.from_coin pair) (Config.BRIDGE config) true with
          | Raise e => Raise e
          | Ok fee_in =>
              match Test1Strategy.mt pair (fee_in + fee_out) cmt with
              | Raise e => Raise e
              | Ok mt =>
                  Ok (Some (coin_opt_coin_ratio * (1 - (fee_in + fee_out) * mt)
                            - Pair.ratio pair))
              end
          end
      end
  end.

(** The dictionary the loop of [_get_ratios] builds, as a function of the
    gateway alone. *)
Fixpoint ratios_of (config : Config.t) (manager : Manager.t)
  (coin_price cmt : float) (pairs : list Pair.t) (ratio_dict : RatioDict)
  : res RatioDict :=
  match pairs with
  | [] => Ok ratio_dict
  | p :: tl =>
      match score config manager coin_price cmt p with
      | Raise e => Raise e
      | Ok None => ratios_of config manager coin_price cmt tl ratio_dict
      | Ok (Some s) =>
          ratios_of config manager coin_price cmt tl (dict_set ratio_dict p s)
      end
  end.

(** The two lookups of [_get_recent_high_price], with its arguments. *)
Definition high_from_values (config : Config.t) (coin : Coin.t) (ct : option Z)
  (w : World) : option float :=
  Database.get_coin_high_price_from_values
    coin (Config.TRAILING_STOP_HOURS config / 24 + 1)%Z ct w.

Definition high_from_scout (config : Config.t) (coin : Coin.t) (ct : option Z)
  (w : World) : option float :=
  Database.get_coin_recent_high_price coin (Config.TRAILING_STOP_HOURS config) ct w.


Module Scenario.

Definition ETH : Coin.t := Coin.mk "ETH" true.
Definition BTC : Coin.t := Coin.mk "BTC" true.
Definition USDT : Coin.t := Coin.mk "USDT" true.

(** Bridge USDT, sensitivity 5, stop-loss at 15% over 24 hours. *)
Definition config : Config.t := Config.mk USDT 5 true 15 24.

(** ETH at 2000, BTC at 40000, a fee of 0.001 per leg, one ETH held,
    minimum notional 10, every order filled. *)
Definition manager : Manager.t :=
  Manager.mk
    (fun ticker =>
       if String.eqb ticker "ETHUSDT" then Ok (Some 2000)
       else if String.eqb ticker "BTCUSDT" then Ok (Some 40000)
       else Ok None)
    (fun _ _ _ => Ok 0.001)
    (fun _ _ => Ok 10)
    (fun _ => Ok 1)
    (fun _ _ => Ok (Some (Order.mk 2000)))
    (fun _ _ => Ok (Some (Order.mk 40000))).

Definition ETH_BTC : Pair.t := Pair.mk 1 ETH BTC 0.05 true.
Definition BTC_ETH : Pair.t := Pair.mk 3 BTC ETH 20 true.

(** ETH is held; nothing has been scouted, sampled or logged yet. *)
Definition world : World :=
  mkWorld [ETH; BTC; USDT] [ETH_BTC] [ETH] [] [] [] [] 1000000.

(** ETH was sampled at 100 an hour ago. *)
Definition world_high_100 : World :=
  mkWorld [ETH; BTC; USDT] [ETH_BTC] [ETH] []
          [CoinValue.mk ETH (Some 100) (1000000 - 3600)] [] [] 1000000.

(** USDT is held. *)
Definition world_in_usdt : World :=
  mkWorld [ETH; BTC; USDT] [BTC_ETH] [USDT] [] [] [] [] 1000000.

(** The gateway with ETH at [price], [balance] ETH held and the minimum
    notional 10. *)
Definition manager_at (price balance : float) : Manager.t :=
  Manager.mk
    (fun ticker => if String.eqb ticker "ETHUSDT" then Ok (Some price) else Ok None)
    (Manager.get_fee manager) (Manager.get_min_notional manager)
    (fun _ => Ok balance)
    (Manager.sell_alt manager) (Manager.buy_alt manager).

(** The configuration with another stop-loss percentage. *)
Definition config_at (stop_loss_percentage : float) : Config.t :=
  Config.mk USDT 5 true stop_loss_percentage 24.

(** The built-in [sum], as a plain sum from left to right. *)
Definition py_sum (l : list float) : float := fold_left PrimFloat.add l 0.

(** The inherited [_get_ratios], as a stub: one positive ratio for BTC,
    none for any other coin. *)
Definition _get_ratios (coin : Coin.t) (price : float) : M RatioDict :=
  if Coin.eqb coin BTC then ret [(BTC_ETH, 0.01)] else ret [].

(** The inherited [_jump_to_best_coin], as a stub that only logs. *)
Definition _jump_to_best_coin (coin : Coin.t) (price : float) : M unit :=
  logger DEBUG "_jump_to_best_coin" None.

End Scenario.

End Binary64.

(* ================================================================== *)
(** * Facts about the monad, dictionaries and lists                    *)
(* ================================================================== *)

Lemma Qlt_bool_iff (x y : Q) : Qlt_bool x y = true <-> x < y.
Proof.
  unfold Qlt_bool. rewrite negb_true_iff.
  split; intro H.
  - apply Qnot_le_lt. intro Hle. apply Qle_bool_iff in Hle. congruence.
  - destruct (Qle_bool y x) eqn:E; [|reflexivity].
    apply Qle_bool_iff in E. exfalso. exact (Qlt_not_le _ _ H E).
Qed.

Lemma Qlt_bool_false_iff (x y : Q) : Qlt_bool x y = false <-> y <= x.
Proof.
  unfold Qlt_bool. rewrite negb_false_iff. apply Qle_bool_iff.
Qed.

Lemma Qeq_bool_false_iff (x y : Q) : Qeq_bool x y = false <-> ~ x == y.
Proof.
  split.
  - apply Qeq_bool_neq.
  - intro H. destruct (Qeq_bool x y) eqn:E; [|reflexivity].
    apply Qeq_bool_iff in E. contradiction.
Qed.

Lemma py_div_ok (a b : Q) : ~ b == 0 -> py_div a b = Ok (a / b).
Proof.
  intro H. unfold py_div. now rewrite (proj2 (Qeq_bool_false_iff b 0) H).
Qed.

Lemma py_div_zero (a b : Q) : b == 0 -> py_div a b = Raise ZeroDivisionError.
Proof.
  intro H. unfold py_div. now rewrite (proj2 (Qeq_bool_iff b 0) H).
Qed.

Lemma Pair_eqb_refl (p : Pair.t) : Pair.eqb p p = true.
Proof. unfold Pair.eqb. apply Z.eqb_refl. Qed.

Lemma Pair_eqb_trans_false (a b c : Pair.t) :
  Pair.eqb a b = true -> Pair.eqb b c = false -> Pair.eqb a c = false.
Proof.
  unfold Pair.eqb. rewrite Z.eqb_eq, !Z.eqb_neq. intros -> H. exact H.
Qed.

Lemma dict_get_set_same (d : RatioDict) (k : Pair.t) (v : Q) :
  dict_get (dict_set d k v) k = Some v.
Proof.
  induction d as [|[k' v'] tl IH]; simpl.
  - now rewrite Pair_eqb_refl.
  - destruct (Pair.eqb k' k) eqn:E; simpl; rewrite E; [reflexivity | exact IH].
Qed.

Lemma dict_get_set_other (d : RatioDict) (k k' : Pair.t) (v : Q) :
  Pair.eqb k k' = false -> dict_get (dict_set d k v) k' = dict_get d k'.
Proof.
  intro Hne. induction d as [|[k0 v0] tl IH]; simpl.
  - now rewrite Hne.
  - destruct (Pair.eqb k0 k) eqn:E; simpl.
    + now rewrite (Pair_eqb_trans_false _ _ _ E Hne).
    + destruct (Pair.eqb k0 k'); [reflexivity | exact IH].
Qed.

(** Selecting rows of the Pair table keeps their ids apart. *)
Lemma filter_keeps_unique_ids (keep : Pair.t -> bool) (ps : list Pair.t) :
  NoDup (map Pair.id ps) -> NoDup (map Pair.id (filter keep ps)).
Proof.
  intro Hnd. induction ps as [|p tl IH]; simpl in *; [exact Hnd|].
  apply NoDup_cons_iff in Hnd. destruct Hnd as [Hfresh Htl].
  destruct (keep p); simpl; [|exact (IH Htl)].
  apply NoDup_cons_iff. split; [|exact (IH Htl)].
  rewrite in_map_iff. intros [q [Hid Hq]].
  apply Hfresh. rewrite in_map_iff. exists q.
  apply filter_In in Hq. tauto.
Qed.

(** The pairs [get_pairs_from] returns have ids of their own when the rows
    of the table do. *)
Lemma get_pairs_from_unique_ids (coin : Coin.t) (only_enabled : bool) (w : World) :
  NoDup (map Pair.id (pairs w)) ->
  NoDup (map Pair.id (Database.get_pairs_from coin only_enabled w)).
Proof.
  intro Hnd. unfold Database.get_pairs_from.
  destruct only_enabled; repeat apply filter_keeps_unique_ids; exact Hnd.
Qed.

(* ================================================================== *)
(** * The ratio engine ([test1_strategy.py])                           *)
(* ================================================================== *)

Section RatioEngine.

Variable config : Config.t.
Variable manager : Manager.t.

Lemma quote_pure (pair : Pair.t) (w : World) :
  Test1Strategy.quote config manager pair w = (target_quote config manager pair, w).
Proof.
  unfold Test1Strategy.quote, target_quote.
  destruct (is_USDT (Pair.to_coin pair)); [reflexivity|].
  unfold bind, lift, ret.
  destruct (Manager.get_ticker_price manager _); [|reflexivity].
  destruct (Manager.get_fee manager _ _ false); reflexivity.
Qed.

(** One pass of the loop computes [score] and stores it under the pair. *)
Lemma body_fst (coin_price cmt : Q) (pair : Pair.t) (d : RatioDict) (w : World) :
  fst (Test1Strategy._get_ratios_body config manager coin_price cmt pair d w) =
  match score config manager coin_price cmt pair with
  | Raise e => Raise e
  | Ok None => Ok d
  | Ok (Some s) => Ok (dict_set d pair s)
  end.
Proof.
  unfold Test1Strategy._get_ratios_body, score, bind.
  rewrite quote_pure.
  destruct (target_quote config manager pair) as [[[tp|] fee_out]|e]; simpl;
    try reflexivity.
  unfold lift, ret.
  destruct (py_div coin_price tp); simpl; [|reflexivity].
  destruct (Manager.get_fee manager _ _ true); simpl; [|reflexivity].
  destruct (Test1Strategy.mt pair _ cmt); reflexivity.
Qed.

Lemma loop_fst (coin_price cmt : Q) (ps : list Pair.t) :
  forall (d : RatioDict) (w : World),
    fst (for_each ps (Test1Strategy._get_ratios_body config manager coin_price cmt) d w)
    = ratios_of config manager coin_price cmt ps d.
Proof.
  induction ps as [|p tl IH]; intros d w; simpl; [reflexivity|].
  unfold bind.
  pose proof (body_fst coin_price cmt p d w) as Hb.
  destruct (Test1Strategy._get_ratios_body config manager coin_price cmt p d w)
    as [[d1|e] w1]; simpl in Hb.
  - destruct (score config manager coin_price cmt p) as [[s|]|e]; try discriminate;
      injection Hb as ->; apply IH.
  - destruct (score config manager coin_price cmt p) as [[s|]|e']; try discriminate.
    simpl. congruence.
Qed.

Lemma _get_ratios_fst (coin : Coin.t) (coin_price : Q) (w : World) :
  fst (Test1Strategy._get_ratios config manager coin coin_price w)
  = ratios_of config manager coin_price (Test1Strategy.cmt config coin)
      (Database.get_pairs_from coin true w) [].
Proof.
  unfold Test1Strategy._get_ratios, bind, reads. apply loop_fst.
Qed.

(** Pairs other than [k] leave the entry of [k] alone. *)
Lemma ratios_of_frame (coin_price cmt : Q) (k : Pair.t) (ps : list Pair.t) :
  forall d d',
    ratios_of config manager coin_price cmt ps d = Ok d' ->
    (forall p, In p ps -> Pair.eqb p k = false) ->
    dict_get d' k = dict_get d k.
Proof.
  induction ps as [|p tl IH]; simpl; intros d d' H Hne.
  - now injection H as <-.
  - destruct (score config manager coin_price cmt p) as [[s|]|e]; try discriminate.
    + rewrite (IH _ _ H) by auto. apply dict_get_set_other. auto.
    + apply (IH _ _ H). auto.
Qed.

(** Every pair of the loop whose pass stores a score keeps it to the end,
    provided row ids are unique. *)
Lemma ratios_of_get (coin_price cmt : Q) (ps : list Pair.t) :
  NoDup (map Pair.id ps) ->
  forall d d' k s,
    ratios_of config manager coin_price cmt ps d = Ok d' ->
    In k ps ->
    score config manager coin_price cmt k = Ok (Some s) ->
    dict_get d' k = Some s.
Proof.
  induction ps as [|p tl IH]; simpl; intros Hnd d d' k s H Hin Hs; [contradiction|].
  inversion Hnd as [|? ? Hnotin Hnd']; subst.
  destruct Hin as [->|Hin].
  - rewrite Hs in H.
    rewrite (ratios_of_frame _ _ k _ _ _ H).
    + apply dict_get_set_same.
    + intros q Hq. unfold Pair.eqb. apply Z.eqb_neq. intro Heq.
      apply Hnotin. rewrite <- Heq. now apply in_map.
  - destruct (score config manager coin_price cmt p) as [[sp|]|e]; try discriminate;
      eapply IH; eauto.
Qed.

(** When the loop ends without raising, no pass raised. *)
Lemma ratios_of_ok_score (coin_price cmt : Q) (ps : list Pair.t) :
  forall d d' k,
    ratios_of config manager coin_price cmt ps d = Ok d' ->
    In k ps ->
    exists r, score config manager coin_price cmt k = Ok r.
Proof.
  induction ps as [|p tl IH]; simpl; intros d d' k H Hin; [contradiction|].
  destruct (score config manager coin_price cmt p) as [[sp|]|e] eqn:E; try discriminate.
  - destruct Hin as [<-|Hin]; [eauto | eapply IH; eauto].
  - destruct Hin as [<-|Hin]; [eauto | eapply IH; eauto].
Qed.

(** The pairs of [get_pairs_from coin] start at [coin]. *)
Lemma get_pairs_from_source (coin : Coin.t) (w : World) (pair : Pair.t) :
  In pair (Database.get_pairs_from coin true w) ->
  In pair (pairs w) /\
  Coin.symbol (Pair.from_coin pair) = Coin.symbol coin /\
  Pair.enabled pair = true.
Proof.
  unfold Database.get_pairs_from. intro H.
  apply filter_In in H. destruct H as [H He].
  apply filter_In in H. destruct H as [H Hs].
  unfold Coin.eqb in Hs. apply String.eqb_eq in Hs. auto.
Qed.

End RatioEngine.

(* ================================================================== *)
(** * The rotation through the bridge ([test1_strategy.py])            *)
(* ================================================================== *)

Section Rotation.

Variable config : Config.t.
Variable manager : Manager.t.
Variable update_trade_threshold : Coin.t -> Q -> M unit.

(** [can_sell] either holds and leaves the world alone, or fails to hold and
    logs the skipped sell, or raises before any effect. *)
Lemma can_sell_cases (pair : Pair.t) (w : World) :
  Test1Strategy.can_sell config manager pair w = (Ok true, w) \/
  Test1Strategy.can_sell config manager pair w
    = (Ok false, with_log (skipping_sell :: log w) w) \/
  exists e, Test1Strategy.can_sell config manager pair w = (Raise e, w).
Proof.
  unfold Test1Strategy.can_sell, bind, lift, ret, logger.
  destruct (Manager.get_currency_balance manager _) as [balance|e]; [|eauto].
  destruct (Manager.get_ticker_price manager _) as [price|e]; [|eauto].
  destruct (negb (is_USDT (Pair.from_coin pair)) && truthy balance); [|auto].
  destruct (py_mul_opt balance price) as [notional|e]; [|eauto].
  destruct (Manager.get_min_notional manager _ _) as [min_notional|e]; [|eauto].
  destruct (Qlt_bool min_notional notional); auto.
Qed.

(** The sell leg is attempted only for a source other than USDT whose
    balance, valued at the source price, exceeds the minimum notional. *)
Lemma can_sell_guard (pair : Pair.t) (w : World) :
  fst (Test1Strategy.can_sell config manager pair w) = Ok true ->
  is_USDT (Pair.from_coin pair) = false /\
  exists balance price min_notional,
    Manager.get_currency_balance manager (Coin.symbol (Pair.from_coin pair)) = Ok balance /\
    Manager.get_ticker_price manager (Coin.add (Pair.from_coin pair) (Config.BRIDGE config))
      = Ok (Some price) /\
    Manager.get_min_notional manager
      (Coin.symbol (Pair.from_coin pair)) (Coin.symbol (Config.BRIDGE config))
      = Ok min_notional /\
    ~ balance == 0 /\ min_notional < balance * price.
Proof.
  unfold Test1Strategy.can_sell, bind, lift, ret, logger.
  destruct (Manager.get_currency_balance manager _) as [balance|e]; [|discriminate].
  destruct (Manager.get_ticker_price manager _) as [price|e]; [|discriminate].
  destruct (is_USDT (Pair.from_coin pair)); simpl; [discriminate|].
  destruct (truthy balance) eqn:Hb; simpl; [|discriminate].
  destruct price as [price|]; simpl; [|discriminate].
  destruct (Manager.get_min_notional manager _ _) as [min_notional|e]; [|discriminate].
  destruct (Qlt_bool min_notional (balance * price)) eqn:Hlt; simpl; [|discriminate].
  intros _. split; [reflexivity|].
  exists balance, price, min_notional. repeat split; try reflexivity.
  - unfold truthy in Hb. apply negb_true_iff in Hb. now apply Qeq_bool_neq.
  - now apply Qlt_bool_iff.
Qed.

(** A failed sell: the order was sent, no buy follows, the holding pointer
    stays, and the method returns [None]. *)
Lemma failed_sell_aborts (pair : Pair.t) (w : World) :
  fst (Test1Strategy.can_sell config manager pair w) = Ok true ->
  Manager.sell_alt manager (Pair.from_coin pair) (Config.BRIDGE config) = Ok None ->
  Test1Strategy.transaction_through_bridge config manager update_trade_threshold pair w
  = (Ok None,
     with_log (could_not_sell :: log w)
       (with_order_calls
          (SellAlt (Pair.from_coin pair) (Config.BRIDGE config) :: order_calls w) w)).
Proof.
  intros Hcs Hsell.
  unfold Test1Strategy.transaction_through_bridge, bind.
  destruct (can_sell_cases pair w) as [H|[H|[e H]]]; rewrite H in *; simpl in Hcs;
    try discriminate.
  unfold sell_alt. rewrite Hsell. reflexivity.
Qed.

(** A failed buy, after a sell that succeeded or was skipped: the holding
    pointer stays and the method returns [None]. *)
Lemma failed_buy_aborts (pair : Pair.t) (w : World) (can_sell : bool) :
  fst (Test1Strategy.can_sell config manager pair w) = Ok can_sell ->
  (can_sell = true ->
   exists order,
     Manager.sell_alt manager (Pair.from_coin pair) (Config.BRIDGE config)
     = Ok (Some order)) ->
  is_USDT (Pair.to_coin pair) = false ->
  Manager.buy_alt manager (Pair.to_coin pair) (Config.BRIDGE config) = Ok None ->
  Test1Strategy.transaction_through_bridge config manager update_trade_threshold pair w
  = (Ok None,
     let w1 := after_sell_leg config can_sell pair w in
     with_log (could_not_buy :: log w1)
       (with_order_calls
          (BuyAlt (Pair.to_coin pair) (Config.BRIDGE config) :: order_calls w1) w1)).
Proof.
  intros Hcs Hsell Hto Hbuy.
  unfold Test1Strategy.transaction_through_bridge, bind.
  destruct (can_sell_cases pair w) as [H|[H|[e H]]]; rewrite H in *; simpl in Hcs;
    try discriminate; injection Hcs as <-.
  - destruct (Hsell eq_refl) as [order Ho].
    unfold sell_alt, buy_alt. rewrite Ho. simpl. rewrite Hto. simpl.
    rewrite Hbuy. reflexivity.
  - unfold buy_alt. simpl. rewrite Hto. simpl. rewrite Hbuy. reflexivity.
Qed.

(** A destination USDT: the dict literal bound to [result] has no [price]
    attribute, so the method raises after the holding pointer was moved and
    before [update_trade_threshold] is reached. *)
Lemma unit_price_dict_raises (pair : Pair.t) (w : World) (can_sell : bool) :
  fst (Test1Strategy.can_sell config manager pair w) = Ok can_sell ->
  (can_sell = true ->
   exists order,
     Manager.sell_alt manager (Pair.from_coin pair) (Config.BRIDGE config)
     = Ok (Some order)) ->
  is_USDT (Pair.to_coin pair) = true ->
  Test1Strategy.transaction_through_bridge config manager update_trade_threshold pair w
  = (Raise AttributeError,
     let w1 := after_sell_leg config can_sell pair w in
     with_current_coin_history (Pair.to_coin pair :: current_coin_history w1) w1).
Proof.
  intros Hcs Hsell Hto.
  unfold Test1Strategy.transaction_through_bridge, bind.
  destruct (can_sell_cases pair w) as [H|[H|[e H]]]; rewrite H in *; simpl in Hcs;
    try discriminate; injection Hcs as <-.
  - destruct (Hsell eq_refl) as [order Ho].
    unfold sell_alt. rewrite Ho. simpl. rewrite Hto. reflexivity.
  - simpl. rewrite Hto. reflexivity.
Qed.

End Rotation.

(* ================================================================== *)
(** * The recent high ([database.py])                                  *)
(* ================================================================== *)

Lemma scan_records_spec (records : list ScoutHistory.t) :
  forall m0 : Q,
    0 <= m0 ->
    m0 <= Database.scan_records records m0 /\
    (Database.scan_records records m0 = m0 \/
     exists r, In r records /\
               ScoutHistory.current_coin_price r = Some (Database.scan_records records m0)) /\
    (forall r p, In r records -> ScoutHistory.current_coin_price r = Some p ->
                 p <= Database.scan_records records m0).
Proof.
  unfold Database.scan_records.
  induction records as [|r tl IH]; intros m0 H0; simpl.
  - split; [apply Qle_refl|]. split; [now left|]. intros ? ? [].
  - set (m1 := match ScoutHistory.current_coin_price r with
               | Some p => if truthy p && Qlt_bool m0 p then p else m0
               | None => m0
               end).
    assert (Hm1 : m0 <= m1 /\
                  (m1 = m0 \/ ScoutHistory.current_coin_price r = Some m1) /\
                  (forall p, ScoutHistory.current_coin_price r = Some p -> p <= m1)).
    { subst m1. destruct (ScoutHistory.current_coin_price r) as [p|].
      - destruct (truthy p) eqn:Ht; simpl.
        + destruct (Qlt_bool m0 p) eqn:Hlt.
          * apply Qlt_bool_iff in Hlt. split; [now apply Qlt_le_weak|].
            split; [now right|]. intros q Hq. injection Hq as <-. apply Qle_refl.
          * apply Qlt_bool_false_iff in Hlt. split; [apply Qle_refl|].
            split; [now left|]. intros q Hq. now injection Hq as <-.
        + split; [apply Qle_refl|]. split; [now left|].
          intros q Hq. injection Hq as <-.
          unfold truthy in Ht. apply negb_false_iff, Qeq_bool_iff in Ht.
          rewrite Ht. exact H0.
      - split; [apply Qle_refl|]. split; [now left|]. intros ? Hq. discriminate. }
    destruct Hm1 as [Hle [Hfrom Hub]].
    destruct (IH m1 (Qle_trans _ _ _ H0 Hle)) as [IH1 [IH2 IH3]].
    split; [eapply Qle_trans; eauto|]. split.
    + destruct IH2 as [IH2|[r' [Hin Hr']]].
      * rewrite IH2. destruct Hfrom as [->|Hfrom]; [now left|].
        right. exists r. split; [now left | exact Hfrom].
      * right. exists r'. split; [now right | exact Hr'].
    + intros r' p [<-|Hin] Hp.
      * eapply Qle_trans; [apply Hub; exact Hp | exact IH1].
      * eapply IH3; eauto.
Qed.

Lemma scan_pairs_spec (since : Z) (w : World) (ps : list Pair.t) :
  forall m0 : Q,
    0 <= m0 ->
    let m := fold_left
               (fun max_price pair =>
                  Database.scan_records (Database.scout_records pair since w) max_price)
               ps m0 in
    m0 <= m /\
    (m = m0 \/
     exists pair r, In pair ps /\ In r (Database.scout_records pair since w) /\
                    ScoutHistory.current_coin_price r = Some m) /\
    (forall pair r p, In pair ps -> In r (Database.scout_records pair since w) ->
                      ScoutHistory.current_coin_price r = Some p -> p <= m).
Proof.
  induction ps as [|p0 tl IH]; intros m0 H0; simpl.
  - split; [apply Qle_refl|]. split; [now left|]. intros ? ? ? [].
  - destruct (scan_records_spec (Database.scout_records p0 since w) m0 H0)
      as [Hle [Hfrom Hub]].
    set (m1 := Database.scan_records (Database.scout_records p0 since w) m0) in *.
    destruct (IH m1 (Qle_trans _ _ _ H0 Hle)) as [IH1 [IH2 IH3]].
    split; [eapply Qle_trans; eauto|]. split.
    + destruct IH2 as [IH2|[pair [r [Hp [Hr Hpr]]]]].
      * rewrite IH2. destruct Hfrom as [->|[r [Hr Hpr]]]; [now left|].
        right. exists p0, r. auto.
      * right. exists pair, r. auto.
    + intros pair r p [<-|Hin] Hr Hp.
      * eapply Qle_trans; [eapply Hub; eauto | exact IH1].
      * eapply IH3; eauto.
Qed.

Lemma scout_records_in (pair : Pair.t) (since : Z) (w : World) (r : ScoutHistory.t) :
  In r (Database.scout_records pair since w) <->
  In r (scout_history w) /\ Pair.eqb (ScoutHistory.pair r) pair = true /\
  (since <= ScoutHistory.datetime r)%Z.
Proof.
  unfold Database.scout_records. rewrite filter_In, andb_true_iff, Z.leb_le. tauto.
Qed.

(** What [get_coin_recent_high_price] returns: the highest price scouted
    for the coin since [time_diff], when that is positive. *)
Lemma get_coin_recent_high_price_spec
  (coin : Coin.t) (hours : Z) (current_time : option Z) (w : World) :
  let since := Database.time_diff hours current_time w in
  match Database.get_coin_recent_high_price coin hours current_time w with
  | Some m =>
      0 < m /\ scouted_price coin since w m /\
      (forall p, scouted_price coin since w p -> p <= m)
  | None => forall p, scouted_price coin since w p -> p <= 0
  end.
Proof.
  intro since. unfold Database.get_coin_recent_high_price. fold since.
  set (pairs_from := filter (fun p => Coin.eqb (Pair.from_coin p) coin) (pairs w)).
  assert (Hin : forall pair, In pair pairs_from <->
                             In pair (pairs w) /\ Coin.eqb (Pair.from_coin pair) coin = true)
    by (intro; apply filter_In).
  destruct (scan_pairs_spec since w pairs_from 0 (Qle_refl 0)) as [Hle [Hfrom Hub]].
  set (m := fold_left _ pairs_from 0) in *.
  assert (Hbound : forall p, scouted_price coin since w p -> p <= m).
  { intros p [pair [r [Hp [Hc [Hr [He [Hd Hpr]]]]]]].
    apply (Hub pair r p); [apply Hin; auto | apply scout_records_in; auto | exact Hpr]. }
  destruct pairs_from as [|p0 tl] eqn:Epf.
  - intros p [pair [r [Hp [Hc _]]]].
    exfalso. apply (proj2 (Hin pair)). auto.
  - destruct (Qlt_bool 0 m) eqn:Hpos.
    + apply Qlt_bool_iff in Hpos. split; [exact Hpos|]. split; [|exact Hbound].
      destruct Hfrom as [Heq|[pair [r [Hp [Hr Hpr]]]]].
      * rewrite Heq in Hpos. exfalso. exact (Qlt_irrefl 0 Hpos).
      * apply Hin in Hp. apply scout_records_in in Hr.
        exists pair, r. tauto.
    + apply Qlt_bool_false_iff in Hpos.
      intros p Hp. eapply Qle_trans; [apply Hbound; exact Hp | exact Hpos].
Qed.

Lemma py_max_list_spec (l : list Q) :
  match py_max_list l with
  | Some m => In m l /\ forall p, In p l -> p <= m
  | None => l = []
  end.
Proof.
  induction l as [|x tl IH]; simpl; [reflexivity|].
  destruct (py_max_list tl) as [m|].
  - destruct IH as [Hin Hub].
    destruct (Qlt_bool x m) eqn:Hlt.
    + apply Qlt_bool_iff in Hlt. split; [now right|].
      intros p [<-|Hp]; [now apply Qlt_le_weak | now apply Hub].
    + apply Qlt_bool_false_iff in Hlt. split; [now left|].
      intros p [<-|Hp]; [apply Qle_refl | eapply Qle_trans; [now apply Hub | exact Hlt]].
  - subst tl. split; [now left|]. intros p [<-|[]]. apply Qle_refl.
Qed.

Lemma usd_prices_in (l : list CoinValue.t) (p : Q) :
  In p (Database.usd_prices l) <->
  exists cv, In cv l /\ CoinValue.usd_price cv = Some p.
Proof.
  induction l as [|cv tl IH]; simpl.
  - split; [intros [] | intros [? [[] _]]].
  - destruct (CoinValue.usd_price cv) as [q|] eqn:E; simpl; rewrite IH; split.
    + intros [<-|[cv' [Hin Hp]]]; [exists cv; auto | exists cv'; auto].
    + intros [cv' [[<-|Hin] Hp]]; [left; congruence | right; eauto].
    + intros [cv' [Hin Hp]]. exists cv'. auto.
    + intros [cv' [[<-|Hin] Hp]]; [congruence | eauto].
Qed.

(** What [get_coin_high_price_from_values] returns for its argument
    [hours]: the highest price sampled for the coin since [time_diff]. *)
Lemma get_coin_high_price_from_values_spec
  (coin : Coin.t) (hours : Z) (current_time : option Z) (w : World) :
  let since := Database.time_diff hours current_time w in
  match Database.get_coin_high_price_from_values coin hours current_time w with
  | Some m =>
      sampled_price coin since w m /\
      (forall p, sampled_price coin since w p -> p <= m)
  | None => forall p, ~ sampled_price coin since w p
  end.
Proof.
  intro since. unfold Database.get_coin_high_price_from_values. fold since.
  set (selected := filter _ (coin_values w)).
  assert (Hsel : forall cv, In cv selected <->
                            In cv (coin_values w) /\
                            Coin.eqb (CoinValue.coin cv) coin = true /\
                            (since <= CoinValue.datetime cv)%Z).
  { intro cv. unfold selected. rewrite filter_In, andb_true_iff, Z.leb_le. tauto. }
  assert (Hsp : forall p, sampled_price coin since w p <->
                          In p (Database.usd_prices selected)).
  { intro p. rewrite usd_prices_in. unfold sampled_price.
    split; intros [cv H]; exists cv; rewrite Hsel in *; tauto. }
  pose proof (py_max_list_spec (Database.usd_prices selected)) as Hmax.
  destruct selected as [|cv0 tl] eqn:Es.
  - intros p Hp. apply Hsp in Hp. exact Hp.
  - destruct (py_max_list (Database.usd_prices (cv0 :: tl))) as [m|].
    + destruct Hmax as [Hin Hub]. split; [now apply Hsp|].
      intros p Hp. apply Hub. now apply Hsp.
    + intros p Hp. apply Hsp in Hp. rewrite Hmax in Hp. exact Hp.
Qed.

(* ================================================================== *)
(** * The stop-loss monitor ([custom1_strategy.py])                    *)
(* ================================================================== *)

Section StopLoss.

Variable config : Config.t.
Variable manager : Manager.t.
Variable _get_ratios : Coin.t -> Q -> M RatioDict.
Variable _jump_to_best_coin : Coin.t -> Q -> M unit.

(** With data in at least one source, the recent high is read off the two
    lookups and nothing else happens. *)
Lemma _get_recent_high_price_history (coin : Coin.t) (ct : option Z) (w : World) :
  Custom1Strategy._get_recent_high_price config manager coin ct w =
  match Custom1Strategy.if_truthy (high_from_values config coin ct w),
        Custom1Strategy.if_truthy (high_from_scout config coin ct w) with
  | Some v, Some s => (Ok (Some (py_max v s)), w)
  | Some v, None => (Ok (Some v), w)
  | None, Some s => (Ok (Some s), w)
  | None, None =>
      match Manager.get_ticker_price manager (Coin.add coin (Config.BRIDGE config)) with
      | Ok current_price =>
          (Ok current_price, with_log (no_history_warning coin :: log w) w)
      | Raise e =>
          (Ok None,
           with_log (mkLog ERROR "Error getting recent high price: " (Some e) :: log w) w)
      end
  end.
Proof.
  unfold Custom1Strategy._get_recent_high_price, try_except, bind, reads, lift, ret.
  fold (high_from_values config coin ct w). fold (high_from_scout config coin ct w).
  destruct (Custom1Strategy.if_truthy (high_from_values config coin ct w));
    destruct (Custom1Strategy.if_truthy (high_from_scout config coin ct w)); try reflexivity.
  destruct (Manager.get_ticker_price manager _); reflexivity.
Qed.

End StopLoss.

(* ================================================================== *)
(** * Scouting from USDT ([custom1_strategy.py])                       *)
(* ================================================================== *)

Section ScoutFromUSDT.

Variable config : Config.t.
Variable manager : Manager.t.
Variable _get_ratios : Coin.t -> Q -> M RatioDict.

(** What one pass of the loop returns: it never raises; the accumulator
    changes only to the coin at hand, with a strictly greater potential. *)
Lemma usdt_body_cases (coin : Coin.t) (best : option Coin.t * Q) (w : World) :
  let r := Custom1Strategy.potential config manager _get_ratios coin w in
  (usdt_body config manager _get_ratios) coin best w =
  match fst r with
  | Ok (Some avg) =>
      (Ok (if Qlt_bool (snd best) avg then (Some coin, avg) else best), snd r)
  | Ok None => (Ok best, snd r)
  | Raise e =>
      (Ok best,
       with_log (mkLog DEBUG ("Error evaluating coin " ++ Coin.symbol coin ++ ": ")
                       (Some e) :: log (snd r)) (snd r))
  end.
Proof.
  unfold usdt_body, Custom1Strategy._scout_from_usdt_body, try_except, bind.
  destruct (Custom1Strategy.potential config manager _get_ratios coin w)
    as [[[avg|]|e] w1]; simpl; try reflexivity.
  destruct (Qlt_bool (snd best) avg); reflexivity.
Qed.

(** One pass never lowers the best potential, and ends at or above the
    potential of the coin at hand. *)
Lemma usdt_body_potential (coin : Coin.t) (best best' : option Coin.t * Q) (w : World) :
  fst ((usdt_body config manager _get_ratios) coin best w) = Ok best' ->
  snd best <= snd best' /\
  forall avg,
    fst (Custom1Strategy.potential config manager _get_ratios coin w) = Ok (Some avg) ->
    avg <= snd best'.
Proof.
  rewrite usdt_body_cases.
  destruct (fst (Custom1Strategy.potential config manager _get_ratios coin w))
    as [[avg|]|e]; simpl; intro H; injection H as <-.
  - destruct (Qlt_bool (snd best) avg) eqn:Hlt; simpl.
    + apply Qlt_bool_iff in Hlt. split; [now apply Qlt_le_weak|].
      intros a Ha. injection Ha as <-. apply Qle_refl.
    + apply Qlt_bool_false_iff in Hlt. split; [apply Qle_refl|].
      intros a Ha. now injection Ha as <-.
  - split; [apply Qle_refl | discriminate].
  - split; [apply Qle_refl | discriminate].
Qed.

Lemma usdt_body_selected (coins : list Coin.t) (coin : Coin.t)
  (best best' : option Coin.t * Q) (w : World) :
  In coin coins ->
  0 <= snd best ->
  selected_candidate coins best ->
  fst ((usdt_body config manager _get_ratios) coin best w) = Ok best' ->
  selected_candidate coins best'.
Proof.
  intros Hin H0 Hsel. rewrite usdt_body_cases.
  destruct (fst (Custom1Strategy.potential config manager _get_ratios coin w))
    as [[avg|]|e]; simpl; intro H; injection H as <-; try exact Hsel.
  destruct (Qlt_bool (snd best) avg) eqn:Hlt; [|exact Hsel].
  apply Qlt_bool_iff in Hlt. unfold selected_candidate. simpl.
  split; [exact Hin | eapply Qle_lt_trans; eauto].
Qed.

Lemma usdt_loop_selected (coins : list Coin.t) (l : list Coin.t) :
  incl l coins ->
  forall best best' w,
    0 <= snd best ->
    selected_candidate coins best ->
    fst (for_each l (usdt_body config manager _get_ratios) best w) = Ok best' ->
    selected_candidate coins best'.
Proof.
  induction l as [|c tl IH]; intros Hincl best best' w H0 Hsel; simpl.
  - intro H. now injection H as <-.
  - unfold bind. destruct ((usdt_body config manager _get_ratios) c best w) as [[b1|e] w1] eqn:Hb; [|discriminate].
    assert (Hb1 : fst ((usdt_body config manager _get_ratios) c best w) = Ok b1) by now rewrite Hb.
    apply IH.
    + intros x Hx. apply Hincl. now right.
    + eapply Qle_trans; [exact H0 | exact (proj1 (usdt_body_potential c best b1 w Hb1))].
    + apply (usdt_body_selected coins c best b1 w); auto. apply Hincl. now left.
Qed.

(** [_scout_from_usdt] returns normally, whatever is raised inside it. *)
Lemma _scout_from_usdt_returns (w : World) :
  fst (Custom1Strategy._scout_from_usdt config manager _get_ratios w) = Ok tt.
Proof.
  unfold Custom1Strategy._scout_from_usdt, try_except.
  destruct (Custom1Strategy._scout_from_usdt_try config manager _get_ratios w)
    as [[[]|e] w1]; reflexivity.
Qed.

(** The inherited [_get_ratios] does not move the holding pointer. *)
Hypothesis _get_ratios_frame :
  forall coin coin_price w,
    current_coin_history (snd (_get_ratios coin coin_price w)) = current_coin_history w.

Lemma potential_frame (coin : Coin.t) (w : World) :
  current_coin_history (snd (Custom1Strategy.potential config manager _get_ratios coin w))
  = current_coin_history w.
Proof.
  unfold Custom1Strategy.potential, bind, lift, ret.
  destruct (Manager.get_ticker_price manager _) as [[price|]|e]; try reflexivity.
  pose proof (_get_ratios_frame coin price w) as Hf.
  destruct (_get_ratios coin price w) as [[d|e] w1]; simpl in *; [|exact Hf].
  destruct (Custom1Strategy.positive_ratios d) as [|x tl]; [exact Hf|].
  destruct (Custom1Strategy.avg_potential (x :: tl)); exact Hf.
Qed.

Lemma usdt_body_frame (coin : Coin.t) (best : option Coin.t * Q) (w : World) :
  current_coin_history (snd ((usdt_body config manager _get_ratios) coin best w)) = current_coin_history w.
Proof.
  rewrite usdt_body_cases. pose proof (potential_frame coin w) as Hf.
  destruct (fst (Custom1Strategy.potential config manager _get_ratios coin w))
    as [[avg|]|e]; simpl; exact Hf.
Qed.

Lemma usdt_loop_frame (coins : list Coin.t) :
  forall best w,
    current_coin_history (snd (for_each coins (usdt_body config manager _get_ratios) best w)) = current_coin_history w.
Proof.
  induction coins as [|c tl IH]; intros best w; simpl; [reflexivity|].
  unfold bind. pose proof (usdt_body_frame c best w) as Hf.
  destruct ((usdt_body config manager _get_ratios) c best w) as [[b1|e] w1]; simpl in *; [|exact Hf].
  now rewrite IH.
Qed.

End ScoutFromUSDT.

(* ================================================================== *)
(** * The trade log ([database.py])                                    *)
(* ================================================================== *)

Lemma nth_error_update_row (f : Trade.t -> Trade.t) (l : list Trade.t) :
  forall n, nth_error (TradeLog.update_row n f l) n = option_map f (nth_error l n).
Proof.
  induction l as [|x tl IH]; intros [|n]; simpl; auto.
Qed.

Lemma nth_error_update_row_other (f : Trade.t -> Trade.t) (l : list Trade.t) :
  forall n m, n <> m ->
    nth_error (TradeLog.update_row n f l) m = nth_error l m.
Proof.
  induction l as [|x tl IH]; intros [|n] [|m] H; simpl; auto; try congruence.
Qed.

Lemma row_after_init (from_coin to_coin : Coin.t) (selling : bool) (w : World) :
  let r := TradeLog.init from_coin to_coin selling w in
  exists trade_log,
    fst r = Ok trade_log /\
    TradeLog.row trade_log w = None /\
    TradeLog.row trade_log (snd r) = Some (Trade.new from_coin to_coin selling).
Proof.
  simpl. eexists. split; [reflexivity|]. unfold TradeLog.row. simpl. split.
  - apply nth_error_None. apply Nat.le_refl.
  - rewrite nth_error_app2 by apply Nat.le_refl. now rewrite Nat.sub_diag.
Qed.

Lemma row_after_set_ordered (self : TradeLog.t) (a c t : Q) (w : World) :
  TradeLog.set_ordered self a c t w
  = (Ok tt, snd (TradeLog.set_ordered self a c t w)) /\
  TradeLog.row self (snd (TradeLog.set_ordered self a c t w))
  = option_map (TradeLog.ordered a c t) (TradeLog.row self w).
Proof.
  split; [reflexivity|]. unfold TradeLog.row. simpl. apply nth_error_update_row.
Qed.

Lemma row_after_set_complete (self : TradeLog.t) (x : Q) (w : World) :
  TradeLog.set_complete self x w
  = (Ok tt, snd (TradeLog.set_complete self x w)) /\
  TradeLog.row self (snd (TradeLog.set_complete self x w))
  = option_map (TradeLog.complete x) (TradeLog.row self w).
Proof.
  split; [reflexivity|]. unfold TradeLog.row. simpl. apply nth_error_update_row.
Qed.

(** The states a trade shows over its life, by the legs that confirmed. *)
Lemma trade_lifecycle_states
  (from_coin to_coin : Coin.t) (selling : bool)
  (ordered : option (Q * Q * Q)) (completed : option Q) (w : World) :
  fst (trade_lifecycle from_coin to_coin selling ordered completed w) =
  Ok (map Some
        (match ordered, completed with
         | None, _ => [Trade.CREATED]
         | Some _, None => [Trade.CREATED; Trade.ORDERED]
         | Some _, Some _ => [Trade.CREATED; Trade.ORDERED; Trade.COMPLETE]
         end)).
Proof.
  unfold trade_lifecycle, start_trade_log, bind, reads, ret.
  destruct (row_after_init from_coin to_coin selling w) as [tl [Hi [_ Hrow]]].
  destruct (TradeLog.init from_coin to_coin selling w) as [r w1].
  simpl in Hi, Hrow. subst r.
  assert (Hs0 : TradeLog.state tl w1 = Some Trade.CREATED)
    by (unfold TradeLog.state; now rewrite Hrow).
  rewrite Hs0.
  destruct ordered as [[[a c] t]|]; [|reflexivity].
  destruct (row_after_set_ordered tl a c t w1) as [Ho Hrow1].
  rewrite Ho. set (w2 := snd (TradeLog.set_ordered tl a c t w1)) in *.
  assert (Hs1 : TradeLog.state tl w2 = Some Trade.ORDERED)
    by (unfold TradeLog.state; now rewrite Hrow1, Hrow).
  rewrite Hs1.
  destruct completed as [x|]; [|reflexivity].
  destruct (row_after_set_complete tl x w2) as [Hc Hrow2].
  rewrite Hc. set (w3 := snd (TradeLog.set_complete tl x w2)) in *.
  assert (Hs2 : TradeLog.state tl w3 = Some Trade.COMPLETE)
    by (unfold TradeLog.state; now rewrite Hrow2, Hrow1, Hrow).
  rewrite Hs2. reflexivity.
Qed.

(* ================================================================== *)
(** * Properties of the ratio engine                                   *)
(* ================================================================== *)





(** C10. For a pair whose target is USDT the price is 1 and the exit fee 0,
    so the transaction fee is the fee [get_fee(from_coin, BRIDGE, True)]
    alone, and [mt] is [-0.001] divided by it without a guard: the pass of
    the loop stores a score when that fee is not zero and raises
    [ZeroDivisionError] when it is, and [_get_ratios] returns only if it
    is not zero. *)
Theorem C10_usdt_target_fee_division
  (config : Config.t) (manager : Manager.t) (coin : Coin.t) (coin_price : Q)
  (w : World) (pair : Pair.t) (fee : Q) :
  In pair (Database.get_pairs_from coin true w) ->
  is_USDT (Pair.to_coin pair) = true ->
  Manager.get_fee manager (Pair.from_coin pair) (Config.BRIDGE config) true = Ok fee ->
  target_quote config manager pair = Ok (Some 1, 0) /\
  (forall ratio_dict w0,
      ~ fee == 0 ->
      fst (Test1Strategy._get_ratios_body config manager coin_price
             (Test1Strategy.cmt config coin) pair ratio_dict w0)
      = Ok (dict_set ratio_dict pair
              (coin_price / 1 * (1 - (fee + 0) * (-0.001 / (fee + 0)))
               - Pair.ratio pair))) /\
  (forall ratio_dict w0,
      fee == 0 ->
      fst (Test1Strategy._get_ratios_body config manager coin_price
             (Test1Strategy.cmt config coin) pair ratio_dict w0)
      = Raise ZeroDivisionError) /\
  (fee == 0 ->
   exists e, fst (Test1Strategy._get_ratios config manager coin coin_price w) = Raise e) /\
  (forall ratio_dict,
      fst (Test1Strategy._get_ratios config manager coin coin_price w) = Ok ratio_dict ->
      ~ fee == 0).
Proof.
  intros Hin Hto Hfee.
  assert (Hq : target_quote config manager pair = Ok (Some 1, 0))
    by (unfold target_quote; now rewrite Hto).
  assert (Hone : ~ 1 == 0) by discriminate.
  assert (Hscore_zero :
            fee == 0 ->
            score config manager coin_price (Test1Strategy.cmt config coin) pair
            = Raise ZeroDivisionError).
  { intro Hz. unfold score. rewrite Hq, (py_div_ok _ _ Hone), Hfee.
    unfold Test1Strategy.mt. rewrite Hto.
    rewrite py_div_zero; [reflexivity|]. rewrite Hz. reflexivity. }
  assert (Hnot_ok :
            forall d, fst (Test1Strategy._get_ratios config manager coin coin_price w) = Ok d ->
                      ~ fee == 0).
  { intros d Hok Hz. rewrite _get_ratios_fst in Hok.
    destruct (ratios_of_ok_score _ _ _ _ _ _ _ pair Hok Hin) as [r Hr].
    rewrite (Hscore_zero Hz) in Hr. discriminate. }
  split; [exact Hq|]. split; [|split; [|split]].
  - intros d w0 Hnz. rewrite body_fst. unfold score.
    rewrite Hq, (py_div_ok _ _ Hone), Hfee.
    unfold Test1Strategy.mt. rewrite Hto.
    rewrite py_div_ok; [reflexivity|].
    intro Hz. apply Hnz. rewrite <- Hz. ring.
  - intros d w0 Hz. rewrite body_fst. now rewrite (Hscore_zero Hz).
  - intro Hz.
    destruct (fst (Test1Strategy._get_ratios config manager coin coin_price w))
      as [d|e] eqn:E; [|eauto].
    exfalso. exact (Hnot_ok d eq_refl Hz).
  - exact Hnot_ok.
Qed.

(** C10, at the scenario: with a fee of zero, scouting from ETH with a pair
    to USDT raises [ZeroDivisionError]. *)
Lemma C10_usdt_target_fee_division_witness :
  fst (Test1Strategy._get_ratios_body Scenario.config Scenario.manager_zero_fee 2000
         (Test1Strategy.cmt Scenario.config Scenario.ETH) Scenario.ETH_USDT []
         Scenario.world_with_usdt_pair)
  = Raise ZeroDivisionError.
Proof.
  refine (proj1 (proj2 (proj2
            (C10_usdt_target_fee_division Scenario.config Scenario.manager_zero_fee
               Scenario.ETH 2000 Scenario.world_with_usdt_pair Scenario.ETH_USDT 0 _ _ _)))
            [] Scenario.world_with_usdt_pair _).
  - vm_compute. auto.
  - reflexivity.
  - reflexivity.
  - reflexivity.
Defined.

(* ================================================================== *)
(** * Properties of the rotation through the bridge                    *)
(* ================================================================== *)

(** C3. When a leg of [transaction_through_bridge] comes back [None] the
    rotation aborts and the holding pointer stays.  After a failed sell no
    buy is sent and the method returns [None].  After a failed buy -
    whether the sell before it succeeded or was skipped (source USDT, or a
    holding below the minimum notional) - [set_current_coin] is not
    called, the failure is logged ("Couldn't buy, going back to scouting
    mode...", at level INFO) and the method returns [None], the pointer
    still naming the coin it named before. *)
Theorem C3_failed_leg_aborts
  (config : Config.t) (manager : Manager.t)
  (update_trade_threshold : Coin.t -> Q -> M unit) (pair : Pair.t) (w : World) :
  let from_coin := Pair.from_coin pair in
  let to_coin := Pair.to_coin pair in
  let BRIDGE := Config.BRIDGE config in
  let r := Test1Strategy.transaction_through_bridge
             config manager update_trade_threshold pair w in
  (fst (Test1Strategy.can_sell config manager pair w) = Ok true ->
   Manager.sell_alt manager from_coin BRIDGE = Ok None ->
   fst r = Ok None /\
   current_coin_history (snd r) = current_coin_history w /\
   order_calls (snd r) = SellAlt from_coin BRIDGE :: order_calls w /\
   log (snd r) = could_not_sell :: log w)
  /\
  (forall order,
      fst (Test1Strategy.can_sell config manager pair w) = Ok true ->
      Manager.sell_alt manager from_coin BRIDGE = Ok (Some order) ->
      is_USDT to_coin = false ->
      Manager.buy_alt manager to_coin BRIDGE = Ok None ->
      fst r = Ok None /\
      current_coin_history (snd r) = current_coin_history w /\
      order_calls (snd r)
      = BuyAlt to_coin BRIDGE :: SellAlt from_coin BRIDGE :: order_calls w /\
      log (snd r) = could_not_buy :: log w)
  /\
  (fst (Test1Strategy.can_sell config manager pair w) = Ok false ->
   is_USDT to_coin = false ->
   Manager.buy_alt manager to_coin BRIDGE = Ok None ->
   fst r = Ok None /\
   current_coin_history (snd r) = current_coin_history w /\
   order_calls (snd r) = BuyAlt to_coin BRIDGE :: order_calls w /\
   log (snd r) = could_not_buy :: skipping_sell :: log w).
Proof.
  intros from_coin to_coin BRIDGE r. subst r from_coin to_coin BRIDGE.
  split; [|split].
  - intros Hcs Hsell.
    rewrite (failed_sell_aborts config manager update_trade_threshold pair w Hcs Hsell).
    simpl. auto.
  - intros order Hcs Hsell Hto Hbuy.
    rewrite (failed_buy_aborts config manager update_trade_threshold pair w true
               Hcs (fun _ => ex_intro _ order Hsell) Hto Hbuy).
    simpl. auto.
  - intros Hcs Hto Hbuy.
    assert (Hnosell : false = true ->
                      exists order,
                        Manager.sell_alt manager (Pair.from_coin pair) (Config.BRIDGE config)
                        = Ok (Some order)) by discriminate.
    rewrite (failed_buy_aborts config manager update_trade_threshold pair w false
               Hcs Hnosell Hto Hbuy).
    simpl. auto.
Qed.

(** C3, at the scenario: the holding of ETH is too small to sell, the sell
    is skipped, and the exchange refuses the purchase of BTC. *)
Lemma C3_failed_leg_aborts_witness :
  let r := Test1Strategy.transaction_through_bridge
             Scenario.config Scenario.manager_dust_buy_fails
             Scenario.update_trade_threshold Scenario.ETH_BTC Scenario.world in
  fst r = Ok None /\
  current_coin_history (snd r) = [Scenario.ETH] /\
  order_calls (snd r) = [BuyAlt Scenario.BTC Scenario.USDT] /\
  log (snd r) = [could_not_buy; skipping_sell].
Proof.
  refine (proj2 (proj2 (C3_failed_leg_aborts Scenario.config Scenario.manager_dust_buy_fails
                          Scenario.update_trade_threshold Scenario.ETH_BTC Scenario.world))
            _ _ _); reflexivity.
Defined.

(** C7 (where the code departs from it). For a destination USDT the buy is
    skipped and [result] is the dict [{"price": 1}]; the holding pointer is
    advanced to the destination, and then [result.price] raises
    [AttributeError]: [update_trade_threshold] is not reached and the
    method does not return [result]. *)
Theorem C7_unit_price_result_raises
  (config : Config.t) (manager : Manager.t)
  (update_trade_threshold : Coin.t -> Q -> M unit) (pair : Pair.t) (w : World)
  (can_sell : bool) :
  fst (Test1Strategy.can_sell config manager pair w) = Ok can_sell ->
  (can_sell = true ->
   exists order,
     Manager.sell_alt manager (Pair.from_coin pair) (Config.BRIDGE config)
     = Ok (Some order)) ->
  is_USDT (Pair.to_coin pair) = true ->
  let r := Test1Strategy.transaction_through_bridge
             config manager update_trade_threshold pair w in
  let w1 := after_sell_leg config can_sell pair w in
  fst r = Raise AttributeError /\
  snd r = with_current_coin_history (Pair.to_coin pair :: current_coin_history w) w1 /\
  (forall origin target, ~ In (BuyAlt origin target) (order_calls w) ->
                         ~ In (BuyAlt origin target) (order_calls (snd r))).
Proof.
  intros Hcs Hsell Hto r w1. subst r w1.
  rewrite (unit_price_dict_raises config manager update_trade_threshold pair w can_sell
             Hcs Hsell Hto).
  simpl. split; [reflexivity|]. split.
  - destruct can_sell; reflexivity.
  - intros origin target Hno. destruct can_sell; simpl; [|exact Hno].
    intros [Heq|Hin]; [discriminate | exact (Hno Hin)].
Qed.

(** C7, at the scenario: the rotation from ETH to USDT sells ETH, moves the
    holding pointer to USDT and raises. *)
Lemma C7_unit_price_result_raises_witness :
  let r := Test1Strategy.transaction_through_bridge
             Scenario.config Scenario.manager
             Scenario.update_trade_threshold Scenario.ETH_USDT Scenario.world in
  fst r = Raise AttributeError /\
  current_coin_history (snd r) = [Scenario.USDT; Scenario.ETH] /\
  order_calls (snd r) = [SellAlt Scenario.ETH Scenario.USDT] /\
  log (snd r) = [].
Proof.
  destruct (C7_unit_price_result_raises Scenario.config Scenario.manager
              Scenario.update_trade_threshold Scenario.ETH_USDT Scenario.world true)
    as [Hr [Hw _]].
  - reflexivity.
  - intros _. exists (Order.mk 2000). reflexivity.
  - reflexivity.
  - split; [exact Hr|]. rewrite Hw. repeat split.
Defined.

(* ================================================================== *)
(** * Properties of the trade log                                      *)
(* ================================================================== *)

(** C2. A [TradeLog] creates its trade in state [CREATED]; [set_ordered]
    leaves the trade in [ORDERED] with the two starting balances and the
    traded amount set; [set_complete] leaves it in [COMPLETE] with the
    acquired amount set; and over the life of a trade, driven by the order
    legs in the order the spec gives, the states observed are a non-empty
    prefix of [CREATED, ORDERED, COMPLETE]: the state never moves
    backwards, and [COMPLETE] is never seen without [ORDERED] before it. *)
Theorem C2_trade_state_sequence :
  (forall from_coin to_coin selling w,
      exists trade_log,
        fst (start_trade_log from_coin to_coin selling w) = Ok trade_log /\
        TradeLog.state trade_log (snd (start_trade_log from_coin to_coin selling w))
        = Some Trade.CREATED)
  /\
  (forall self a c t w,
      TradeLog.row self (snd (TradeLog.set_ordered self a c t w))
      = option_map (TradeLog.ordered a c t) (TradeLog.row self w) /\
      forall trade,
        Trade.state (TradeLog.ordered a c t trade) = Trade.ORDERED /\
        Trade.alt_starting_balance (TradeLog.ordered a c t trade) = Some a /\
        Trade.crypto_starting_balance (TradeLog.ordered a c t trade) = Some c /\
        Trade.alt_trade_amount (TradeLog.ordered a c t trade) = Some t /\
        Trade.crypto_trade_amount (TradeLog.ordered a c t trade)
        = Trade.crypto_trade_amount trade)
  /\
  (forall self x w,
      TradeLog.row self (snd (TradeLog.set_complete self x w))
      = option_map (TradeLog.complete x) (TradeLog.row self w) /\
      forall trade,
        Trade.state (TradeLog.complete x trade) = Trade.COMPLETE /\
        Trade.crypto_trade_amount (TradeLog.complete x trade) = Some x /\
        Trade.alt_starting_balance (TradeLog.complete x trade)
        = Trade.alt_starting_balance trade /\
        Trade.crypto_starting_balance (TradeLog.complete x trade)
        = Trade.crypto_starting_balance trade /\
        Trade.alt_trade_amount (TradeLog.complete x trade)
        = Trade.alt_trade_amount trade)
  /\
  (forall from_coin to_coin selling ordered completed w,
      exists n states,
        fst (trade_lifecycle from_coin to_coin selling ordered completed w)
        = Ok (map Some states) /\
        states = firstn (S n) [Trade.CREATED; Trade.ORDERED; Trade.COMPLETE] /\
        (forall i j s s',
            (i <= j)%nat -> nth_error states i = Some s -> nth_error states j = Some s' ->
            (state_rank s <= state_rank s')%nat) /\
        (In Trade.COMPLETE states -> In Trade.ORDERED states)).
Proof.
  split; [|split; [|split]].
  - intros from_coin to_coin selling w. unfold start_trade_log.
    destruct (row_after_init from_coin to_coin selling w) as [tl [Hi [_ Hrow]]].
    exists tl. split; [exact Hi|]. unfold TradeLog.state. now rewrite Hrow.
  - intros self a c t w. split; [apply row_after_set_ordered|].
    intro trade. repeat split.
  - intros self x w. split; [apply row_after_set_complete|].
    intro trade. repeat split.
  - intros from_coin to_coin selling ordered completed w.
    rewrite trade_lifecycle_states.
    destruct ordered as [o|]; [destruct completed as [x|]|].
    + exists 2%nat, [Trade.CREATED; Trade.ORDERED; Trade.COMPLETE].
      repeat split; auto.
      * intros i j s s' Hle Hi Hj. rank_cases.
      * intros _. simpl. auto.
    + exists 1%nat, [Trade.CREATED; Trade.ORDERED].
      repeat split; auto.
      * intros i j s s' Hle Hi Hj. rank_cases.
      * intros _. simpl. auto.
    + exists 0%nat, [Trade.CREATED].
      repeat split; auto.
      * intros i j s s' Hle Hi Hj. rank_cases.
      * simpl. intros [H|[]]. discriminate.
Qed.

(* ================================================================== *)
(** * Properties of the stop-loss monitor                              *)
(* ================================================================== *)

Lemma py_max_spec (a b : Q) :
  a <= py_max a b /\ b <= py_max a b /\ (py_max a b = a \/ py_max a b = b).
Proof.
  unfold py_max. destruct (Qlt_bool a b) eqn:E.
  - apply Qlt_bool_iff in E. repeat split; auto using Qle_refl, Qlt_le_weak.
  - apply Qlt_bool_false_iff in E. repeat split; auto using Qle_refl.
Qed.

Lemma drawdown_from_itself (p : Q) : ~ p == 0 -> (p - p) / p * 100 == 0.
Proof. intro H. field. exact H. Qed.

(** On a cold start with a positive threshold the monitor does not trip:
    it sends no order and leaves the holding pointer. *)
Lemma cold_start_no_trip
  (config : Config.t) (manager : Manager.t) (coin : Coin.t) (current_price : Q)
  (ct : option Z) (w : World) :
  Custom1Strategy.if_truthy (high_from_values config coin ct w) = None ->
  Custom1Strategy.if_truthy (high_from_scout config coin ct w) = None ->
  Manager.get_ticker_price manager (Coin.add coin (Config.BRIDGE config))
  = Ok (Some current_price) ->
  0 < Config.STOP_LOSS_PERCENTAGE config ->
  let c := Custom1Strategy._check_trailing_stop_loss
             config manager coin current_price ct w in
  fst c = Ok false /\
  order_calls (snd c) = order_calls w /\
  current_coin_history (snd c) = current_coin_history w.
Proof.
  intros Hv Hs Hp Hpos c. subst c.
  unfold Custom1Strategy._check_trailing_stop_loss, try_except, bind.
  destruct (is_USDT coin); [simpl; auto|].
  rewrite _get_recent_high_price_history, Hv, Hs, Hp.
  unfold lift, Custom1Strategy.price_drop_percentage, py_div.
  destruct (Qeq_bool current_price 0) eqn:Hz; [simpl; auto|].
  apply Qeq_bool_neq in Hz.
  destruct (Qle_bool _ _) eqn:Hle; [|simpl; auto].
  apply Qle_bool_iff in Hle. rewrite (drawdown_from_itself _ Hz) in Hle.
  exfalso. exact (Qlt_not_le _ _ Hpos Hle).
Qed.

(** C5 (as amended). The recent high is the maximum of the two lookups
    that return a value other than zero - (a) the highest sampled price
    point found for the held asset, and (b) the highest positive
    [current_coin_price] in the scout history, over the last
    [TRAILING_STOP_HOURS] hours, of any pair whose source is the held asset
    - or the one of them that does.  When neither does, it is a second live
    fetch of the price.  If that fetch returns the price the cycle fetched
    first and handed to the monitor, the drawdown is zero and the monitor
    does not trip, provided the stop-loss percentage is positive.  If it
    returns a higher price the drawdown is positive and can trip the
    monitor: 1999 fetched first, 2000 second, at a threshold of 0.01%. *)
Theorem C5_recent_high
  (config : Config.t) (manager : Manager.t) (coin : Coin.t)
  (ct : option Z) (w : World) :
  let from_values := Custom1Strategy.if_truthy (high_from_values config coin ct w) in
  let from_scout := Custom1Strategy.if_truthy (high_from_scout config coin ct w) in
  let since := Database.time_diff (Config.TRAILING_STOP_HOURS config) ct w in
  let r := Custom1Strategy._get_recent_high_price config manager coin ct w in
  (forall v s, from_values = Some v -> from_scout = Some s ->
               r = (Ok (Some (py_max v s)), w) /\
               v <= py_max v s /\ s <= py_max v s /\
               (py_max v s = v \/ py_max v s = s)) /\
  (forall v, from_values = Some v -> from_scout = None -> r = (Ok (Some v), w)) /\
  (forall s, from_values = None -> from_scout = Some s -> r = (Ok (Some s), w)) /\
  (forall v, from_values = Some v ->
             exists from_time,
               sampled_price coin from_time w v /\
               forall p, sampled_price coin from_time w p -> p <= v) /\
  (forall s, from_scout = Some s ->
             0 < s /\ scouted_price coin since w s /\
             forall p, scouted_price coin since w p -> p <= s) /\
  (forall second_fetch,
      from_values = None -> from_scout = None ->
      Manager.get_ticker_price manager (Coin.add coin (Config.BRIDGE config))
      = Ok (Some second_fetch) ->
      r = (Ok (Some second_fetch), with_log (no_history_warning coin :: log w) w) /\
      (~ second_fetch == 0 ->
       exists drop_pct,
         Custom1Strategy.price_drop_percentage second_fetch second_fetch = Ok drop_pct /\
         drop_pct == 0) /\
      (0 < Config.STOP_LOSS_PERCENTAGE config ->
       let c := Custom1Strategy._check_trailing_stop_loss
                  config manager coin second_fetch ct w in
       fst c = Ok false /\
       order_calls (snd c) = order_calls w /\
       current_coin_history (snd c) = current_coin_history w)) /\
  (let first_fetch := 1999 in
   let c := Custom1Strategy._check_trailing_stop_loss
              Scenario.config_low_threshold Scenario.manager Scenario.ETH first_fetch
              None Scenario.world in
   high_from_values Scenario.config_low_threshold Scenario.ETH None Scenario.world
   = None /\
   high_from_scout Scenario.config_low_threshold Scenario.ETH None Scenario.world
   = None /\
   Manager.get_ticker_price Scenario.manager
     (Coin.add Scenario.ETH (Config.BRIDGE Scenario.config_low_threshold))
   = Ok (Some 2000) /\
   fst c = Ok true /\
   order_calls (snd c) = [SellAlt Scenario.ETH Scenario.USDT]).
Proof.
  intros from_values from_scout since r. subst r from_values from_scout since.
  rewrite _get_recent_high_price_history.
  split; [|split; [|split; [|split; [|split; [|split]]]]].
  - intros v s Hv Hs. rewrite Hv, Hs. split; [reflexivity | apply py_max_spec].
  - intros v Hv Hs. now rewrite Hv, Hs.
  - intros s Hv Hs. now rewrite Hv, Hs.
  - intros v Hv.
    pose proof (get_coin_high_price_from_values_spec
                  coin (Config.TRAILING_STOP_HOURS config / 24 + 1)%Z ct w) as Hspec.
    unfold high_from_values in Hv.
    destruct (Database.get_coin_high_price_from_values _ _ _ _) as [m|]; [|discriminate].
    simpl in Hv. destruct (truthy m); [|discriminate]. injection Hv as <-.
    eexists. exact Hspec.
  - intros s Hs.
    pose proof (get_coin_recent_high_price_spec
                  coin (Config.TRAILING_STOP_HOURS config) ct w) as Hspec.
    unfold high_from_scout in Hs.
    destruct (Database.get_coin_recent_high_price _ _ _ _) as [m|]; [|discriminate].
    simpl in Hs. destruct (truthy m); [|discriminate]. injection Hs as <-.
    exact Hspec.
  - intros second_fetch Hv Hs Hp. split; [now rewrite Hv, Hs, Hp|]. split.
    + intro Hnz. exists ((second_fetch - second_fetch) / second_fetch * 100).
      unfold Custom1Strategy.price_drop_percentage. rewrite (py_div_ok _ _ Hnz).
      split; [reflexivity | now apply drawdown_from_itself].
    + intro Hpos.
      apply (cold_start_no_trip config manager coin second_fetch ct w); assumption.
  - vm_compute. repeat split.
Qed.

(** C5, at the scenario: nothing sampled or scouted for ETH yet, threshold
    15%, both fetches at 2000: the monitor does not trip. *)
Lemma C5_recent_high_witness :
  let c := Custom1Strategy._check_trailing_stop_loss
             Scenario.config Scenario.manager Scenario.ETH 2000 None Scenario.world in
  fst c = Ok false /\
  order_calls (snd c) = [] /\
  current_coin_history (snd c) = [Scenario.ETH].
Proof.
  destruct (C5_recent_high Scenario.config Scenario.manager Scenario.ETH None
              Scenario.world) as [_ [_ [_ [_ [_ [H _]]]]]].
  destruct (H 2000 eq_refl eq_refl eq_refl) as [_ [_ Hc]].
  apply Hc. reflexivity.
Defined.

(** C5 as stated fails: on a cold start (no price point, no scout record)
    with a stop-loss percentage of zero the drawdown of zero reaches the
    threshold, and the monitor trips and sells. *)
Lemma C5_cold_start_trips_at_zero_threshold :
  high_from_values Scenario.config_zero_threshold Scenario.ETH None Scenario.world
  = None /\
  high_from_scout Scenario.config_zero_threshold Scenario.ETH None Scenario.world
  = None /\
  fst (Custom1Strategy._check_trailing_stop_loss
         Scenario.config_zero_threshold Scenario.manager Scenario.ETH 2000 None
         Scenario.world) = Ok true /\
  order_calls (snd (Custom1Strategy._check_trailing_stop_loss
                      Scenario.config_zero_threshold Scenario.manager Scenario.ETH 2000
                      None Scenario.world))
  = [SellAlt Scenario.ETH Scenario.USDT] /\
  current_coin_history
    (snd (Custom1Strategy._check_trailing_stop_loss
            Scenario.config_zero_threshold Scenario.manager Scenario.ETH 2000 None
            Scenario.world))
  = [Scenario.USDT; Scenario.ETH].
Proof. vm_compute. repeat split. Qed.

(** The lookup of sampled price points is called with
    [TRAILING_STOP_HOURS // 24 + 1] and reads it as a number of hours: with
    24 hours configured, a price point five hours old is within the last
    24 hours and yet not seen, so a fall from 100 to 80 does not trip a
    threshold of 15%. *)
Lemma sampled_high_looks_back_hours_not_days :
  sampled_price Scenario.ETH
    (Database.time_diff (Config.TRAILING_STOP_HOURS Scenario.config) None
       Scenario.world_high_100_five_hours_ago)
    Scenario.world_high_100_five_hours_ago 100 /\
  high_from_values Scenario.config Scenario.ETH None
    Scenario.world_high_100_five_hours_ago = None /\
  fst (Custom1Strategy._check_trailing_stop_loss
         Scenario.config Scenario.manager_eth_80 Scenario.ETH 80 None
         Scenario.world_high_100_five_hours_ago) = Ok false.
Proof.
  split; [|vm_compute; auto].
  exists (CoinValue.mk Scenario.ETH (Some 100) (1000000 - 5 * 3600)).
  vm_compute. repeat split; auto. discriminate.
Qed.


(* ================================================================== *)
(** * Further properties: the high-price lookups                       *)
(* ================================================================== *)

Lemma scouted_price_window (coin : Coin.t) (since since' : Z) (w : World) (p : Q) :
  (since' <= since)%Z -> scouted_price coin since w p -> scouted_price coin since' w p.
Proof.
  intros Hle [pair [record [Hp [Hc [Hr [He [Hd Hpr]]]]]]].
  exists pair, record. repeat split; auto. lia.
Qed.

Lemma sampled_price_window (coin : Coin.t) (since since' : Z) (w : World) (p : Q) :
  (since' <= since)%Z -> sampled_price coin since w p -> sampled_price coin since' w p.
Proof.
  intros Hle [cv [Hin [Hc [Hd Hp]]]].
  exists cv. repeat split; auto. lia.
Qed.

Lemma time_diff_antitone (hours hours' : Z) (ct : option Z) (w : World) :
  (hours <= hours')%Z ->
  (Database.time_diff hours' ct w <= Database.time_diff hours ct w)%Z.
Proof. intro H. unfold Database.time_diff. destruct ct; lia. Qed.

(** A scouted price that is positive is found by the lookup. *)
Lemma recent_high_at_least (coin : Coin.t) (hours : Z) (ct : option Z) (w : World) (p : Q) :
  0 < p ->
  scouted_price coin (Database.time_diff hours ct w) w p ->
  exists m, Database.get_coin_recent_high_price coin hours ct w = Some m /\ p <= m.
Proof.
  intros Hpos Hp.
  pose proof (get_coin_recent_high_price_spec coin hours ct w) as Hspec. simpl in Hspec.
  destruct (Database.get_coin_recent_high_price coin hours ct w) as [m|].
  - exists m. split; [reflexivity|]. now apply Hspec.
  - exfalso. exact (Qlt_not_le _ _ Hpos (Hspec p Hp)).
Qed.

(** A sampled price is found by the lookup. *)
Lemma values_high_at_least (coin : Coin.t) (hours : Z) (ct : option Z) (w : World) (p : Q) :
  sampled_price coin (Database.time_diff hours ct w) w p ->
  exists m, Database.get_coin_high_price_from_values coin hours ct w = Some m /\ p <= m.
Proof.
  intro Hp.
  pose proof (get_coin_high_price_from_values_spec coin hours ct w) as Hspec.
  simpl in Hspec.
  destruct (Database.get_coin_high_price_from_values coin hours ct w) as [m|].
  - exists m. split; [reflexivity|]. now apply Hspec.
  - exfalso. exact (Hspec p Hp).
Qed.

(** X1. [get_coin_recent_high_price] returns the highest
    [current_coin_price] among the scout records, not older than the
    window, of the pairs whose source is the coin, when that price is
    positive; it returns [None] exactly when no such record has a positive
    price (in particular when the coin has no pair); it never returns zero
    or a negative price. *)
Theorem X1_recent_high_is_highest_scouted_price
  (coin : Coin.t) (hours : Z) (current_time : option Z) (w : World) :
  let since := Database.time_diff hours current_time w in
  (forall m,
      Database.get_coin_recent_high_price coin hours current_time w = Some m ->
      0 < m /\ scouted_price coin since w m /\
      forall p, scouted_price coin since w p -> p <= m) /\
  (Database.get_coin_recent_high_price coin hours current_time w = None <->
   forall p, scouted_price coin since w p -> p <= 0).
Proof.
  intro since.
  pose proof (get_coin_recent_high_price_spec coin hours current_time w) as Hspec.
  simpl in Hspec. fold since in Hspec.
  destruct (Database.get_coin_recent_high_price coin hours current_time w) as [m0|].
  - destruct Hspec as [Hpos [Hin Hub]]. split.
    + intros m H. injection H as <-. auto.
    + split; [discriminate|].
      intro Hall. exfalso. exact (Qlt_not_le _ _ Hpos (Hall m0 Hin)).
  - split; [discriminate|]. split; auto.
Qed.

(** X2. [get_coin_high_price_from_values] returns the highest [usd_price]
    among the price points of the coin that are not older than [hours]
    hours and have a price, and [None] exactly when there is none. *)
Theorem X2_values_high_is_highest_sampled_price
  (coin : Coin.t) (hours : Z) (current_time : option Z) (w : World) :
  let since := Database.time_diff hours current_time w in
  (forall m,
      Database.get_coin_high_price_from_values coin hours current_time w = Some m ->
      sampled_price coin since w m /\
      forall p, sampled_price coin since w p -> p <= m) /\
  (Database.get_coin_high_price_from_values coin hours current_time w = None <->
   forall p, ~ sampled_price coin since w p).
Proof.
  intro since.
  pose proof (get_coin_high_price_from_values_spec coin hours current_time w) as Hspec.
  simpl in Hspec. fold since in Hspec.
  destruct (Database.get_coin_high_price_from_values coin hours current_time w) as [m0|].
  - split.
    + intros m H. injection H as <-. exact Hspec.
    + split; [discriminate|].
      intro Hnone. exfalso. exact (Hnone m0 (proj1 Hspec)).
  - split; [discriminate|]. split; auto.
Qed.

(** X3. A longer window never lowers a high: when the lookup over [hours]
    hours finds a high, the lookup over [hours' >= hours] hours finds one at
    least as large, for the scout history and for the price points
    alike. *)
Theorem X3_longer_window_higher_high
  (coin : Coin.t) (hours hours' : Z) (current_time : option Z) (w : World) :
  (hours <= hours')%Z ->
  (forall m,
      Database.get_coin_recent_high_price coin hours current_time w = Some m ->
      exists m', Database.get_coin_recent_high_price coin hours' current_time w = Some m' /\
                 m <= m') /\
  (forall m,
      Database.get_coin_high_price_from_values coin hours current_time w = Some m ->
      exists m', Database.get_coin_high_price_from_values coin hours' current_time w
                 = Some m' /\ m <= m').
Proof.
  intro Hle. pose proof (time_diff_antitone hours hours' current_time w Hle) as Ht.
  split; intros m Hm.
  - pose proof (get_coin_recent_high_price_spec coin hours current_time w) as Hspec.
    simpl in Hspec. rewrite Hm in Hspec. destruct Hspec as [Hpos [Hin _]].
    apply recent_high_at_least; [exact Hpos|].
    eapply scouted_price_window; eauto.
  - pose proof (get_coin_high_price_from_values_spec coin hours current_time w) as Hspec.
    simpl in Hspec. rewrite Hm in Hspec. destruct Hspec as [Hin _].
    apply values_high_at_least.
    eapply sampled_price_window; eauto.
Qed.

(** X3, at the scenario: the price point of an hour ago, seen over 2 hours,
    is seen over 48. *)
Lemma X3_longer_window_higher_high_witness :
  exists m', Database.get_coin_high_price_from_values
               Scenario.ETH 48 None Scenario.world_high_100 = Some m' /\ 100 <= m'.
Proof.
  refine (proj2 (X3_longer_window_higher_high Scenario.ETH 2 48 None
                   Scenario.world_high_100 _) 100 _).
  - lia.
  - vm_compute. reflexivity.
Defined.

(** X4. A scouted price is seen while it is inside the window: after
    [log_scout(pair, ratio, price, other)] for a pair of the table with a
    positive [price], a lookup of the recent high of the pair's source made
    [elapsed] seconds later over [hours] hours returns at least [price]
    as long as [elapsed <= 3600 * hours]; made later than that, on a
    history that held nothing else, it returns [None].  At [hours = 0]
    the record is seen only by a lookup at the very instant of the write. *)
Theorem X4_log_scout_raises_recent_high
  (pair : Pair.t) (target_ratio price other_price : Q) (hours elapsed : Z) (w : World) :
  In pair (pairs w) ->
  0 < price ->
  (0 <= elapsed)%Z ->
  let w' := elapse elapsed
              (snd (Database.log_scout pair target_ratio price other_price w)) in
  ((elapsed <= 3600 * hours)%Z ->
   exists m,
     Database.get_coin_recent_high_price (Pair.from_coin pair) hours None w' = Some m /\
     price <= m) /\
  ((3600 * hours < elapsed)%Z ->
   scout_history w = [] ->
   Database.get_coin_recent_high_price (Pair.from_coin pair) hours None w' = None).
Proof.
  intros Hin Hpos Hel w'.
  assert (Hnow : now w' = (now w + elapsed)%Z) by reflexivity.
  split.
  - intro Hwin.
    apply recent_high_at_least; [exact Hpos|].
    exists pair, (ScoutHistory.mk pair target_ratio (Some price) (Some other_price) (now w)).
    split; [exact Hin|].
    split; [unfold Coin.eqb; apply String.eqb_refl|].
    split; [apply in_or_app; right; now left|].
    split; [apply Pair_eqb_refl|].
    split; [|reflexivity].
    unfold Database.time_diff. rewrite Hnow.
    change (ScoutHistory.datetime _) with (now w). lia.
  - intros Hout Hempty.
    pose proof (get_coin_recent_high_price_spec (Pair.from_coin pair) hours None w')
      as Hspec.
    destruct (Database.get_coin_recent_high_price (Pair.from_coin pair) hours None w')
      as [m|]; [|reflexivity].
    exfalso. destruct Hspec as [_ [[q [record [_ [_ [Hrec [_ [Hsince _]]]]]]] _]].
    change (scout_history w')
      with (scout_history w
            ++ [ScoutHistory.mk pair target_ratio (Some price) (Some other_price) (now w)])%list
      in Hrec.
    rewrite Hempty in Hrec. destruct Hrec as [<-|[]].
    unfold Database.time_diff in Hsince. rewrite Hnow in Hsince.
    change (ScoutHistory.datetime _) with (now w) in Hsince. lia.
Qed.

(** X4, at the scenario: ETH scouted at 2000 against BTC, read a minute
    later over 24 hours. *)
Lemma X4_log_scout_raises_recent_high_witness :
  exists m,
    Database.get_coin_recent_high_price Scenario.ETH 24 None
      (elapse 60
         (snd (Database.log_scout Scenario.ETH_BTC 0.05 2000 40000 Scenario.world)))
    = Some m /\
    2000 <= m.
Proof.
  refine (proj1 (X4_log_scout_raises_recent_high Scenario.ETH_BTC 0.05 2000 40000 24 60
                   Scenario.world _ _ _) _).
  - now left.
  - reflexivity.
  - lia.
  - lia.
Defined.

(** X5. A recorded price point is seen while it is inside the window.
    After [record_price_point(coin, price, current_time)]: with the same
    explicit [current_time] handed to the lookup, the high of the coin over
    any window of [hours >= 0] hours is at least [price]; with no
    [current_time] (both calls read the clock), a lookup made [elapsed]
    seconds later sees the point as long as [elapsed <= 3600 * hours],
    and, on a table that held nothing else, returns [None] when made later
    than that. *)
Theorem X5_recorded_price_point_is_seen
  (coin : Coin.t) (price : Q) (hours elapsed : Z) (w : World) :
  (0 <= elapsed)%Z ->
  (forall t,
      (0 <= hours)%Z ->
      fst (Db.record_price_point (inl coin) price (Some t) w) = Ok tt /\
      exists m,
        Database.get_coin_high_price_from_values coin hours (Some t)
          (elapse elapsed (snd (Db.record_price_point (inl coin) price (Some t) w)))
        = Some m /\
        price <= m) /\
  (let w' := elapse elapsed (snd (Db.record_price_point (inl coin) price None w)) in
   fst (Db.record_price_point (inl coin) price None w) = Ok tt /\
   ((elapsed <= 3600 * hours)%Z ->
    exists m,
      Database.get_coin_high_price_from_values coin hours None w' = Some m /\
      price <= m) /\
   ((3600 * hours < elapsed)%Z ->
    coin_values w = [] ->
    Database.get_coin_high_price_from_values coin hours None w' = None)).
Proof.
  intro Hel. split.
  - intros t Hh. split; [reflexivity|].
    apply values_high_at_least.
    exists (CoinValue.mk coin (Some price) t).
    split; [apply in_or_app; right; now left|].
    split; [unfold Coin.eqb; apply String.eqb_refl|].
    split; [|reflexivity].
    unfold Database.time_diff. change (CoinValue.datetime _) with t. lia.
  - intro w'.
    assert (Hnow : now w' = (now w + elapsed)%Z) by reflexivity.
    split; [reflexivity|]. split.
    + intro Hwin.
      apply values_high_at_least.
      exists (CoinValue.mk coin (Some price) (now w)).
      split; [apply in_or_app; right; now left|].
      split; [unfold Coin.eqb; apply String.eqb_refl|].
      split; [|reflexivity].
      unfold Database.time_diff. rewrite Hnow.
      change (CoinValue.datetime _) with (now w). lia.
    + intros Hout Hempty.
      pose proof (get_coin_high_price_from_values_spec coin hours None w') as Hspec.
      destruct (Database.get_coin_high_price_from_values coin hours None w') as [m|];
        [|reflexivity].
      exfalso. destruct Hspec as [[cv [Hcv [_ [Hsince _]]]] _].
      change (coin_values w')
        with (coin_values w ++ [CoinValue.mk coin (Some price) (now w)])%list in Hcv.
      rewrite Hempty in Hcv. destruct Hcv as [<-|[]].
      unfold Database.time_diff in Hsince. rewrite Hnow in Hsince.
      change (CoinValue.datetime _) with (now w) in Hsince. lia.
Qed.

(** X5, at the scenario: ETH recorded at 2000, read a minute later over
    two hours. *)
Lemma X5_recorded_price_point_is_seen_witness :
  exists m,
    Database.get_coin_high_price_from_values Scenario.ETH 2 None
      (elapse 60 (snd (Db.record_price_point (inl Scenario.ETH) 2000 None Scenario.world)))
    = Some m /\
    2000 <= m.
Proof.
  refine (proj1 (proj2 (proj2 (X5_recorded_price_point_is_seen Scenario.ETH 2000 2 60
                                 Scenario.world _))) _).
  - lia.
  - lia.
Defined.

(* ================================================================== *)
(** * Further properties: pruning                                      *)
(* ================================================================== *)

(** A selection that implies the one already made finds the same rows. *)
Lemma coin_values_filter_absorb (f g : CoinValue.t -> bool) (l : list CoinValue.t) :
  (forall cv, f cv = true -> g cv = true) ->
  filter f (filter g l) = filter f l.
Proof.
  intro H. induction l as [|cv tl IH]; simpl; [reflexivity|].
  destruct (g cv) eqn:Eg; simpl.
  - destruct (f cv); [now rewrite IH | exact IH].
  - destruct (f cv) eqn:Ef; [|exact IH].
    apply H in Ef. congruence.
Qed.

Lemma scout_history_filter_absorb (f g : ScoutHistory.t -> bool) (l : list ScoutHistory.t) :
  (forall r, f r = true -> g r = true) ->
  filter f (filter g l) = filter f l.
Proof.
  intro H. induction l as [|r tl IH]; simpl; [reflexivity|].
  destruct (g r) eqn:Eg; simpl.
  - destruct (f r); [now rewrite IH | exact IH].
  - destruct (f r) eqn:Ef; [|exact IH].
    apply H in Ef. congruence.
Qed.

Lemma nothing_cleared_keeps_all (bt : Z) (coin : option Coin.t) (l : list CoinValue.t) :
  length (filter (Db.is_cleared bt coin) l) = O ->
  filter (fun cv => negb (Db.is_cleared bt coin cv)) l = l.
Proof.
  induction l as [|cv tl IH]; simpl; [reflexivity|].
  destruct (Db.is_cleared bt coin cv); simpl; [discriminate|].
  intro H. now rewrite IH.
Qed.

(** What [clear_coin_values_before] returns and leaves, for a coin given
    as a [Coin] or for all coins. *)
Lemma clear_coin_values_before_result (bt : Z) (coin : option Coin.t) (w : World) :
  let r := Db.clear_coin_values_before bt (option_map inl coin) w in
  fst r = Ok (length (filter (Db.is_cleared bt coin) (coin_values w))) /\
  coin_values (snd r) = filter (fun cv => negb (Db.is_cleared bt coin cv)) (coin_values w) /\
  now (snd r) = now w /\
  scout_history (snd r) = scout_history w /\
  current_coin_history (snd r) = current_coin_history w /\
  order_calls (snd r) = order_calls w.
Proof.
  unfold Db.clear_coin_values_before, Db.get_coin, bind, reads, ret, logger.
  destruct coin as [c|]; simpl;
    match goal with
    | |- context [(0 <? ?n)%nat] => destruct (0 <? n)%nat eqn:E
    end; simpl; repeat split; auto;
    apply Nat.ltb_ge in E; symmetry; apply nothing_cleared_keeps_all; lia.
Qed.

(** The rows a second clearing selects among those a first one kept. *)
Lemma cleared_later (bt bt' : Z) (coin : option Coin.t) (l : list CoinValue.t) :
  filter (Db.is_cleared bt' coin)
    (filter (fun cv => negb (Db.is_cleared bt coin cv)) l)
  = filter (fun cv => Db.is_cleared bt' coin cv && negb (Db.is_cleared bt coin cv)) l.
Proof.
  induction l as [|cv tl IH]; simpl; [reflexivity|].
  destruct (Db.is_cleared bt coin cv); simpl.
  - rewrite andb_false_r. exact IH.
  - rewrite andb_true_r. destruct (Db.is_cleared bt' coin cv); [now rewrite IH | exact IH].
Qed.

Lemma cleared_and_kept (bt : Z) (coin : option Coin.t) (l : list CoinValue.t) :
  filter (fun cv => Db.is_cleared bt coin cv && negb (Db.is_cleared bt coin cv)) l = [].
Proof.
  induction l as [|cv tl IH]; simpl; [reflexivity|].
  destruct (Db.is_cleared bt coin cv); simpl; exact IH.
Qed.

(** X6. [clear_old_coin_values(days, coin)] returns the number of price
    points older than [days] days (of the coin, or of all coins) and deletes
    exactly those; a high-price lookup made afterwards whose window starts
    at or after the cutoff answers as it would have without the clearing;
    and a second call made [elapsed] seconds later, its cutoff having moved
    on with the clock, clears exactly the rows that have aged past the
    cutoff in between - none when it follows at once. *)
Theorem X6_clear_old_coin_values
  (days : Z) (coin : option Coin.t) (w : World) :
  let cutoff := (now w - 86400 * days)%Z in
  let r := Db.clear_old_coin_values days (option_map inl coin) w in
  fst r = Ok (length (filter (Db.is_cleared cutoff coin) (coin_values w))) /\
  (forall cv,
      In cv (coin_values (snd r)) <->
      In cv (coin_values w) /\ Db.is_cleared cutoff coin cv = false) /\
  (forall coin' hours current_time elapsed,
      (cutoff <= Database.time_diff hours current_time (elapse elapsed w))%Z ->
      Database.get_coin_high_price_from_values coin' hours current_time
        (elapse elapsed (snd r))
      = Database.get_coin_high_price_from_values coin' hours current_time
          (elapse elapsed w)) /\
  (forall elapsed,
      let again :=
        Db.clear_old_coin_values days (option_map inl coin) (elapse elapsed (snd r)) in
      fst again
      = Ok (length (filter
                      (fun cv => Db.is_cleared (cutoff + elapsed) coin cv
                                 && negb (Db.is_cleared cutoff coin cv))
                      (coin_values w))) /\
      (forall cv,
          In cv (coin_values (snd r)) -> ~ In cv (coin_values (snd again)) ->
          (cutoff <= CoinValue.datetime cv < cutoff + elapsed)%Z) /\
      (elapsed = 0%Z -> fst again = Ok O)).
Proof.
  intros cutoff r.
  assert (Hr : r = Db.clear_coin_values_before cutoff (option_map inl coin) w)
    by reflexivity.
  destruct (clear_coin_values_before_result cutoff coin w)
    as [Hcount [Hkept [Hnow _]]].
  rewrite <- Hr in Hcount, Hkept, Hnow.
  assert (Hmem : forall cv,
             In cv (coin_values (snd r)) <->
             In cv (coin_values w) /\ Db.is_cleared cutoff coin cv = false).
  { intro cv. rewrite Hkept, filter_In, negb_true_iff. tauto. }
  split; [exact Hcount|]. split; [exact Hmem|]. split.
  - intros coin' hours ct elapsed Hwin.
    unfold Database.get_coin_high_price_from_values.
    assert (Ht : Database.time_diff hours ct (elapse elapsed (snd r))
                 = Database.time_diff hours ct (elapse elapsed w)).
    { unfold Database.time_diff, elapse. simpl. now rewrite Hnow. }
    rewrite Ht.
    change (coin_values (elapse elapsed (snd r))) with (coin_values (snd r)).
    change (coin_values (elapse elapsed w)) with (coin_values w).
    rewrite Hkept.
    rewrite coin_values_filter_absorb; [reflexivity|].
    intros cv Hcv. apply andb_true_iff in Hcv. destruct Hcv as [_ Hd].
    apply Z.leb_le in Hd. apply negb_true_iff.
    unfold Db.is_cleared. apply andb_false_iff. left. apply Z.ltb_ge. lia.
  - intros elapsed again.
    assert (Hagain : again
                     = Db.clear_coin_values_before (cutoff + elapsed)
                         (option_map inl coin) (elapse elapsed (snd r))).
    { unfold again, Db.clear_old_coin_values, bind, reads.
      replace (now (elapse elapsed (snd r)) - 86400 * days)%Z with (cutoff + elapsed)%Z;
        [reflexivity|].
      unfold elapse, cutoff. simpl. rewrite Hnow. lia. }
    destruct (clear_coin_values_before_result (cutoff + elapsed) coin
                (elapse elapsed (snd r))) as [Hc [Hk _]].
    rewrite <- Hagain in Hc, Hk.
    change (coin_values (elapse elapsed (snd r))) with (coin_values (snd r)) in Hc, Hk.
    assert (Hfirst : fst again
                     = Ok (length (filter
                                     (fun cv => Db.is_cleared (cutoff + elapsed) coin cv
                                                && negb (Db.is_cleared cutoff coin cv))
                                     (coin_values w)))).
    { rewrite Hc, Hkept. now rewrite cleared_later. }
    split; [exact Hfirst|]. split.
    + intros cv Hin Hgone.
      apply Hmem in Hin. destruct Hin as [Hin Hkeep].
      assert (Hcl : Db.is_cleared (cutoff + elapsed) coin cv = true).
      { destruct (Db.is_cleared (cutoff + elapsed) coin cv) eqn:E; [reflexivity|].
        exfalso. apply Hgone. rewrite Hk. apply filter_In. split.
        - rewrite Hkept. apply filter_In. split; [exact Hin | now rewrite Hkeep].
        - now rewrite E. }
      unfold Db.is_cleared in Hcl, Hkeep.
      apply andb_true_iff in Hcl. destruct Hcl as [Hlt Hc'].
      rewrite Hc' in Hkeep. rewrite andb_true_r in Hkeep.
      apply Z.ltb_lt in Hlt. apply Z.ltb_ge in Hkeep. lia.
    + intros ->. rewrite Hfirst.
      replace (cutoff + 0)%Z with cutoff by lia.
      now rewrite cleared_and_kept.
Qed.

(** X6, at the scenario: clearing what is older than a day leaves the
    price point of an hour ago where a two-hour lookup made a minute later
    finds it. *)
Lemma X6_clear_old_coin_values_witness :
  Database.get_coin_high_price_from_values Scenario.ETH 2 None
    (elapse 60
       (snd (Db.clear_old_coin_values 1 (option_map inl (Some Scenario.ETH))
               Scenario.world_high_100)))
  = Database.get_coin_high_price_from_values Scenario.ETH 2 None
      (elapse 60 Scenario.world_high_100).
Proof.
  refine (proj1 (proj2 (proj2
            (X6_clear_old_coin_values 1 (Some Scenario.ETH) Scenario.world_high_100)))
            Scenario.ETH 2%Z None 60%Z _).
  vm_compute. discriminate.
Defined.

Lemma scan_pairs_same_records (since : Z) (w w' : World) (ps : list Pair.t) :
  (forall pair, Database.scout_records pair since w' = Database.scout_records pair since w) ->
  forall m0,
    fold_left
      (fun max_price pair =>
         Database.scan_records (Database.scout_records pair since w') max_price) ps m0
    = fold_left
        (fun max_price pair =>
           Database.scan_records (Database.scout_records pair since w) max_price) ps m0.
Proof.
  intro H. induction ps as [|p tl IH]; intro m0; simpl; [reflexivity|].
  now rewrite H, IH.
Qed.

(** X7. [prune_scout_history] keeps exactly the scout records that are not
    older than [SCOUT_HISTORY_PRUNE_TIME] hours, and leaves the recent high
    of every coin as it was over any window that is no longer than that. *)
Theorem X7_prune_scout_history_keeps_recent_high
  (SCOUT_HISTORY_PRUNE_TIME : Z) (w : World) :
  let w' := snd (Db.prune_scout_history SCOUT_HISTORY_PRUNE_TIME w) in
  (forall r,
      In r (scout_history w') <->
      In r (scout_history w) /\
      (now w - 3600 * SCOUT_HISTORY_PRUNE_TIME <= ScoutHistory.datetime r)%Z) /\
  (forall coin hours,
      (hours <= SCOUT_HISTORY_PRUNE_TIME)%Z ->
      Database.get_coin_recent_high_price coin hours None w'
      = Database.get_coin_recent_high_price coin hours None w).
Proof.
  intro w'. split.
  - intro r.
    change (scout_history w')
      with (filter (fun r => negb (ScoutHistory.datetime r
                                   <? now w - 3600 * SCOUT_HISTORY_PRUNE_TIME)%Z)
                   (scout_history w)).
    rewrite filter_In, negb_true_iff, Z.ltb_ge. tauto.
  - intros coin hours Hle.
    unfold Database.get_coin_recent_high_price.
    change (pairs w') with (pairs w).
    change (Database.time_diff hours None w') with (Database.time_diff hours None w).
    set (since := Database.time_diff hours None w).
    assert (Hrec : forall pair, Database.scout_records pair since w'
                                = Database.scout_records pair since w).
    { intro pair. unfold Database.scout_records.
      change (scout_history w')
        with (filter (fun r => negb (ScoutHistory.datetime r
                                     <? now w - 3600 * SCOUT_HISTORY_PRUNE_TIME)%Z)
                     (scout_history w)).
      apply scout_history_filter_absorb.
      intros r Hr. apply andb_true_iff in Hr. destruct Hr as [_ Hd].
      apply Z.leb_le in Hd. apply negb_true_iff, Z.ltb_ge.
      subst since. unfold Database.time_diff in Hd. lia. }
    destruct (filter _ (pairs w)) as [|p0 tl]; [reflexivity|].
    now rewrite (scan_pairs_same_records since w w' (p0 :: tl) Hrec).
Qed.

(** X7, at the scenario: a record scouted now outlives a pruning at 24
    hours, and the 24-hour high with it. *)
Lemma X7_prune_scout_history_keeps_recent_high_witness :
  Database.get_coin_recent_high_price Scenario.ETH 24 None
    (snd (Db.prune_scout_history 24
            (snd (Database.log_scout Scenario.ETH_BTC 0.05 2000 40000 Scenario.world))))
  = Database.get_coin_recent_high_price Scenario.ETH 24 None
      (snd (Database.log_scout Scenario.ETH_BTC 0.05 2000 40000 Scenario.world)).
Proof.
  refine (proj2 (X7_prune_scout_history_keeps_recent_high 24 _) Scenario.ETH 24%Z _).
  lia.
Defined.

(* ================================================================== *)
(** * Further properties: looking up pairs and trades                  *)
(* ================================================================== *)

(** X8. [get_pair(from_coin, to_coin)] returns a pair of the table that
    joins the two coins, the first one, and changes nothing; it raises
    (the expunge of [None]) exactly when the table has no such pair, and
    also when a coin is given by a symbol the Coin table does not hold. *)
Theorem X8_get_pair (from_coin to_coin : Coin.t) (w : World) :
  let joins p := Coin.eqb (Pair.from_coin p) from_coin
                 && Coin.eqb (Pair.to_coin p) to_coin in
  (forall p,
      Db.get_pair (inl from_coin) (inl to_coin) w = (Ok p, w) <->
      find joins (pairs w) = Some p) /\
  (forall p,
      Db.get_pair (inl from_coin) (inl to_coin) w = (Ok p, w) ->
      In p (pairs w) /\ joins p = true) /\
  (Db.get_pair (inl from_coin) (inl to_coin) w = (Raise Db.UnmappedInstanceError, w) <->
   forall p, In p (pairs w) -> joins p = false) /\
  (forall symbol,
      (forall c, In c (coins w) -> Coin.symbol c <> symbol) ->
      Db.get_pair (inr symbol) (inl to_coin) w = (Raise Db.UnmappedInstanceError, w)).
Proof.
  intro joins.
  assert (Hrun : Db.get_pair (inl from_coin) (inl to_coin) w =
                 match find joins (pairs w) with
                 | Some p => (Ok p, w)
                 | None => (Raise Db.UnmappedInstanceError, w)
                 end).
  { unfold Db.get_pair, Db.get_coin, bind, reads, ret, raise. fold joins.
    destruct (find joins (pairs w)); reflexivity. }
  split; [|split; [|split]].
  - intro p. rewrite Hrun.
    destruct (find joins (pairs w)) as [q|]; split; intro H;
      try discriminate; congruence.
  - intros p H. rewrite Hrun in H.
    destruct (find joins (pairs w)) as [q|] eqn:E; [|discriminate].
    injection H as <-. now apply find_some in E.
  - rewrite Hrun. destruct (find joins (pairs w)) as [q|] eqn:E; split.
    + discriminate.
    + intro Hall. apply find_some in E. destruct E as [Hin Hj].
      rewrite (Hall q Hin) in Hj. discriminate.
    + intros _ p Hin. now apply (find_none _ _ E).
    + reflexivity.
  - intros symbol Hmiss.
    unfold Db.get_pair, Db.get_coin, bind, reads, ret, raise.
    destruct (find (fun c => String.eqb (Coin.symbol c) symbol) (coins w)) as [c|] eqn:E;
      [|reflexivity].
    apply find_some in E. destruct E as [Hin Heq].
    apply String.eqb_eq in Heq. exfalso. exact (Hmiss c Hin Heq).
Qed.

(** X8, at the scenario: no pair leads from BTC to ETH. *)
Lemma X8_get_pair_witness :
  Db.get_pair (inl Scenario.BTC) (inl Scenario.ETH) Scenario.world
  = (Raise Db.UnmappedInstanceError, Scenario.world).
Proof.
  apply (proj1 (proj2 (proj2 (X8_get_pair Scenario.BTC Scenario.ETH Scenario.world)))).
  intros p [<-|[]]. reflexivity.
Defined.

(** The last row that passes a test, in a table read from its end. *)
Lemma last_completed_buy (coin : Coin.t) (l : list Trade.t) :
  match find (Db.is_completed_buy coin) (rev l) with
  | Some t =>
      exists l1 l2,
        l = (l1 ++ t :: l2)%list /\
        Db.is_completed_buy coin t = true /\
        forall x, In x l2 -> Db.is_completed_buy coin x = false
  | None => forall x, In x l -> Db.is_completed_buy coin x = false
  end.
Proof.
  induction l as [|x l IH] using rev_ind; simpl; [intros ? []|].
  rewrite rev_app_distr. simpl.
  destruct (Db.is_completed_buy coin x) eqn:Ex.
  - exists l, []. split; [reflexivity|]. split; [exact Ex | intros ? []].
  - destruct (find (Db.is_completed_buy coin) (rev l)) as [t|].
    + destruct IH as [l1 [l2 [Hl [Ht Hafter]]]].
      exists l1, (l2 ++ [x])%list. split; [|split].
      * rewrite Hl, <- app_assoc. reflexivity.
      * exact Ht.
      * intros y Hy. apply in_app_or in Hy.
        destruct Hy as [Hy|[<-|[]]]; [now apply Hafter | exact Ex].
    + intros y Hy. apply in_app_or in Hy.
      destruct Hy as [Hy|[<-|[]]]; [now apply IH | exact Ex].
Qed.

(** X9. [get_latest_buy_trade(coin)] returns a trade of the coin that is
    not a sale and is [COMPLETE], with no such trade after it in the table,
    and [None] exactly when the table holds no completed buy of the coin;
    it changes nothing. *)
Theorem X9_get_latest_buy_trade (coin : Coin.t) (w : World) :
  exists r,
    Db.get_latest_buy_trade (inl coin) w = (Ok r, w) /\
    match r with
    | Some t =>
        Coin.eqb (Trade.alt_coin t) coin = true /\
        Trade.selling t = false /\
        Trade.state t = Trade.COMPLETE /\
        exists before after,
          trades w = (before ++ t :: after)%list /\
          forall x, In x after -> Db.is_completed_buy coin x = false
    | None => forall x, In x (trades w) -> Db.is_completed_buy coin x = false
    end.
Proof.
  exists (find (Db.is_completed_buy coin) (rev (trades w))).
  split; [reflexivity|].
  pose proof (last_completed_buy coin (trades w)) as H.
  destruct (find (Db.is_completed_buy coin) (rev (trades w))) as [t|]; [|exact H].
  destruct H as [l1 [l2 [Hl [Ht Hafter]]]].
  unfold Db.is_completed_buy in Ht.
  apply andb_true_iff in Ht. destruct Ht as [Ht Hc].
  apply andb_true_iff in Ht. destruct Ht as [Ha Hs].
  apply negb_true_iff in Hs.
  repeat split; auto.
  - destruct (Trade.state t); try discriminate. reflexivity.
  - exists l1, l2. auto.
Qed.

(** What [_get_entry_price] computes, as a function of the trade table. *)
Lemma _get_entry_price_run (coin : Coin.t) (w : World) :
  Custom1Prices._get_entry_price coin w =
  (Ok match find (Db.is_completed_buy coin) (rev (trades w)) with
      | Some t =>
          match Trade.crypto_trade_amount t, Trade.alt_trade_amount t with
          | Some c, Some a => if truthy c && truthy a then Some (c / a) else None
          | _, _ => None
          end
      | None => None
      end, w).
Proof.
  unfold Custom1Prices._get_entry_price, Db.get_latest_buy_trade, Db.get_coin,
    try_except, bind, reads, ret, lift.
  destruct (find (Db.is_completed_buy coin) (rev (trades w))) as [t|]; [|reflexivity].
  destruct (Trade.crypto_trade_amount t) as [c|], (Trade.alt_trade_amount t) as [a|];
    simpl; try reflexivity.
  - destruct (truthy c); simpl; [|reflexivity].
    destruct (truthy a) eqn:Ha; simpl; [|reflexivity].
    unfold truthy in Ha. apply negb_true_iff in Ha.
    unfold py_div. now rewrite Ha.
  - destruct (truthy c); reflexivity.
Qed.

(** X10. [_get_entry_price] never raises, changes nothing and logs
    nothing; when it returns a price, that price is
    [crypto_trade_amount / alt_trade_amount] of a completed buy of the coin
    whose two amounts are set and not zero - the division is guarded, so it
    never divides by zero - and it returns [None] when the coin has no
    completed buy. *)
Theorem X10_get_entry_price_guarded (coin : Coin.t) (w : World) :
  exists r,
    Custom1Prices._get_entry_price coin w = (Ok r, w) /\
    (forall price,
        r = Some price ->
        exists trade c a,
          In trade (trades w) /\
          Db.is_completed_buy coin trade = true /\
          Trade.crypto_trade_amount trade = Some c /\
          Trade.alt_trade_amount trade = Some a /\
          ~ c == 0 /\ ~ a == 0 /\
          price = c / a) /\
    ((forall trade, In trade (trades w) -> Db.is_completed_buy coin trade = false) ->
     r = None).
Proof.
  rewrite _get_entry_price_run. eexists. split; [reflexivity|].
  destruct (find (Db.is_completed_buy coin) (rev (trades w))) as [t|] eqn:E.
  - apply find_some in E. destruct E as [Hin Ht]. apply in_rev in Hin. split.
    + intros price Hp.
      destruct (Trade.crypto_trade_amount t) as [c|] eqn:Ec; [|discriminate].
      destruct (Trade.alt_trade_amount t) as [a|] eqn:Ea; [|discriminate].
      destruct (truthy c) eqn:Hc; [|discriminate].
      destruct (truthy a) eqn:Ha; [|discriminate].
      simpl in Hp. injection Hp as <-.
      exists t, c, a. repeat split; auto.
      * unfold truthy in Hc. apply negb_true_iff in Hc. now apply Qeq_bool_neq.
      * unfold truthy in Ha. apply negb_true_iff in Ha. now apply Qeq_bool_neq.
    + intro Hnone. rewrite (Hnone t Hin) in Ht. discriminate.
  - split; [discriminate | reflexivity].
Qed.

Lemma update_last_row (f : Trade.t -> Trade.t) (l : list Trade.t) (t : Trade.t) :
  TradeLog.update_row (length l) f (l ++ [t]) = (l ++ [f t])%list.
Proof.
  induction l as [|x tl IH]; simpl; [reflexivity | now rewrite IH].
Qed.

(** X11. A buy logged to completion is the entry price: after
    [start_trade_log(coin, bridge, False)], [set_ordered] with a traded
    amount [alt_trade_amount] and [set_complete] with an acquired amount
    [crypto_trade_amount], neither zero, [_get_entry_price(coin)] returns
    [crypto_trade_amount / alt_trade_amount]. *)
Theorem X11_completed_buy_gives_entry_price
  (coin bridge : Coin.t)
  (alt_starting_balance crypto_starting_balance alt_trade_amount crypto_trade_amount : Q)
  (w : World) :
  ~ alt_trade_amount == 0 ->
  ~ crypto_trade_amount == 0 ->
  fst ((trade_log <- start_trade_log coin bridge false ;;
        TradeLog.set_ordered trade_log
          alt_starting_balance crypto_starting_balance alt_trade_amount ;;;
        TradeLog.set_complete trade_log crypto_trade_amount ;;;
        Custom1Prices._get_entry_price coin) w)
  = Ok (Some (crypto_trade_amount / alt_trade_amount)).
Proof.
  intros Ha Hc.
  unfold start_trade_log, TradeLog.init, TradeLog.set_ordered, TradeLog.set_complete, bind.
  cbv beta iota delta [fst snd TradeLog.trade trades with_trades].
  rewrite _get_entry_price_run.
  cbv beta iota delta [fst snd TradeLog.trade trades with_trades].
  rewrite !update_last_row, rev_app_distr. simpl.
  unfold Db.is_completed_buy, Coin.eqb. simpl. rewrite String.eqb_refl. simpl.
  unfold truthy.
  rewrite (proj2 (Qeq_bool_false_iff _ _) Ha), (proj2 (Qeq_bool_false_iff _ _) Hc).
  reflexivity.
Qed.

(** X11, at the scenario: 1 ETH bought for 2000. *)
Lemma X11_completed_buy_gives_entry_price_witness :
  fst ((trade_log <- start_trade_log Scenario.ETH Scenario.USDT false ;;
        TradeLog.set_ordered trade_log 0 2000 1 ;;;
        TradeLog.set_complete trade_log 2000 ;;;
        Custom1Prices._get_entry_price Scenario.ETH) Scenario.world)
  = Ok (Some (2000 / 1)).
Proof.
  apply (X11_completed_buy_gives_entry_price Scenario.ETH Scenario.USDT 0 2000 1 2000
           Scenario.world); discriminate.
Defined.

(** X12. A [TradeLog] writes its own trade only: [set_ordered] and
    [set_complete] leave every other trade of the table as it was and the
    number of trades unchanged, and a new [TradeLog] adds one row after the
    existing ones, which stay as they were. *)
Theorem X12_trade_log_writes_its_own_row :
  (forall self other a c t w,
      TradeLog.trade other <> TradeLog.trade self ->
      TradeLog.row other (snd (TradeLog.set_ordered self a c t w)) = TradeLog.row other w) /\
  (forall self other x w,
      TradeLog.trade other <> TradeLog.trade self ->
      TradeLog.row other (snd (TradeLog.set_complete self x w)) = TradeLog.row other w) /\
  (forall self a c t x w,
      length (trades (snd (TradeLog.set_ordered self a c t w))) = length (trades w) /\
      length (trades (snd (TradeLog.set_complete self x w))) = length (trades w)) /\
  (forall from_coin to_coin selling w,
      trades (snd (TradeLog.init from_coin to_coin selling w))
      = (trades w ++ [Trade.new from_coin to_coin selling])%list /\
      forall other trade,
        TradeLog.row other w = Some trade ->
        TradeLog.row other (snd (TradeLog.init from_coin to_coin selling w)) = Some trade /\
        fst (TradeLog.init from_coin to_coin selling w) <> Ok other).
Proof.
  assert (Hlen : forall f l n, length (TradeLog.update_row n f l) = length l).
  { intros f l. induction l as [|x tl IH]; intros [|n]; simpl; auto. }
  split; [|split; [|split]].
  - intros self other a c t w Hne. unfold TradeLog.row. simpl.
    apply nth_error_update_row_other. auto.
  - intros self other x w Hne. unfold TradeLog.row. simpl.
    apply nth_error_update_row_other. auto.
  - intros self a c t x w. simpl. now rewrite !Hlen.
  - intros from_coin to_coin selling w. split; [reflexivity|].
    intros other trade Hrow. unfold TradeLog.row in *. simpl.
    assert (Hlt : (TradeLog.trade other < length (trades w))%nat)
      by (apply nth_error_Some; congruence).
    split.
    + now rewrite nth_error_app1.
    + intro Heq. injection Heq as Heq. rewrite <- Heq in Hlt. simpl in Hlt. lia.
Qed.

(** X12, at the scenario: completing a second trade leaves the first
    [CREATED]. *)
Lemma X12_trade_log_writes_its_own_row_witness :
  TradeLog.row (TradeLog.mk 0)
    (snd (TradeLog.set_complete (TradeLog.mk 1) 5
            (with_trades [Trade.new Scenario.ETH Scenario.USDT true;
                          Trade.new Scenario.BTC Scenario.USDT false] Scenario.world)))
  = Some (Trade.new Scenario.ETH Scenario.USDT true).
Proof.
  refine (proj1 (proj2 X12_trade_log_writes_its_own_row)
            (TradeLog.mk 1) (TradeLog.mk 0) 5 _ _).
  discriminate.
Defined.

(** X13. [TradeLog] does not guard the order of its calls: on a stored
    trade, [set_complete] leaves [COMPLETE] whatever the state was, and a
    later [set_ordered] puts the trade back to [ORDERED], the acquired
    amount staying set. *)
Theorem X13_trade_log_setters_are_unguarded
  (self : TradeLog.t) (a c t x : Q) (w : World) (trade : Trade.t) :
  TradeLog.row self w = Some trade ->
  let w1 := snd (TradeLog.set_complete self x w) in
  let w2 := snd (TradeLog.set_ordered self a c t w1) in
  TradeLog.state self w1 = Some Trade.COMPLETE /\
  option_map Trade.alt_trade_amount (TradeLog.row self w1)
  = Some (Trade.alt_trade_amount trade) /\
  TradeLog.state self w2 = Some Trade.ORDERED /\
  option_map Trade.crypto_trade_amount (TradeLog.row self w2) = Some (Some x).
Proof.
  intros Hrow w1 w2.
  assert (H1 : TradeLog.row self w1 = Some (TradeLog.complete x trade)).
  { subst w1. rewrite (proj2 (row_after_set_complete self x w)), Hrow. reflexivity. }
  assert (H2 : TradeLog.row self w2
               = Some (TradeLog.ordered a c t (TradeLog.complete x trade))).
  { subst w2. rewrite (proj2 (row_after_set_ordered self a c t w1)), H1. reflexivity. }
  unfold TradeLog.state. rewrite H1, H2. repeat split.
Qed.

(** X13, at the scenario: a trade just created is completed without having
    been ordered, then ordered. *)
Lemma X13_trade_log_setters_are_unguarded_witness :
  let w := with_trades [Trade.new Scenario.ETH Scenario.USDT true] Scenario.world in
  let w1 := snd (TradeLog.set_complete (TradeLog.mk 0) 5 w) in
  let w2 := snd (TradeLog.set_ordered (TradeLog.mk 0) 1 2 3 w1) in
  TradeLog.state (TradeLog.mk 0) w1 = Some Trade.COMPLETE /\
  option_map Trade.alt_trade_amount (TradeLog.row (TradeLog.mk 0) w1) = Some None /\
  TradeLog.state (TradeLog.mk 0) w2 = Some Trade.ORDERED /\
  option_map Trade.crypto_trade_amount (TradeLog.row (TradeLog.mk 0) w2) = Some (Some 5).
Proof.
  exact (X13_trade_log_setters_are_unguarded (TradeLog.mk 0) 1 2 3 5
           (with_trades [Trade.new Scenario.ETH Scenario.USDT true] Scenario.world)
           (Trade.new Scenario.ETH Scenario.USDT true) eq_refl).
Defined.

(* ================================================================== *)
(** * Further properties: the rotation through the bridge              *)
(* ================================================================== *)


(** X15. A rotation whose legs succeed, to a destination other than USDT:
    the holding pointer is moved to the destination first, then
    [update_trade_threshold] is called with the destination and the price of
    the buy order, and the order is returned (or what
    [update_trade_threshold] raises). *)
Theorem X15_rotation_success
  (config : Config.t) (manager : Manager.t)
  (update_trade_threshold : Coin.t -> Q -> M unit) (pair : Pair.t) (w : World)
  (can_sell : bool) (order : Order.t) :
  fst (Test1Strategy.can_sell config manager pair w) = Ok can_sell ->
  (can_sell = true ->
   exists sold,
     Manager.sell_alt manager (Pair.from_coin pair) (Config.BRIDGE config)
     = Ok (Some sold)) ->
  is_USDT (Pair.to_coin pair) = false ->
  Manager.buy_alt manager (Pair.to_coin pair) (Config.BRIDGE config) = Ok (Some order) ->
  let w1 := after_sell_leg config can_sell pair w in
  let w2 := with_current_coin_history (Pair.to_coin pair :: current_coin_history w1)
              (with_order_calls
                 (BuyAlt (Pair.to_coin pair) (Config.BRIDGE config) :: order_calls w1) w1) in
  Test1Strategy.transaction_through_bridge config manager update_trade_threshold pair w
  = match update_trade_threshold (Pair.to_coin pair) (Order.price order) w2 with
    | (Ok _, w3) => (Ok (Some (OrderObj order)), w3)
    | (Raise e, w3) => (Raise e, w3)
    end.
Proof.
  intros Hcs Hsell Hto Hbuy w1 w2. subst w1 w2.
  unfold Test1Strategy.transaction_through_bridge, bind.
  destruct (can_sell_cases config manager pair w) as [H|[H|[e H]]]; rewrite H in *;
    simpl in Hcs; try discriminate; injection Hcs as <-.
  - destruct (Hsell eq_refl) as [sold Ho].
    unfold sell_alt, buy_alt. rewrite Ho. simpl. rewrite Hto. simpl. rewrite Hbuy.
    reflexivity.
  - unfold buy_alt. simpl. rewrite Hto. simpl. rewrite Hbuy. reflexivity.
Qed.

(** X15, at the scenario: ETH is sold and BTC bought at 40000. *)
Lemma X15_rotation_success_witness :
  let r := Test1Strategy.transaction_through_bridge
             Scenario.config Scenario.manager Scenario.update_trade_threshold
             Scenario.ETH_BTC Scenario.world in
  fst r = Ok (Some (OrderObj (Order.mk 40000))) /\
  current_coin_history (snd r) = [Scenario.BTC; Scenario.ETH] /\
  order_calls (snd r)
  = [BuyAlt Scenario.BTC Scenario.USDT; SellAlt Scenario.ETH Scenario.USDT].
Proof.
  intro r. subst r.
  rewrite (X15_rotation_success Scenario.config Scenario.manager
             Scenario.update_trade_threshold Scenario.ETH_BTC Scenario.world
             true (Order.mk 40000)).
  - vm_compute. repeat split.
  - reflexivity.
  - intros _. exists (Order.mk 2000). reflexivity.
  - reflexivity.
  - reflexivity.
Defined.

(** X16. With a source other than USDT, a balance that is not zero and a
    source price that does not resolve, [transaction_through_bridge] raises
    [TypeError] (the product of the balance and [None]) before any order is
    sent, and nothing has changed. *)
Theorem X16_rotation_without_source_price_raises
  (config : Config.t) (manager : Manager.t)
  (update_trade_threshold : Coin.t -> Q -> M unit) (pair : Pair.t) (w : World)
  (balance : Q) :
  is_USDT (Pair.from_coin pair) = false ->
  Manager.get_currency_balance manager (Coin.symbol (Pair.from_coin pair)) = Ok balance ->
  ~ balance == 0 ->
  Manager.get_ticker_price manager (Coin.add (Pair.from_coin pair) (Config.BRIDGE config))
  = Ok None ->
  Test1Strategy.transaction_through_bridge config manager update_trade_threshold pair w
  = (Raise TypeError, w).
Proof.
  intros Hfrom Hb Hnz Hp.
  unfold Test1Strategy.transaction_through_bridge, Test1Strategy.can_sell, bind, lift.
  rewrite Hb, Hp, Hfrom. simpl.
  unfold truthy. rewrite (proj2 (Qeq_bool_false_iff _ _) Hnz). reflexivity.
Qed.

(** X16, at the scenario: BTC is held with no ticker for it. *)
Lemma X16_rotation_without_source_price_raises_witness :
  Test1Strategy.transaction_through_bridge
    Scenario.config Scenario.manager_eth_80 Scenario.update_trade_threshold
    Scenario.BTC_ETH Scenario.world
  = (Raise TypeError, Scenario.world).
Proof.
  apply (X16_rotation_without_source_price_raises Scenario.config Scenario.manager_eth_80
           Scenario.update_trade_threshold Scenario.BTC_ETH Scenario.world 1);
    try reflexivity.
  discriminate.
Defined.

(* ================================================================== *)
(** * Further properties: the ratio engine                             *)
(* ================================================================== *)

Lemma only_scouted_refl (w : World) : only_scouted w w.
Proof.
  unfold only_scouted. repeat split; auto.
  - exists []. now rewrite app_nil_r.
  - exists []. reflexivity.
Qed.

Lemma only_scouted_trans (w1 w2 w3 : World) :
  only_scouted w1 w2 -> only_scouted w2 w3 -> only_scouted w1 w3.
Proof.
  unfold only_scouted.
  intros [A1 [A2 [A3 [A4 [A5 [A6 [A7 [[r1 A8] [l1 A9]]]]]]]]]
         [B1 [B2 [B3 [B4 [B5 [B6 [B7 [[r2 B8] [l2 B9]]]]]]]]].
  repeat split; try congruence.
  - exists (r1 ++ r2)%list. rewrite B8, A8. now rewrite app_assoc.
  - exists (l2 ++ l1)%list. rewrite B9, A9. now rewrite app_assoc.
Qed.

(** The world one pass of the loop of [_get_ratios] leaves. *)
Lemma body_world (config : Config.t) (manager : Manager.t)
  (coin_price cmt : Q) (pair : Pair.t) (d : RatioDict) (w : World) :
  snd (Test1Strategy._get_ratios_body config manager coin_price cmt pair d w) =
  match target_quote config manager pair with
  | Raise _ => w
  | Ok (None, _) =>
      with_log (mkLog INFO ("Skipping scouting... optional coin "
                            ++ Coin.add (Pair.to_coin pair) (Config.BRIDGE config)
                            ++ " not found") None :: log w) w
  | Ok (Some optional_coin_price, _) =>
      snd (Database.log_scout pair (Pair.ratio pair) coin_price optional_coin_price w)
  end.
Proof.
  unfold Test1Strategy._get_ratios_body, bind.
  rewrite quote_pure.
  destruct (target_quote config manager pair) as [[[tp|] fee_out]|e]; simpl;
    try reflexivity.
  unfold lift, ret.
  destruct (py_div coin_price tp); simpl; [|reflexivity].
  destruct (Manager.get_fee manager _ _ true); simpl; [|reflexivity].
  destruct (Test1Strategy.mt pair _ cmt); reflexivity.
Qed.

Lemma body_only_scouted (config : Config.t) (manager : Manager.t)
  (coin_price cmt : Q) (pair : Pair.t) (d : RatioDict) (w : World) :
  only_scouted w
    (snd (Test1Strategy._get_ratios_body config manager coin_price cmt pair d w)).
Proof.
  rewrite body_world.
  destruct (target_quote config manager pair) as [[[tp|] fee_out]|e].
  - unfold only_scouted. simpl. repeat split; auto.
    + eexists. reflexivity.
    + exists []. reflexivity.
  - unfold only_scouted. simpl. repeat split; auto.
    + exists []. now rewrite app_nil_r.
    + eexists [_]. reflexivity.
  - apply only_scouted_refl.
Qed.

Lemma loop_only_scouted (config : Config.t) (manager : Manager.t)
  (coin_price cmt : Q) (ps : list Pair.t) :
  forall d w,
    only_scouted w
      (snd (for_each ps (Test1Strategy._get_ratios_body config manager coin_price cmt) d w)).
Proof.
  induction ps as [|p tl IH]; intros d w; simpl; [apply only_scouted_refl|].
  unfold bind.
  pose proof (body_only_scouted config manager coin_price cmt p d w) as Hb.
  destruct (Test1Strategy._get_ratios_body config manager coin_price cmt p d w)
    as [[d1|e] w1]; simpl in *; [|exact Hb].
  eapply only_scouted_trans; [exact Hb | apply IH].
Qed.

Lemma _get_ratios_only_scouted
  (config : Config.t) (manager : Manager.t) (coin : Coin.t) (coin_price : Q) (w : World) :
  only_scouted w (snd (Test1Strategy._get_ratios config manager coin coin_price w)).
Proof.
  unfold Test1Strategy._get_ratios, bind, reads. apply loop_only_scouted.
Qed.

(** X17. [_get_ratios] never trades: whatever it returns or raises, it
    sends no order, leaves the holding pointer, the coins, the pairs, the
    price points and the trades as they were, and only adds scout records
    and log lines. *)
Theorem X17_get_ratios_only_scouts
  (config : Config.t) (manager : Manager.t) (coin : Coin.t) (coin_price : Q) (w : World) :
  only_scouted w (snd (Test1Strategy._get_ratios config manager coin coin_price w)) /\
  order_calls (snd (Test1Strategy._get_ratios config manager coin coin_price w))
  = order_calls w /\
  current_coin_history (snd (Test1Strategy._get_ratios config manager coin coin_price w))
  = current_coin_history w.
Proof.
  pose proof (_get_ratios_only_scouted config manager coin coin_price w) as H.
  split; [exact H|]. unfold only_scouted in H. tauto.
Qed.

Lemma loop_scout_rows (config : Config.t) (manager : Manager.t)
  (coin_price cmt : Q) (ps : list Pair.t) :
  forall d d' w,
    fst (for_each ps (Test1Strategy._get_ratios_body config manager coin_price cmt) d w)
    = Ok d' ->
    scout_history
      (snd (for_each ps (Test1Strategy._get_ratios_body config manager coin_price cmt) d w))
    = (scout_history w ++ scouted_rows config manager coin_price (now w) ps)%list.
Proof.
  induction ps as [|p tl IH]; intros d d' w; simpl.
  - intros _. now rewrite app_nil_r.
  - unfold bind.
    pose proof (body_world config manager coin_price cmt p d w) as Hw.
    destruct (Test1Strategy._get_ratios_body config manager coin_price cmt p d w)
      as [[d1|e] w1]; simpl in Hw; [|discriminate].
    intro Hok. rewrite (IH d1 d' w1 Hok). subst w1.
    destruct (target_quote config manager p) as [[[tp|] fee_out]|e]; simpl.
    + now rewrite <- app_assoc.
    + reflexivity.
    + reflexivity.
Qed.

Lemma scouted_rows_in (config : Config.t) (manager : Manager.t)
  (coin_price : Q) (at_time : Z) (ps : list Pair.t)
  (pair : Pair.t) (target_price fee_out : Q) :
  In pair ps ->
  target_quote config manager pair = Ok (Some target_price, fee_out) ->
  In (ScoutHistory.mk pair (Pair.ratio pair) (Some coin_price) (Some target_price) at_time)
     (scouted_rows config manager coin_price at_time ps).
Proof.
  intros Hin Hq. induction ps as [|p tl IH]; [contradiction|].
  simpl. destruct Hin as [->|Hin].
  - rewrite Hq. now left.
  - destruct (target_quote config manager p) as [[[tp'|] fo']|e];
      [right|idtac|idtac]; now apply IH.
Qed.

Lemma _get_ratios_scout_rows
  (config : Config.t) (manager : Manager.t) (coin : Coin.t) (coin_price : Q) (w : World)
  (ratio_dict : RatioDict) :
  fst (Test1Strategy._get_ratios config manager coin coin_price w) = Ok ratio_dict ->
  scout_history (snd (Test1Strategy._get_ratios config manager coin coin_price w))
  = (scout_history w
     ++ scouted_rows config manager coin_price (now w)
          (Database.get_pairs_from coin true w))%list.
Proof.
  unfold Test1Strategy._get_ratios, bind, reads. simpl.
  apply loop_scout_rows.
Qed.

(** X18. A call of [_get_ratios] that returns has written one scout
    record, in the order of the pairs, for every enabled pair from the coin
    whose target price resolved - whatever the score, and also when the
    score is negative - carrying the pair, [pair.ratio], the coin price,
    the target price and the current time, and no other record. *)
Theorem X18_get_ratios_scout_records
  (config : Config.t) (manager : Manager.t) (coin : Coin.t) (coin_price : Q) (w : World)
  (ratio_dict : RatioDict) :
  fst (Test1Strategy._get_ratios config manager coin coin_price w) = Ok ratio_dict ->
  scout_history (snd (Test1Strategy._get_ratios config manager coin coin_price w))
  = (scout_history w
     ++ scouted_rows config manager coin_price (now w)
          (Database.get_pairs_from coin true w))%list /\
  (forall pair target_price fee_out,
      In pair (Database.get_pairs_from coin true w) ->
      target_quote config manager pair = Ok (Some target_price, fee_out) ->
      In (ScoutHistory.mk pair (Pair.ratio pair) (Some coin_price) (Some target_price)
            (now w))
         (scout_history (snd (Test1Strategy._get_ratios config manager coin coin_price w)))).
Proof.
  intro Hok.
  pose proof (_get_ratios_scout_rows config manager coin coin_price w ratio_dict Hok)
    as Hrows.
  split; [exact Hrows|].
  intros pair tp fo Hin Hq. rewrite Hrows. apply in_or_app. right.
  eapply scouted_rows_in; eauto.
Qed.

(** X18, at the scenario: scouting from ETH writes the record of ETH
    against BTC. *)
Lemma X18_get_ratios_scout_records_witness :
  scout_history (snd (Test1Strategy._get_ratios Scenario.config Scenario.manager
                        Scenario.ETH 2000 Scenario.world))
  = [ScoutHistory.mk Scenario.ETH_BTC 0.05 (Some 2000) (Some 40000) 1000000].
Proof.
  refine (proj1 (X18_get_ratios_scout_records Scenario.config Scenario.manager
                   Scenario.ETH 2000 Scenario.world
                   [(Scenario.ETH_BTC, -2000000000 # 4000000000000)] _)).
  vm_compute. reflexivity.
Defined.

(** X19. Scouting feeds the trailing high: after a call of [_get_ratios]
    from a coin at a positive price that returns and has resolved the price
    of at least one target, a lookup of the recent high of that coin in the
    scout history made [elapsed] seconds after the call, over a window of
    [hours] hours with [elapsed <= 3600 * hours], returns at least that
    price. *)
Theorem X19_scouting_feeds_recent_high
  (config : Config.t) (manager : Manager.t) (coin : Coin.t) (coin_price : Q) (w : World)
  (ratio_dict : RatioDict) (pair : Pair.t) (target_price fee_out : Q)
  (hours elapsed : Z) :
  fst (Test1Strategy._get_ratios config manager coin coin_price w) = Ok ratio_dict ->
  In pair (Database.get_pairs_from coin true w) ->
  target_quote config manager pair = Ok (Some target_price, fee_out) ->
  0 < coin_price ->
  (0 <= elapsed <= 3600 * hours)%Z ->
  exists m,
    Database.get_coin_recent_high_price coin hours None
      (elapse elapsed (snd (Test1Strategy._get_ratios config manager coin coin_price w)))
    = Some m /\
    coin_price <= m.
Proof.
  intros Hok Hin Hq Hpos Hel.
  set (w1 := snd (Test1Strategy._get_ratios config manager coin coin_price w)).
  destruct (_get_ratios_only_scouted config manager coin coin_price w)
    as [_ [Hpairs [_ [_ [_ [_ [Hnow _]]]]]]].
  fold w1 in Hpairs, Hnow.
  apply recent_high_at_least; [exact Hpos|].
  exists pair,
    (ScoutHistory.mk pair (Pair.ratio pair) (Some coin_price) (Some target_price) (now w)).
  destruct (get_pairs_from_source coin w pair Hin) as [Hp [Hsym _]].
  split; [change (pairs (elapse elapsed w1)) with (pairs w1); now rewrite Hpairs|].
  split; [unfold Coin.eqb; rewrite Hsym; apply String.eqb_refl|].
  split.
  { change (scout_history (elapse elapsed w1)) with (scout_history w1). unfold w1.
    rewrite (_get_ratios_scout_rows config manager coin coin_price w ratio_dict Hok).
    apply in_or_app. right. eapply scouted_rows_in; eauto. }
  split; [apply Pair_eqb_refl|].
  split; [|reflexivity].
  unfold Database.time_diff.
  change (now (elapse elapsed w1)) with (now w1 + elapsed)%Z. rewrite Hnow.
  change (ScoutHistory.datetime _) with (now w). lia.
Qed.

(** X19, at the scenario: ETH scouted at 2000 against BTC, read a minute
    later over 24 hours. *)
Lemma X19_scouting_feeds_recent_high_witness :
  exists m,
    Database.get_coin_recent_high_price Scenario.ETH 24 None
      (elapse 60
         (snd (Test1Strategy._get_ratios Scenario.config Scenario.manager
                 Scenario.ETH 2000 Scenario.world))) = Some m /\
    2000 <= m.
Proof.
  apply (X19_scouting_feeds_recent_high Scenario.config Scenario.manager Scenario.ETH 2000
           Scenario.world [(Scenario.ETH_BTC, -2000000000 # 4000000000000)]
           Scenario.ETH_BTC 40000 0.001 24 60).
  - vm_compute. reflexivity.
  - vm_compute. auto.
  - vm_compute. reflexivity.
  - reflexivity.
  - lia.
Defined.

Lemma dict_get_set_eqb (d : RatioDict) (k k' : Pair.t) (v : Q) :
  Pair.eqb k k' = true -> dict_get (dict_set d k v) k' = Some v.
Proof.
  intro He. induction d as [|[k0 v0] tl IH]; simpl.
  - now rewrite He.
  - destruct (Pair.eqb k0 k) eqn:E; simpl.
    + unfold Pair.eqb in *. apply Z.eqb_eq in E, He.
      rewrite (proj2 (Z.eqb_eq _ _)) by congruence. reflexivity.
    + destruct (Pair.eqb k0 k') eqn:E'; [|exact IH].
      unfold Pair.eqb in *. apply Z.eqb_eq in E', He. apply Z.eqb_neq in E. congruence.
Qed.

(** The lookups of the dictionary the loop builds, by the pair of the list
    that has the id looked up. *)
Lemma ratios_of_lookup (config : Config.t) (manager : Manager.t)
  (coin_price cmt : Q) (ps : list Pair.t) :
  NoDup (map Pair.id ps) ->
  forall d d' k,
    ratios_of config manager coin_price cmt ps d = Ok d' ->
    dict_get d' k =
    match find (fun p => Pair.eqb p k) ps with
    | Some p =>
        match score config manager coin_price cmt p with
        | Ok (Some s) => Some s
        | _ => dict_get d k
        end
    | None => dict_get d k
    end.
Proof.
  induction ps as [|p tl IH]; simpl; intros Hnd d d' k H.
  - now injection H as <-.
  - inversion Hnd as [|? ? Hnotin Hnd']; subst.
    destruct (Pair.eqb p k) eqn:Epk.
    + assert (Hframe : forall q, In q tl -> Pair.eqb q k = false).
      { intros q Hq. unfold Pair.eqb in *. apply Z.eqb_eq in Epk. apply Z.eqb_neq.
        intro Heq. apply Hnotin. rewrite Epk, <- Heq. now apply in_map. }
      destruct (score config manager coin_price cmt p) as [[s|]|e]; try discriminate.
      * rewrite (ratios_of_frame config manager coin_price cmt k tl _ _ H Hframe).
        now apply dict_get_set_eqb.
      * exact (ratios_of_frame config manager coin_price cmt k tl _ _ H Hframe).
    + destruct (score config manager coin_price cmt p) as [[s|]|e]; try discriminate.
      * rewrite (IH Hnd' _ _ k H).
        rewrite (dict_get_set_other d p k s Epk). reflexivity.
      * exact (IH Hnd' _ _ k H).
Qed.

(** X20. The keys of the dictionary [_get_ratios] returns are the pairs
    whose target price resolved: for an enabled pair from the coin (row ids
    being unique), the pair has no entry exactly when its target price is
    [None]. *)
Theorem X20_unresolved_pairs_have_no_entry
  (config : Config.t) (manager : Manager.t) (coin : Coin.t) (coin_price : Q) (w : World)
  (ratio_dict : RatioDict) (pair : Pair.t) :
  NoDup (map Pair.id (pairs w)) ->
  fst (Test1Strategy._get_ratios config manager coin coin_price w) = Ok ratio_dict ->
  In pair (Database.get_pairs_from coin true w) ->
  (dict_get ratio_dict pair = None <->
   exists fee_out, target_quote config manager pair = Ok (None, fee_out)).
Proof.
  intros Hnd Hok Hin. rewrite _get_ratios_fst in Hok.
  pose proof (get_pairs_from_unique_ids coin true w Hnd) as Hnd'.
  destruct (ratios_of_ok_score _ _ _ _ _ _ _ pair Hok Hin) as [r Hr].
  destruct r as [s|].
  - rewrite (ratios_of_get config manager coin_price _ _ Hnd' [] ratio_dict pair s
               Hok Hin Hr).
    split; [discriminate|].
    intros [fo Hq]. unfold score in Hr. rewrite Hq in Hr. discriminate.
  - assert (Hnone : dict_get ratio_dict pair = None).
    { rewrite (ratios_of_lookup config manager coin_price _ _ Hnd' [] ratio_dict pair Hok).
      destruct (find (fun p => Pair.eqb p pair) (Database.get_pairs_from coin true w))
        as [q|] eqn:Ef; [|reflexivity].
      apply find_some in Ef. destruct Ef as [Hq Heq].
      assert (q = pair) as ->.
      { unfold Pair.eqb in Heq. apply Z.eqb_eq in Heq.
        clear -Hnd' Hq Hin Heq.
        induction (Database.get_pairs_from coin true w) as [|x l IH]; [contradiction|].
        simpl in Hnd'. inversion Hnd' as [|? ? Hnotin Hnd'']; subst.
        destruct Hq as [->|Hq], Hin as [->|Hin]; auto.
        - exfalso. apply Hnotin. rewrite Heq. now apply in_map.
        - exfalso. apply Hnotin. rewrite <- Heq. now apply in_map. }
      now rewrite Hr. }
    split; [|intros _; exact Hnone].
    intros _. unfold score in Hr.
    destruct (target_quote config manager pair) as [[[tp|] fo]|e]; try discriminate.
    + destruct (py_div coin_price tp); try discriminate.
      destruct (Manager.get_fee manager _ _ true); try discriminate.
      destruct (Test1Strategy.mt pair _ _); discriminate.
    + eauto.
Qed.

(** X20, at the scenario: the pair ETH -> BTC resolves and has an entry,
    so the left side fails with the right. *)
Lemma X20_unresolved_pairs_have_no_entry_witness :
  dict_get [(Scenario.ETH_BTC, -2000000000 # 4000000000000)] Scenario.ETH_BTC = None <->
  exists fee_out,
    target_quote Scenario.config Scenario.manager Scenario.ETH_BTC = Ok (None, fee_out).
Proof.
  apply (X20_unresolved_pairs_have_no_entry Scenario.config Scenario.manager Scenario.ETH
           2000 Scenario.world).
  - vm_compute. repeat constructor. intros [].
  - vm_compute. reflexivity.
  - vm_compute. auto.
Defined.

(** X21. The score of a rotation into USDT depends neither on the fee nor
    on the configured sensitivity: with a fee that is not zero the score
    stored is [coin_price * 1.001 - pair.ratio]. *)
Theorem X21_usdt_target_score_ignores_fee
  (config : Config.t) (manager : Manager.t) (coin_price cmt : Q) (pair : Pair.t)
  (ratio_dict : RatioDict) (w : World) (fee : Q) :
  is_USDT (Pair.to_coin pair) = true ->
  Manager.get_fee manager (Pair.from_coin pair) (Config.BRIDGE config) true = Ok fee ->
  ~ fee == 0 ->
  exists s,
    fst (Test1Strategy._get_ratios_body config manager coin_price cmt pair ratio_dict w)
    = Ok (dict_set ratio_dict pair s) /\
    s == coin_price * 1.001 - Pair.ratio pair.
Proof.
  intros Hto Hfee Hnz.
  assert (Hnz' : ~ fee + 0 == 0) by (intro Hz; apply Hnz; rewrite <- Hz; ring).
  rewrite body_fst. unfold score, target_quote. rewrite Hto.
  rewrite py_div_ok by discriminate. rewrite Hfee.
  unfold Test1Strategy.mt. rewrite Hto, (py_div_ok _ _ Hnz').
  eexists. split; [reflexivity|]. field. exact Hnz.
Qed.

(** X21, at the scenario: ETH at 2000 into USDT, with the pair's ratio of
    2000, scores 2. *)
Lemma X21_usdt_target_score_ignores_fee_witness :
  exists s,
    fst (Test1Strategy._get_ratios_body Scenario.config Scenario.manager 2000 5
           Scenario.ETH_USDT [] Scenario.world)
    = Ok (dict_set [] Scenario.ETH_USDT s) /\
    s == 2000 * 1.001 - 2000.
Proof.
  apply (X21_usdt_target_score_ignores_fee Scenario.config Scenario.manager 2000 5
           Scenario.ETH_USDT [] Scenario.world 0.001); try reflexivity.
  discriminate.
Defined.

Lemma ratios_of_total (config : Config.t) (manager : Manager.t)
  (coin_price cmt : Q) (ps : list Pair.t) :
  (forall p, In p ps -> exists r, score config manager coin_price cmt p = Ok r) ->
  forall d, exists d', ratios_of config manager coin_price cmt ps d = Ok d'.
Proof.
  induction ps as [|p tl IH]; simpl; intros Hall d; [eauto|].
  destruct (Hall p (or_introl eq_refl)) as [r Hr]. rewrite Hr.
  destruct r as [s|]; apply IH; auto.
Qed.

(** With ids of their own, the pair that has a given id is found whatever
    the order of the table. *)
Lemma find_by_id_permutation (k : Pair.t) (ps ps' : list Pair.t) :
  Permutation ps ps' ->
  NoDup (map Pair.id ps) ->
  find (fun p => Pair.eqb p k) ps = find (fun p => Pair.eqb p k) ps'.
Proof.
  induction 1 as [|x l l' Hperm IH|x y l|l l' l'' H1 IH1 H2 IH2]; intro Hnd; simpl.
  - reflexivity.
  - inversion Hnd; subst. destruct (Pair.eqb x k); [reflexivity | auto].
  - destruct (Pair.eqb y k) eqn:Ey, (Pair.eqb x k) eqn:Ex; try reflexivity.
    exfalso. unfold Pair.eqb in *. apply Z.eqb_eq in Ey, Ex.
    inversion Hnd as [|? ? Hnotin _]; subst. apply Hnotin. left. congruence.
  - rewrite IH1 by exact Hnd. apply IH2.
    eapply Permutation_NoDup; [|exact Hnd]. now apply Permutation_map.
Qed.

Lemma pairs_filter_permutation (keep : Pair.t -> bool) (ps ps' : list Pair.t) :
  Permutation ps ps' -> Permutation (filter keep ps) (filter keep ps').
Proof.
  induction 1 as [|x l l' Hperm IH|x y l|l l' l'' H1 IH1 H2 IH2]; simpl.
  - constructor.
  - destruct (keep x); [now constructor | exact IH].
  - destruct (keep y), (keep x); try reflexivity. constructor.
  - eapply perm_trans; eauto.
Qed.

(** X22. The scores do not depend on the order in which the pairs are
    read: for two states of the Pair table that hold the same rows in a
    different order (row ids being unique), if [_get_ratios] returns on the
    one it returns on the other, and every pair has the same entry in both
    results. *)
Theorem X22_scores_independent_of_pair_order
  (config : Config.t) (manager : Manager.t) (coin : Coin.t) (coin_price : Q)
  (w w' : World) (ratio_dict : RatioDict) :
  Permutation (pairs w) (pairs w') ->
  NoDup (map Pair.id (pairs w)) ->
  fst (Test1Strategy._get_ratios config manager coin coin_price w) = Ok ratio_dict ->
  exists ratio_dict',
    fst (Test1Strategy._get_ratios config manager coin coin_price w') = Ok ratio_dict' /\
    forall pair, dict_get ratio_dict' pair = dict_get ratio_dict pair.
Proof.
  intros Hperm Hnd Hok. rewrite _get_ratios_fst in *.
  set (ps := Database.get_pairs_from coin true w) in *.
  set (ps' := Database.get_pairs_from coin true w').
  assert (Hp : Permutation ps ps')
    by (unfold ps, ps', Database.get_pairs_from;
        now apply pairs_filter_permutation, pairs_filter_permutation).
  assert (Hnd1 : NoDup (map Pair.id ps)) by now apply get_pairs_from_unique_ids.
  assert (Hnd2 : NoDup (map Pair.id ps'))
    by (eapply Permutation_NoDup; [apply Permutation_map; exact Hp | exact Hnd1]).
  destruct (ratios_of_total config manager coin_price (Test1Strategy.cmt config coin) ps')
    with (d := @nil (Pair.t * Q)) as [d' Hd'].
  { intros p Hin. apply (ratios_of_ok_score _ _ _ _ _ _ _ p Hok).
    eapply Permutation_in; [apply Permutation_sym; exact Hp | exact Hin]. }
  exists d'. split; [exact Hd'|].
  intro k.
  rewrite (ratios_of_lookup config manager coin_price _ ps' Hnd2 [] d' k Hd').
  rewrite (ratios_of_lookup config manager coin_price _ ps Hnd1 [] ratio_dict k Hok).
  now rewrite (find_by_id_permutation k ps ps' Hp Hnd1).
Qed.

(** X22, at the scenario: the two pairs from ETH read in either order. *)
Lemma X22_scores_independent_of_pair_order_witness :
  exists ratio_dict',
    fst (Test1Strategy._get_ratios Scenario.config Scenario.manager Scenario.ETH 2000
           (mkWorld [Scenario.ETH; Scenario.BTC; Scenario.USDT]
                    [Scenario.ETH_USDT; Scenario.ETH_BTC] [Scenario.ETH]
                    [] [] [] [] [] 1000000))
    = Ok ratio_dict' /\
    forall pair,
      dict_get ratio_dict' pair
      = dict_get [(Scenario.ETH_BTC, -2000000000 # 4000000000000);
                  (Scenario.ETH_USDT, 2000000 # 1000000)] pair.
Proof.
  apply (X22_scores_independent_of_pair_order Scenario.config Scenario.manager
           Scenario.ETH 2000 Scenario.world_with_usdt_pair).
  - apply perm_swap.
  - vm_compute. repeat constructor; simpl; intuition discriminate.
  - vm_compute. reflexivity.
Defined.

(** X23. A larger multiplier never raises a score: for a target other
    than USDT, a cross ratio and a transaction fee that are not negative,
    the score computed with [cmt2 >= cmt1] is at most the score computed
    with [cmt1]; and with a sensitivity that is not negative the multiplier
    used from USDT (times 1.4) is at least the one used from any other
    coin, so the factor 1.4 makes a jump out of USDT harder, not easier. *)
Theorem X23_larger_multiplier_lower_score
  (config : Config.t) (manager : Manager.t) (coin_price cmt1 cmt2 : Q) (pair : Pair.t)
  (ratio_dict : RatioDict) (w : World) (target_price fee_out fee_in : Q) :
  is_USDT (Pair.to_coin pair) = false ->
  target_quote config manager pair = Ok (Some target_price, fee_out) ->
  Manager.get_fee manager (Pair.from_coin pair) (Config.BRIDGE config) true = Ok fee_in ->
  0 < target_price ->
  0 <= coin_price ->
  0 <= fee_in + fee_out ->
  cmt1 <= cmt2 ->
  (exists s1 s2,
      fst (Test1Strategy._get_ratios_body config manager coin_price cmt1 pair ratio_dict w)
      = Ok (dict_set ratio_dict pair s1) /\
      fst (Test1Strategy._get_ratios_body config manager coin_price cmt2 pair ratio_dict w)
      = Ok (dict_set ratio_dict pair s2) /\
      s2 <= s1) /\
  (forall held usdt,
      0 <= Config.SCOUT_MULTIPLIER config ->
      is_USDT held = false -> is_USDT usdt = true ->
      Test1Strategy.cmt config held <= Test1Strategy.cmt config usdt).
Proof.
  intros Hto Hq Hfee Htp Hcp Hf Hle. split.
  - assert (Htp' : ~ target_price == 0)
      by (intro Hz; rewrite Hz in Htp; exact (Qlt_irrefl 0 Htp)).
    rewrite !body_fst. unfold score.
    rewrite Hq, (py_div_ok _ _ Htp'), Hfee. unfold Test1Strategy.mt. rewrite Hto.
    eexists. eexists. split; [reflexivity|]. split; [reflexivity|].
    assert (Hcross : 0 <= coin_price / target_price).
    { apply Qle_shift_div_l; [exact Htp|]. now rewrite Qmult_0_l. }
    set (c := coin_price / target_price) in *.
    set (f := fee_in + fee_out) in *.
    assert (Hcf : 0 <= c * f) by now apply Qmult_le_0_compat.
    assert (Hprod : c * f * cmt1 <= c * f * cmt2).
    { setoid_replace (c * f * cmt1) with (cmt1 * (c * f)) by ring.
      setoid_replace (c * f * cmt2) with (cmt2 * (c * f)) by ring.
      now apply Qmult_le_compat_r. }
    setoid_replace (c * (1 - f * cmt2) - Pair.ratio pair)
      with (c - c * f * cmt2 - Pair.ratio pair) by ring.
    setoid_replace (c * (1 - f * cmt1) - Pair.ratio pair)
      with (c - c * f * cmt1 - Pair.ratio pair) by ring.
    lra.
  - intros held usdt Hs Hheld Husdt.
    unfold Test1Strategy.cmt. rewrite Hheld, Husdt. lra.
Qed.

(** X23, at the scenario: ETH against BTC scored with 5 and with 7. *)
Lemma X23_larger_multiplier_lower_score_witness :
  exists s1 s2,
    fst (Test1Strategy._get_ratios_body Scenario.config Scenario.manager 2000 5
           Scenario.ETH_BTC [] Scenario.world)
    = Ok (dict_set [] Scenario.ETH_BTC s1) /\
    fst (Test1Strategy._get_ratios_body Scenario.config Scenario.manager 2000 7
           Scenario.ETH_BTC [] Scenario.world)
    = Ok (dict_set [] Scenario.ETH_BTC s2) /\
    s2 <= s1.
Proof.
  refine (proj1 (X23_larger_multiplier_lower_score Scenario.config Scenario.manager
                   2000 5 7 Scenario.ETH_BTC [] Scenario.world 40000 0.001 0.001
                   _ _ _ _ _ _ _)); try reflexivity; vm_compute; discriminate.
Defined.

(* ================================================================== *)
(** * Further properties: the stop-loss monitor and the cycle          *)
(* ================================================================== *)

(** X24. [_execute_stop_loss] never raises.  It moves the holding pointer,
    if at all, to a coin whose symbol is USDT, and only when it returns
    [True]; it returns [True] only when the exchange confirmed the sale of
    the held coin; and the only sell order it sends is that of the held
    coin against the bridge. *)
Theorem X24_execute_stop_loss_outcome
  (config : Config.t) (manager : Manager.t) (coin : Coin.t) (w : World) :
  let r := Custom1Strategy._execute_stop_loss config manager coin w in
  exists fired,
    fst r = Ok fired /\
    (current_coin_history (snd r) = current_coin_history w \/
     exists usdt,
       is_USDT usdt = true /\ fired = true /\
       current_coin_history (snd r) = usdt :: current_coin_history w) /\
    (fired = true ->
     exists order,
       Manager.sell_alt manager coin (Config.BRIDGE config) = Ok (Some order)) /\
    (forall origin target,
        In (SellAlt origin target) (order_calls (snd r)) ->
        In (SellAlt origin target) (order_calls w) \/
        (origin = coin /\ target = Config.BRIDGE config)).
Proof.
  unfold Custom1Strategy._execute_stop_loss, try_except, bind, lift, ret, logger,
    reads, sell_alt, buy_alt, Database.set_current_coin.
  simpl. split_calls;
    eexists; (split; [reflexivity|]); simpl;
    (split; [try (left; reflexivity)|
             split; [try discriminate; intros _; eauto|]]).
  all: try (intros origin target Hin; simpl in Hin;
            repeat (destruct Hin as [Hin|Hin];
                    [try discriminate; injection Hin as <- <-; right; auto|]);
            left; exact Hin).
  all: try (right; eexists; repeat split; try reflexivity;
            match goal with
            | H : find is_USDT _ = Some _ |- _ => apply find_some in H; apply H
            | H : negb (is_USDT _) = false |- _ => apply negb_false_iff in H; exact H
            end).
Qed.

(** X25. With a bridge other than USDT, a stop-loss whose sale is
    confirmed returns [True] even when the conversion to USDT does not
    happen - the buy comes back empty, or the Coin table has no enabled
    USDT: the held coin is sold, and the holding pointer still names it. *)
Theorem X25_stop_loss_sold_but_not_converted
  (config : Config.t) (manager : Manager.t) (coin : Coin.t) (w : World)
  (balance current_price min_notional : Q) (order : Order.t) :
  is_USDT (Config.BRIDGE config) = false ->
  Manager.get_currency_balance manager (Coin.symbol coin) = Ok balance ->
  Manager.get_ticker_price manager (Coin.add coin (Config.BRIDGE config))
  = Ok (Some current_price) ->
  Manager.get_min_notional manager (Coin.symbol coin) (Coin.symbol (Config.BRIDGE config))
  = Ok min_notional ->
  0 < balance ->
  min_notional <= balance * current_price ->
  Manager.sell_alt manager coin (Config.BRIDGE config) = Ok (Some order) ->
  (find is_USDT (Database.get_coins true w) = None \/
   exists usdt,
     find is_USDT (Database.get_coins true w) = Some usdt /\
     Manager.buy_alt manager usdt (Config.BRIDGE config) = Ok None) ->
  let r := Custom1Strategy._execute_stop_loss config manager coin w in
  fst r = Ok true /\
  current_coin_history (snd r) = current_coin_history w /\
  In (SellAlt coin (Config.BRIDGE config)) (order_calls (snd r)).
Proof.
  intros Hbridge Hb Hp Hm Hpos Hle Hsell Hconv r. subst r.
  unfold Custom1Strategy._execute_stop_loss, try_except, bind, lift, ret, logger,
    reads, sell_alt, buy_alt, Database.set_current_coin.
  rewrite Hb.
  destruct (Qle_bool balance 0) eqn:E;
    [apply Qle_bool_iff in E; exfalso; exact (Qlt_not_le _ _ Hpos E)|].
  rewrite Hp, Hm. simpl.
  rewrite (proj2 (Qlt_bool_false_iff _ _) Hle). simpl.
  rewrite Hsell. simpl. rewrite Hbridge. simpl.
  unfold Database.get_coins in Hconv |- *. simpl.
  destruct Hconv as [Hnone|[usdt [Hsome Hbuy]]].
  - rewrite Hnone. simpl. auto.
  - rewrite Hsome. simpl. rewrite Hbuy. simpl. auto.
Qed.

(** X25, with a bridge BUSD and an exchange that confirms the sale of ETH
    and returns nothing for the buy of USDT. *)
Lemma X25_stop_loss_sold_but_not_converted_witness :
  let config := Config.mk (Coin.mk "BUSD" true) 5 true 15 24 in
  let manager :=
    Manager.mk (fun _ => Ok (Some 2000)) (fun _ _ _ => Ok 0.001) (fun _ _ => Ok 10)
               (fun _ => Ok 1) (fun _ _ => Ok (Some (Order.mk 2000)))
               (fun _ _ => Ok None) in
  let r := Custom1Strategy._execute_stop_loss config manager Scenario.ETH Scenario.world in
  fst r = Ok true /\
  current_coin_history (snd r) = [Scenario.ETH] /\
  In (SellAlt Scenario.ETH (Coin.mk "BUSD" true)) (order_calls (snd r)).
Proof.
  intros config manager.
  apply (X25_stop_loss_sold_but_not_converted config manager Scenario.ETH Scenario.world
           1 2000 10 (Order.mk 2000)); try reflexivity.
  - vm_compute. discriminate.
  - right. exists Scenario.USDT. split; reflexivity.
Defined.

Lemma _check_trailing_stop_loss_returns
  (config : Config.t) (manager : Manager.t) (coin : Coin.t) (current_price : Q)
  (ct : option Z) (w : World) :
  exists b,
    fst (Custom1Strategy._check_trailing_stop_loss config manager coin current_price ct w)
    = Ok b.
Proof.
  unfold Custom1Strategy._check_trailing_stop_loss, try_except.
  match goal with
  | |- context [match ?m w with _ => _ end] => destruct (m w) as [[b|e] w1]
  end; simpl; eauto.
Qed.

(** X26. One cycle of [scout] raises only what the ticker lookup of the
    held coin or the inherited [_jump_to_best_coin] raise: with a held coin,
    a ticker lookup that answers (or USDT held) and a [_jump_to_best_coin]
    that returns, [scout] returns, whatever the gateway does inside the
    stop-loss check and the scouting from USDT; and on a cycle where the
    stop-loss check returns [True], [_jump_to_best_coin] is not run. *)
Theorem X26_scout_is_exception_safe
  (config : Config.t) (manager : Manager.t)
  (_get_ratios : Coin.t -> Q -> M RatioDict)
  (_jump_to_best_coin : Coin.t -> Q -> M unit)
  (ct : option Z) (w : World) (coin : Coin.t) :
  Database.get_current_coin w = Some coin ->
  (is_USDT coin = true \/
   exists price,
     Manager.get_ticker_price manager (Coin.add coin (Config.BRIDGE config)) = Ok price) ->
  (fst (Custom1Strategy.scout config manager _get_ratios _jump_to_best_coin ct w) = Ok tt \/
   exists price w1 e,
     fst (_jump_to_best_coin coin price w1) = Raise e /\
     fst (Custom1Strategy.scout config manager _get_ratios _jump_to_best_coin ct w)
     = Raise e) /\
  (forall price w1,
      is_USDT coin = false ->
      Manager.get_ticker_price manager (Coin.add coin (Config.BRIDGE config))
      = Ok (Some price) ->
      Config.STOP_LOSS_ENABLED config = true ->
      Custom1Strategy._check_trailing_stop_loss config manager coin price ct w
      = (Ok true, w1) ->
      Custom1Strategy.scout config manager _get_ratios _jump_to_best_coin ct w
      = (Ok tt, w1)).
Proof.
  intros Hcur Hprice. split.
  - unfold Custom1Strategy.scout, bind, reads, lift. rewrite Hcur.
    destruct (is_USDT coin) eqn:Hc.
    + left. apply _scout_from_usdt_returns.
    + destruct Hprice as [Hp|[price Hp]]; [discriminate|]. rewrite Hp.
      destruct price as [price|]; [|left; reflexivity].
      destruct (Config.STOP_LOSS_ENABLED config).
      * destruct (_check_trailing_stop_loss_returns config manager coin price ct w)
          as [b Hb].
        destruct (Custom1Strategy._check_trailing_stop_loss config manager coin price ct w)
          as [rb w1]. simpl in Hb. subst rb.
        destruct b; [left; reflexivity|].
        destruct (_jump_to_best_coin coin price w1) as [[[]|e] w'] eqn:Ej.
        -- left. reflexivity.
        -- right. exists price, w1, e. rewrite Ej. auto.
      * unfold ret.
        destruct (_jump_to_best_coin coin price w) as [[[]|e] w'] eqn:Ej.
        -- left. reflexivity.
        -- right. exists price, w, e. rewrite Ej. auto.
  - intros price w1 Hc Hp Hen Hchk.
    unfold Custom1Strategy.scout, bind, reads, lift.
    rewrite Hcur, Hc, Hp, Hen, Hchk. reflexivity.
Qed.

(** X26, at the scenario: ETH at 80 after a high of 100: the stop-loss
    fires and the cycle ends with USDT held. *)
Lemma X26_scout_is_exception_safe_witness :
  Custom1Strategy.scout Scenario.config Scenario.manager_eth_80 Scenario._get_ratios
    Scenario._jump_to_best_coin None Scenario.world_high_100
  = (Ok tt,
     snd (Custom1Strategy._check_trailing_stop_loss Scenario.config Scenario.manager_eth_80
            Scenario.ETH 80 None Scenario.world_high_100)).
Proof.
  refine (proj2 (X26_scout_is_exception_safe Scenario.config Scenario.manager_eth_80
                   Scenario._get_ratios Scenario._jump_to_best_coin None
                   Scenario.world_high_100 Scenario.ETH _ _) 80 _ _ _ _ _).
  - reflexivity.
  - right. exists (Some 80). reflexivity.
  - reflexivity.
  - reflexivity.
  - reflexivity.
  - vm_compute. reflexivity.
Defined.

(* ================================================================== *)
(** * Further properties: orders of the scouting from USDT             *)
(* ================================================================== *)

Section UsdtOrders.

Variable config : Config.t.
Variable manager : Manager.t.
Variable _get_ratios : Coin.t -> Q -> M RatioDict.

(** The inherited [_get_ratios] sends no order. *)
Hypothesis _get_ratios_sends_no_order :
  forall coin coin_price w,
    order_calls (snd (_get_ratios coin coin_price w)) = order_calls w.

Lemma potential_sends_no_order (coin : Coin.t) (w : World) :
  order_calls (snd (Custom1Strategy.potential config manager _get_ratios coin w))
  = order_calls w.
Proof.
  unfold Custom1Strategy.potential, bind, lift, ret.
  destruct (Manager.get_ticker_price manager _) as [[price|]|e]; try reflexivity.
  pose proof (_get_ratios_sends_no_order coin price w) as Hf.
  destruct (_get_ratios coin price w) as [[d|e] w1]; simpl in *; [|exact Hf].
  destruct (Custom1Strategy.positive_ratios d) as [|x tl]; [exact Hf|].
  destruct (Custom1Strategy.avg_potential (x :: tl)); exact Hf.
Qed.

Lemma usdt_loop_sends_no_order (coins : list Coin.t) :
  forall best w,
    order_calls (snd (for_each coins (usdt_body config manager _get_ratios) best w))
    = order_calls w.
Proof.
  induction coins as [|c tl IH]; intros best w; simpl; [reflexivity|].
  unfold bind. rewrite usdt_body_cases.
  pose proof (potential_sends_no_order c w) as Hf.
  destruct (Custom1Strategy.potential config manager _get_ratios c w)
    as [[[avg|]|e] w1]; simpl in *; rewrite IH; exact Hf.
Qed.

End UsdtOrders.

(** X27. Scouting from USDT sends at most one order, and never a sale:
    provided the inherited [_get_ratios] sends no order and leaves the
    holding pointer, [_scout_from_usdt] either leaves orders and pointer
    as they were, or sends one buy of an enabled coin other than USDT
    against the bridge, and the pointer then stays or moves to that very
    coin. *)
Theorem X27_scout_from_usdt_sends_at_most_one_buy
  (config : Config.t) (manager : Manager.t)
  (_get_ratios : Coin.t -> Q -> M RatioDict) (w : World) :
  (forall coin coin_price w0,
      order_calls (snd (_get_ratios coin coin_price w0)) = order_calls w0) ->
  (forall coin coin_price w0,
      current_coin_history (snd (_get_ratios coin coin_price w0))
      = current_coin_history w0) ->
  let r := Custom1Strategy._scout_from_usdt config manager _get_ratios w in
  (order_calls (snd r) = order_calls w /\
   current_coin_history (snd r) = current_coin_history w) \/
  exists best_coin,
    In best_coin (Database.get_coins true w) /\
    is_USDT best_coin = false /\
    order_calls (snd r) = BuyAlt best_coin (Config.BRIDGE config) :: order_calls w /\
    (current_coin_history (snd r) = current_coin_history w \/
     current_coin_history (snd r) = best_coin :: current_coin_history w).
Proof.
  intros Horders Hpointer r. subst r.
  unfold Custom1Strategy._scout_from_usdt, Custom1Strategy._scout_from_usdt_try,
    try_except, bind, reads.
  set (target_coins := filter (fun coin => negb (is_USDT coin)) (Database.get_coins true w)).
  fold (usdt_body config manager _get_ratios).
  destruct target_coins as [|c0 tl] eqn:Et; [left; split; reflexivity|].
  rewrite <- Et.
  pose proof (usdt_loop_sends_no_order config manager _get_ratios Horders
                target_coins (None, 0) w) as Hf.
  pose proof (usdt_loop_frame config manager _get_ratios Hpointer
                target_coins (None, 0) w) as Hg.
  pose proof (usdt_loop_selected config manager _get_ratios target_coins target_coins
                (incl_refl _) (None, 0)) as Hsel.
  destruct (for_each target_coins (usdt_body config manager _get_ratios) (None, 0) w)
    as [[[[bc|] bp]|e] w1] eqn:Hloop;
    simpl in Hf, Hg; try (left; simpl; split; [exact Hf|exact Hg]).
  specialize (Hsel (Some bc, bp) w (Qle_refl 0) eq_refl).
  rewrite Hloop in Hsel. specialize (Hsel eq_refl).
  destruct Hsel as [Hin Hpos]. simpl in Hin, Hpos.
  rewrite (proj2 (Qlt_bool_iff 0 bp) Hpos).
  unfold logger, buy_alt, Database.set_current_coin. simpl.
  right. exists bc.
  subst target_coins. apply filter_In in Hin. destruct Hin as [Hin Hn].
  apply negb_true_iff in Hn.
  split; [exact Hin|]. split; [exact Hn|].
  destruct (Manager.buy_alt manager bc (Config.BRIDGE config)) as [[order|]|e] eqn:Hbuy;
    simpl; rewrite Hf, Hg; auto.
Qed.

(** X27, at the scenario: USDT held, BTC scouted with the stub ratios. *)
Lemma X27_scout_from_usdt_sends_at_most_one_buy_witness :
  let r := Custom1Strategy._scout_from_usdt Scenario.config Scenario.manager
             Scenario._get_ratios Scenario.world_in_usdt in
  (order_calls (snd r) = order_calls Scenario.world_in_usdt /\
   current_coin_history (snd r) = current_coin_history Scenario.world_in_usdt) \/
  exists best_coin,
    In best_coin (Database.get_coins true Scenario.world_in_usdt) /\
    is_USDT best_coin = false /\
    order_calls (snd r)
    = BuyAlt best_coin (Config.BRIDGE Scenario.config)
      :: order_calls Scenario.world_in_usdt /\
    (current_coin_history (snd r) = current_coin_history Scenario.world_in_usdt \/
     current_coin_history (snd r) = best_coin :: current_coin_history Scenario.world_in_usdt).
Proof.
  apply (X27_scout_from_usdt_sends_at_most_one_buy Scenario.config Scenario.manager
           Scenario._get_ratios Scenario.world_in_usdt);
    intros coin coin_price w0; unfold Scenario._get_ratios;
    destruct (Coin.eqb coin Scenario.BTC); reflexivity.
Defined.

(* ================================================================== *)
(** * Further properties: the two cycles, and the startup              *)
(* ================================================================== *)

(** X28. With the stop-loss switched off and a coin other than USDT held
    (or none), the cycle of custom1_strategy.py is the cycle of
    test1_strategy.py: same result, same state, whatever the gateway and
    the inherited [_jump_to_best_coin] do. *)
Theorem X28_scout_without_stop_loss_is_test1_scout
  (config : Config.t) (manager : Manager.t)
  (_get_ratios : Coin.t -> Q -> M RatioDict)
  (_jump_to_best_coin : Coin.t -> Q -> M unit)
  (current_time : option Z) (w : World) :
  Config.STOP_LOSS_ENABLED config = false ->
  (forall coin, Database.get_current_coin w = Some coin -> is_USDT coin = false) ->
  Custom1Strategy.scout config manager _get_ratios _jump_to_best_coin current_time w
  = Test1Scout.scout config manager _jump_to_best_coin w.
Proof.
  intros Hoff Hheld.
  unfold Custom1Strategy.scout, Test1Scout.scout, bind, reads, lift, ret.
  destruct (Database.get_current_coin w) as [coin|]; [|reflexivity].
  rewrite (Hheld coin eq_refl), Hoff.
  destruct (Manager.get_ticker_price manager _) as [[price|]|e]; reflexivity.
Qed.

Lemma X28_scout_without_stop_loss_is_test1_scout_witness :
  let config := Config.mk Scenario.USDT 5 false 15 24 in
  Custom1Strategy.scout config Scenario.manager Scenario._get_ratios
    Scenario._jump_to_best_coin None Scenario.world
  = Test1Scout.scout config Scenario.manager Scenario._jump_to_best_coin Scenario.world.
Proof.
  intro config.
  apply (X28_scout_without_stop_loss_is_test1_scout config Scenario.manager
           Scenario._get_ratios Scenario._jump_to_best_coin None Scenario.world).
  - reflexivity.
  - intros coin H. vm_compute in H. injection H as <-. reflexivity.
Defined.

(** [random.choice] draws a member of a list that is not empty. *)
Lemma random_choice_in (random_index : nat) (seq : list string) :
  seq <> [] ->
  exists symbol,
    SharedStrategy.random_choice random_index seq = Ok symbol /\ In symbol seq.
Proof.
  destruct seq as [|x tl]; [congruence|]. intros _.
  exists (nth (random_index mod length (x :: tl)) (x :: tl) x). split; [reflexivity|].
  apply nth_In. apply Nat.mod_upper_bound. discriminate.
Qed.

(** [symbol in SUPPORTED_COIN_LIST], as the membership test computes it. *)
Lemma supported_symbol (symbol : string) (l : list string) :
  existsb (String.eqb symbol) l = true <-> In symbol l.
Proof.
  rewrite existsb_exists. split.
  - intros [x [Hin Heq]]. apply String.eqb_eq in Heq. now subst.
  - intro Hin. exists symbol. split; [exact Hin | apply String.eqb_refl].
Qed.

(** X29. Startup without a configured coin never ends in [sys.exit]:
    with no holding pointer yet, [CURRENT_COIN_SYMBOL] empty, a supported
    list that is not empty and a Coin row for every supported symbol, the
    pointer is set to a supported coin, one buy of that coin against the
    bridge is sent, and the pointer stays on the coin whatever the
    exchange answers - also when the buy comes back empty or raises. *)
Theorem X29_random_initial_coin_is_set_then_bought
  (config : Config.t) (manager : Manager.t)
  (SUPPORTED_COIN_LIST : list string) (random_index : nat) (w : World) :
  Database.get_current_coin w = None ->
  SUPPORTED_COIN_LIST <> [] ->
  (forall symbol,
      In symbol SUPPORTED_COIN_LIST ->
      exists coin, fst (Db.get_coin (inr symbol) w) = Ok coin) ->
  let r := SharedStrategy.initialize_current_coin
             config manager SUPPORTED_COIN_LIST "" random_index w in
  exists coin,
    In (Coin.symbol coin) SUPPORTED_COIN_LIST /\
    current_coin_history (snd r) = [coin] /\
    order_calls (snd r) = BuyAlt coin (Config.BRIDGE config) :: order_calls w /\
    fst r = match Manager.buy_alt manager coin (Config.BRIDGE config) with
            | Ok _ => Ok Returned
            | Raise e => Raise e
            end.
Proof.
  intros Hnone Hne Hrows r. subst r.
  destruct (random_choice_in random_index SUPPORTED_COIN_LIST Hne) as [symbol [Hdraw Hin]].
  destruct (Hrows symbol Hin) as [coin Hcoin].
  unfold SharedStrategy.initialize_current_coin, bind, reads, lift, ret, logger.
  rewrite Hnone. change ("" =? "")%string with true. cbv iota. rewrite Hdraw.
  cbv iota beta.
  rewrite (proj2 (supported_symbol symbol SUPPORTED_COIN_LIST) Hin). simpl negb. cbv iota.
  unfold Db.set_current_coin, bind.
  unfold Db.get_coin, bind, reads, ret, raise in Hcoin |- *. simpl in Hcoin |- *.
  destruct (find (fun c : Coin.t => (Coin.symbol c =? symbol)%string) (coins w))
    as [c|] eqn:Hfind; [|discriminate].
  simpl in Hcoin. injection Hcoin as ->.
  apply find_some in Hfind. destruct Hfind as [_ Hsym]. apply String.eqb_eq in Hsym.
  exists coin. unfold Database.set_current_coin, Database.get_current_coin, buy_alt. simpl.
  unfold Database.get_current_coin in Hnone.
  destruct (current_coin_history w) as [|c0 tl]; [|discriminate].
  split; [now rewrite Hsym|].
  destruct (Manager.buy_alt manager coin (Config.BRIDGE config)) as [o|e]; simpl; auto.
Qed.

Lemma X29_random_initial_coin_is_set_then_bought_witness :
  let w := mkWorld [Scenario.ETH; Scenario.BTC; Scenario.USDT] [] [] [] [] [] [] []
                   1000000%Z in
  let r := SharedStrategy.initialize_current_coin
             Scenario.config Scenario.manager_buy_fails ["ETH"; "BTC"] "" 7 w in
  exists coin,
    In (Coin.symbol coin) ["ETH"; "BTC"] /\
    current_coin_history (snd r) = [coin] /\
    order_calls (snd r) = BuyAlt coin (Config.BRIDGE Scenario.config) :: order_calls w /\
    fst r = match Manager.buy_alt Scenario.manager_buy_fails coin
                    (Config.BRIDGE Scenario.config) with
            | Ok _ => Ok Returned
            | Raise e => Raise e
            end.
Proof.
  intro w.
  apply (X29_random_initial_coin_is_set_then_bought Scenario.config
           Scenario.manager_buy_fails ["ETH"; "BTC"] 7 w).
  - reflexivity.
  - discriminate.
  - intros symbol [<-|[<-|[]]]; eexists; reflexivity.
Defined.

(** X30. Startup with a configured coin never sends an order.  With no
    holding pointer yet and [CURRENT_COIN_SYMBOL] not empty: a symbol
    outside the supported list ends the process and leaves the pointer
    unset; a supported symbol with a Coin row becomes the holding, without
    a purchase; a supported symbol without a Coin row raises, the pointer
    unset. *)
Theorem X30_configured_initial_coin_is_not_bought
  (config : Config.t) (manager : Manager.t)
  (SUPPORTED_COIN_LIST : list string) (CURRENT_COIN_SYMBOL : string)
  (random_index : nat) (w : World) :
  CURRENT_COIN_SYMBOL <> "" ->
  Database.get_current_coin w = None ->
  let r := SharedStrategy.initialize_current_coin
             config manager SUPPORTED_COIN_LIST CURRENT_COIN_SYMBOL random_index w in
  order_calls (snd r) = order_calls w /\
  (~ In CURRENT_COIN_SYMBOL SUPPORTED_COIN_LIST ->
   (exists message, fst r = Ok (SystemExit message)) /\
   current_coin_history (snd r) = []) /\
  (In CURRENT_COIN_SYMBOL SUPPORTED_COIN_LIST ->
   match find (fun c => String.eqb (Coin.symbol c) CURRENT_COIN_SYMBOL) (coins w) with
   | Some coin => fst r = Ok Returned /\ current_coin_history (snd r) = [coin]
   | None => fst r = Raise Db.UnmappedInstanceError /\ current_coin_history (snd r) = []
   end).
Proof.
  intros Hset Hnone r. subst r.
  apply String.eqb_neq in Hset.
  unfold SharedStrategy.initialize_current_coin, bind, reads, lift, ret, logger.
  rewrite Hnone, Hset. cbv iota beta.
  unfold Database.get_current_coin in Hnone.
  destruct (current_coin_history w) as [|c0 tl] eqn:Hhist; [|discriminate].
  destruct (existsb (String.eqb CURRENT_COIN_SYMBOL) SUPPORTED_COIN_LIST) eqn:Hmem; simpl.
  - apply supported_symbol in Hmem.
    unfold Db.set_current_coin, Db.get_coin, bind, reads, ret, raise. simpl.
    destruct (find (fun c : Coin.t => (Coin.symbol c =? CURRENT_COIN_SYMBOL)%string) (coins w))
      as [c|] eqn:Hfind; simpl.
    + unfold Database.set_current_coin. simpl. rewrite Hhist.
      split; [reflexivity|].
      split; [intro Hn; contradiction | intros _; split; reflexivity].
    + rewrite Hhist. split; [reflexivity|].
      split; [intro Hn; contradiction | intros _; split; reflexivity].
  - rewrite Hhist. split; [reflexivity|]. split.
    + intros _. split; [eexists; reflexivity | reflexivity].
    + intro Hin. apply supported_symbol in Hin. congruence.
Qed.

Lemma X30_configured_initial_coin_is_not_bought_witness :
  let w := mkWorld [Scenario.ETH; Scenario.BTC; Scenario.USDT] [] [] [] [] [] [] []
                   1000000%Z in
  let r := SharedStrategy.initialize_current_coin
             Scenario.config Scenario.manager ["ETH"; "BTC"] "BTC" 0 w in
  fst r = Ok Returned /\
  current_coin_history (snd r) = [Scenario.BTC] /\
  order_calls (snd r) = [].
Proof.
  intro w.
  pose proof (X30_configured_initial_coin_is_not_bought Scenario.config Scenario.manager
                ["ETH"; "BTC"] "BTC" 0 w) as H.
  simpl in H. 
  destruct H as [Horders [_ Hin]]; [discriminate | reflexivity |].
  specialize (Hin (or_intror (or_introl eq_refl))).
  destruct Hin as [Hr Hp]. repeat split; assumption.
Defined.

(* ================================================================== *)
(** * Binary64: facts about the order and the dictionaries             *)
(* ================================================================== *)






Lemma b64_py_div_ok (a b : float) :
  PrimFloat.eqb b 0 = false -> Binary64.py_div a b = Ok (PrimFloat.div a b).
Proof. intro H. unfold Binary64.py_div. now rewrite H. Qed.

Lemma b64_py_div_inv (a b c : float) :
  Binary64.py_div a b = Ok c -> PrimFloat.eqb b 0 = false /\ c = PrimFloat.div a b.
Proof.
  unfold Binary64.py_div. destruct (PrimFloat.eqb b 0); [discriminate|].
  intro H. injection H as <-. auto.
Qed.

Lemma b64_Pair_eqb_refl (p : Binary64.Pair.t) : Binary64.Pair.eqb p p = true.
Proof. unfold Binary64.Pair.eqb. apply Z.eqb_refl. Qed.

Lemma b64_dict_get_set_same (d : Binary64.RatioDict) (k : Binary64.Pair.t) (v : float) :
  Binary64.dict_get (Binary64.dict_set d k v) k = Some v.
Proof.
  induction d as [|[k' v'] tl IH]; simpl.
  - now rewrite b64_Pair_eqb_refl.
  - destruct (Binary64.Pair.eqb k' k) eqn:E; simpl; now rewrite E.
Qed.

Lemma b64_dict_get_set_other
  (d : Binary64.RatioDict) (k k' : Binary64.Pair.t) (v : float) :
  Binary64.Pair.eqb k k' = false ->
  Binary64.dict_get (Binary64.dict_set d k v) k' = Binary64.dict_get d k'.
Proof.
  intro Hne. induction d as [|[k0 v0] tl IH]; simpl.
  - now rewrite Hne.
  - destruct (Binary64.Pair.eqb k0 k) eqn:E; simpl.
    + destruct (Binary64.Pair.eqb k0 k') eqn:E'; [|reflexivity].
      unfold Binary64.Pair.eqb in *.
      apply Z.eqb_eq in E, E'. apply Z.eqb_neq in Hne. congruence.
    + destruct (Binary64.Pair.eqb k0 k'); [reflexivity | exact IH].
Qed.

Lemma b64_filter_keeps_unique_ids
  (f : Binary64.Pair.t -> bool) (l : list Binary64.Pair.t) :
  NoDup (map Binary64.Pair.id l) -> NoDup (map Binary64.Pair.id (filter f l)).
Proof.
  induction l as [|p tl IH]; simpl; intro H; [constructor|].
  inversion H as [|? ? Hnotin Hnd]; subst.
  destruct (f p); simpl; [|auto].
  constructor; [|auto].
  intro Hin. apply Hnotin. apply in_map_iff in Hin. destruct Hin as [q [Hq Hin]].
  apply filter_In in Hin. rewrite <- Hq. apply in_map. tauto.
Qed.

Lemma b64_get_pairs_from_unique_ids (coin : Coin.t) (w : Binary64.World) :
  NoDup (map Binary64.Pair.id (Binary64.pairs w)) ->
  NoDup (map Binary64.Pair.id (Binary64.Database.get_pairs_from coin true w)).
Proof.
  intro H. unfold Binary64.Database.get_pairs_from.
  now apply b64_filter_keeps_unique_ids, b64_filter_keeps_unique_ids.
Qed.

(* ================================================================== *)
(** * Binary64: the ratio engine                                       *)
(* ================================================================== *)

Section B64RatioEngine.

Variable config : Binary64.Config.t.
Variable manager : Binary64.Manager.t.

Lemma b64_quote_pure (pair : Binary64.Pair.t) (w : Binary64.World) :
  Binary64.Test1Strategy.quote config manager pair w
  = (Binary64.target_quote config manager pair, w).
Proof.
  unfold Binary64.Test1Strategy.quote, Binary64.target_quote.
  destruct (is_USDT (Binary64.Pair.to_coin pair)); [reflexivity|].
  unfold Binary64.bind, Binary64.lift, Binary64.ret.
  destruct (Binary64.Manager.get_ticker_price manager _); [|reflexivity].
  destruct (Binary64.Manager.get_fee manager _ _ false); reflexivity.
Qed.

(** One pass of the loop computes [score] and stores it under the pair. *)
Lemma b64_body_fst (coin_price cmt : float) (pair : Binary64.Pair.t)
  (d : Binary64.RatioDict) (w : Binary64.World) :
  fst (Binary64.Test1Strategy._get_ratios_body config manager coin_price cmt pair d w) =
  match Binary64.score config manager coin_price cmt pair with
  | Raise e => Raise e
  | Ok None => Ok d
  | Ok (Some s) => Ok (Binary64.dict_set d pair s)
  end.
Proof.
  unfold Binary64.Test1Strategy._get_ratios_body, Binary64.score, Binary64.bind.
  rewrite b64_quote_pure.
  destruct (Binary64.target_quote config manager pair) as [[[tp|] fee_out]|e]; simpl;
    try reflexivity.
  unfold Binary64.lift, Binary64.ret.
  destruct (Binary64.py_div coin_price tp); simpl; [|reflexivity].
  destruct (Binary64.Manager.get_fee manager _ _ true); simpl; [|reflexivity].
  destruct (Binary64.Test1Strategy.mt pair _ cmt); reflexivity.
Qed.

Lemma b64_loop_fst (coin_price cmt : float) (ps : list Binary64.Pair.t) :
  forall (d : Binary64.RatioDict) (w : Binary64.World),
    fst (Binary64.for_each ps
           (Binary64.Test1Strategy._get_ratios_body config manager coin_price cmt) d w)
    = Binary64.ratios_of config manager coin_price cmt ps d.
Proof.
  induction ps as [|p tl IH]; intros d w; simpl; [reflexivity|].
  unfold Binary64.bind.
  pose proof (b64_body_fst coin_price cmt p d w) as Hb.
  destruct (Binary64.Test1Strategy._get_ratios_body config manager coin_price cmt p d w)
    as [[d1|e] w1]; simpl in Hb.
  - destruct (Binary64.score config manager coin_price cmt p) as [[s|]|e];
      try discriminate; injection Hb as ->; apply IH.
  - destruct (Binary64.score config manager coin_price cmt p) as [[s|]|e'];
      try discriminate.
    simpl. congruence.
Qed.

Lemma b64_get_ratios_fst (coin : Coin.t) (coin_price : float) (w : Binary64.World) :
  fst (Binary64.Test1Strategy._get_ratios config manager coin coin_price w)
  = Binary64.ratios_of config manager coin_price
      (Binary64.Test1Strategy.cmt config coin)
      (Binary64.Database.get_pairs_from coin true w) [].
Proof.
  unfold Binary64.Test1Strategy._get_ratios, Binary64.bind, Binary64.reads.
  apply b64_loop_fst.
Qed.

(** Pairs other than [k] leave the entry of [k] alone. *)
Lemma b64_ratios_of_frame (coin_price cmt : float) (k : Binary64.Pair.t)
  (ps : list Binary64.Pair.t) :
  forall d d',
    Binary64.ratios_of config manager coin_price cmt ps d = Ok d' ->
    (forall p, In p ps -> Binary64.Pair.eqb p k = false) ->
    Binary64.dict_get d' k = Binary64.dict_get d k.
Proof.
  induction ps as [|p tl IH]; simpl; intros d d' H Hne.
  - now injection H as <-.
  - destruct (Binary64.score config manager coin_price cmt p) as [[s|]|e];
      try discriminate.
    + rewrite (IH _ _ H) by auto. apply b64_dict_get_set_other. auto.
    + apply (IH _ _ H). auto.
Qed.

(** Every pair of the loop whose pass stores a score keeps it to the end,
    provided row ids are unique. *)
Lemma b64_ratios_of_get (coin_price cmt : float) (ps : list Binary64.Pair.t) :
  NoDup (map Binary64.Pair.id ps) ->
  forall d d' k s,
    Binary64.ratios_of config manager coin_price cmt ps d = Ok d' ->
    In k ps ->
    Binary64.score config manager coin_price cmt k = Ok (Some s) ->
    Binary64.dict_get d' k = Some s.
Proof.
  induction ps as [|p tl IH]; simpl; intros Hnd d d' k s H Hin Hs; [contradiction|].
  inversion Hnd as [|? ? Hnotin Hnd']; subst.
  destruct Hin as [->|Hin].
  - rewrite Hs in H.
    rewrite (b64_ratios_of_frame _ _ k _ _ _ H).
    + apply b64_dict_get_set_same.
    + intros q Hq. unfold Binary64.Pair.eqb. apply Z.eqb_neq. intro Heq.
      apply Hnotin. rewrite <- Heq. now apply in_map.
  - destruct (Binary64.score config manager coin_price cmt p) as [[sp|]|e];
      try discriminate; eapply IH; eauto.
Qed.

(** When the loop ends without raising, no pass raised. *)
Lemma b64_ratios_of_ok_score (coin_price cmt : float) (ps : list Binary64.Pair.t) :
  forall d d' k,
    Binary64.ratios_of config manager coin_price cmt ps d = Ok d' ->
    In k ps ->
    exists r, Binary64.score config manager coin_price cmt k = Ok r.
Proof.
  induction ps as [|p tl IH]; simpl; intros d d' k H Hin; [contradiction|].
  destruct (Binary64.score config manager coin_price cmt p) as [[sp|]|e] eqn:E;
    try discriminate.
  - destruct Hin as [<-|Hin]; [eauto | eapply IH; eauto].
  - destruct Hin as [<-|Hin]; [eauto | eapply IH; eauto].
Qed.

End B64RatioEngine.

(** C1 (as amended). For every pair [_get_ratios] evaluates whose target
    price resolves, the score stored for the pair is the binary64 value of
    [cross_ratio * (1 - transaction_fee * mt) - pair.ratio] with
    [cross_ratio = coin_price / target_price], every operation rounded to
    the nearest float: one pass of the loop stores it whenever no divisor
    is zero, and a call that returns holds it for every such pair (row ids
    being unique).  With ETH held at 2000, BTC at 40000, [pair.ratio] 0.05,
    a fee of 0.001 per leg and sensitivity 5 the score is
    -0.0005000000000000004: negative, so no rotation. *)
Theorem C1_score_formula :
  (forall (config : Binary64.Config.t) (manager : Binary64.Manager.t)
          (coin_price cmt : float) (pair : Binary64.Pair.t)
          (ratio_dict : Binary64.RatioDict) (w : Binary64.World)
          (target_price fee_out fee_in mt : float),
      Binary64.target_quote config manager pair = Ok (Some target_price, fee_out) ->
      PrimFloat.eqb target_price 0 = false ->
      Binary64.Manager.get_fee manager (Binary64.Pair.from_coin pair)
        (Binary64.Config.BRIDGE config) true = Ok fee_in ->
      Binary64.Test1Strategy.mt pair (fee_in + fee_out)%float cmt = Ok mt ->
      let cross_ratio := (coin_price / target_price)%float in
      let transaction_fee := (fee_in + fee_out)%float in
      fst (Binary64.Test1Strategy._get_ratios_body
             config manager coin_price cmt pair ratio_dict w)
      = Ok (Binary64.dict_set ratio_dict pair
              (cross_ratio * (1 - transaction_fee * mt)
               - Binary64.Pair.ratio pair)%float))
  /\
  (forall (config : Binary64.Config.t) (manager : Binary64.Manager.t) (coin : Coin.t)
          (coin_price : float) (w : Binary64.World) (ratio_dict : Binary64.RatioDict)
          (pair : Binary64.Pair.t) (target_price fee_out : float),
      NoDup (map Binary64.Pair.id (Binary64.pairs w)) ->
      fst (Binary64.Test1Strategy._get_ratios config manager coin coin_price w)
      = Ok ratio_dict ->
      In pair (Binary64.Database.get_pairs_from coin true w) ->
      Binary64.target_quote config manager pair = Ok (Some target_price, fee_out) ->
      exists fee_in mt,
        Binary64.Manager.get_fee manager (Binary64.Pair.from_coin pair)
          (Binary64.Config.BRIDGE config) true = Ok fee_in /\
        Binary64.Test1Strategy.mt pair (fee_in + fee_out)%float
          (Binary64.Test1Strategy.cmt config coin) = Ok mt /\
        let cross_ratio := (coin_price / target_price)%float in
        let transaction_fee := (fee_in + fee_out)%float in
        Binary64.dict_get ratio_dict pair
        = Some (cross_ratio * (1 - transaction_fee * mt)
                - Binary64.Pair.ratio pair)%float)
  /\
  (fst (Binary64.Test1Strategy._get_ratios Binary64.Scenario.config
          Binary64.Scenario.manager Binary64.Scenario.ETH 2000%float
          Binary64.Scenario.world)
   = Ok [(Binary64.Scenario.ETH_BTC, (-0.0005000000000000004)%float)] /\
   ((2000 / 40000) * (1 - (0.001 + 0.001) * 5) - 0.05)%float
   = (-0.0005000000000000004)%float /\
   PrimFloat.ltb (-0.0005000000000000004)%float 0%float = true).
Proof.
  split; [|split].
  - intros config manager coin_price cmt pair d w tp fo fi m Hq Htp Hfee Hmt.
    simpl. rewrite b64_body_fst. unfold Binary64.score.
    rewrite Hq, (b64_py_div_ok _ _ Htp), Hfee, Hmt. reflexivity.
  - intros config manager coin coin_price w d pair tp fo Hnd Hok Hin Hq.
    rewrite b64_get_ratios_fst in Hok.
    destruct (b64_ratios_of_ok_score _ _ _ _ _ _ _ pair Hok Hin) as [r Hr].
    pose proof Hr as Hs. unfold Binary64.score in Hs. rewrite Hq in Hs.
    destruct (Binary64.py_div coin_price tp) as [cross|e] eqn:Hdiv; [|discriminate].
    apply b64_py_div_inv in Hdiv. destruct Hdiv as [_ ->].
    destruct (Binary64.Manager.get_fee manager (Binary64.Pair.from_coin pair)
                (Binary64.Config.BRIDGE config) true) as [fi|e] eqn:Hfi; [|discriminate].
    destruct (Binary64.Test1Strategy.mt pair (fi + fo)%float
                (Binary64.Test1Strategy.cmt config coin)) as [m|e] eqn:Hm; [|discriminate].
    exists fi, m. split; [reflexivity|]. split; [exact Hm|]. simpl.
    injection Hs as <-.
    apply (b64_ratios_of_get config manager coin_price
             (Binary64.Test1Strategy.cmt config coin)
             (Binary64.Database.get_pairs_from coin true w)) with (d := []); auto.
    now apply b64_get_pairs_from_unique_ids.
  - split; [vm_compute; reflexivity|]. split; vm_compute; reflexivity.
Qed.

(** C1, at the scenario: the dictionary [_get_ratios] returns for ETH holds
    the value of the formula for the pair ETH -> BTC. *)
Lemma C1_score_formula_witness :
  exists fee_in mt,
    Binary64.Manager.get_fee Binary64.Scenario.manager Binary64.Scenario.ETH
      Binary64.Scenario.USDT true = Ok fee_in /\
    Binary64.Test1Strategy.mt Binary64.Scenario.ETH_BTC (fee_in + 0.001)%float
      (Binary64.Test1Strategy.cmt Binary64.Scenario.config Binary64.Scenario.ETH)
    = Ok mt /\
    Binary64.dict_get [(Binary64.Scenario.ETH_BTC, (-0.0005000000000000004)%float)]
      Binary64.Scenario.ETH_BTC
    = Some (2000 / 40000 * (1 - (fee_in + 0.001) * mt) - 0.05)%float.
Proof.
  destruct C1_score_formula as [_ [H _]].
  apply (H Binary64.Scenario.config Binary64.Scenario.manager Binary64.Scenario.ETH
           2000%float Binary64.Scenario.world
           [(Binary64.Scenario.ETH_BTC, (-0.0005000000000000004)%float)]
           Binary64.Scenario.ETH_BTC 40000%float 0.001%float).
  - vm_compute. repeat constructor. intros [].
  - vm_compute. reflexivity.
  - vm_compute. auto.
  - vm_compute. reflexivity.
Defined.

(** C1 as stated fails: at the scenario the score the code computes is not
    -0.0005.  It is the float next but one below it,
    -0.0005000000000000004, while the formula has the value -0.0005 in
    exact arithmetic. *)
Lemma C1_scenario_score_is_not_exact :
  fst (Binary64.Test1Strategy._get_ratios Binary64.Scenario.config
         Binary64.Scenario.manager Binary64.Scenario.ETH 2000%float
         Binary64.Scenario.world)
  = Ok [(Binary64.Scenario.ETH_BTC, (-0.0005000000000000004)%float)] /\
  PrimFloat.eqb (-0.0005000000000000004)%float (-0.0005)%float = false /\
  PrimFloat.ltb (-0.0005000000000000004)%float (-0.0005)%float = true /\
  (2000 / 40000) * (1 - 0.002 * 5) - 0.05 == -0.0005.
Proof. repeat split; vm_compute; reflexivity. Qed.

(* ================================================================== *)
(** * Binary64: the sell guard and the stop-loss monitor               *)
(* ================================================================== *)

Section B64StopLoss.

Variable config : Binary64.Config.t.
Variable manager : Binary64.Manager.t.

(** [_execute_stop_loss] catches whatever is raised inside it. *)
Lemma b64_execute_stop_loss_returns (coin : Coin.t) (w : Binary64.World) :
  exists b,
    fst (Binary64.Custom1Strategy._execute_stop_loss config manager coin w) = Ok b.
Proof.
  unfold Binary64.Custom1Strategy._execute_stop_loss, Binary64.try_except.
  match goal with
  | |- context [match ?m w with _ => _ end] => destruct (m w) as [[b|e] w1]
  end; simpl; eauto.
Qed.

Lemma b64_execute_stop_loss_no_balance
  (coin : Coin.t) (w : Binary64.World) (balance : float) :
  Binary64.Manager.get_currency_balance manager (Coin.symbol coin) = Ok balance ->
  PrimFloat.leb balance 0 = true ->
  Binary64.Custom1Strategy._execute_stop_loss config manager coin w
  = (Ok false, Binary64.with_log (no_balance :: Binary64.log w) w).
Proof.
  intros Hb Hle.
  unfold Binary64.Custom1Strategy._execute_stop_loss, Binary64.try_except,
    Binary64.bind, Binary64.lift.
  rewrite Hb, Hle. reflexivity.
Qed.

Lemma b64_execute_stop_loss_too_small
  (coin : Coin.t) (w : Binary64.World) (balance current_price min_notional : float) :
  Binary64.Manager.get_currency_balance manager (Coin.symbol coin) = Ok balance ->
  Binary64.Manager.get_ticker_price manager
    (Coin.add coin (Binary64.Config.BRIDGE config)) = Ok (Some current_price) ->
  Binary64.Manager.get_min_notional manager
    (Coin.symbol coin) (Coin.symbol (Binary64.Config.BRIDGE config)) = Ok min_notional ->
  PrimFloat.leb balance 0 = false ->
  PrimFloat.ltb (balance * current_price)%float min_notional = true ->
  Binary64.Custom1Strategy._execute_stop_loss config manager coin w
  = (Ok false, Binary64.with_log (balance_too_small :: Binary64.log w) w).
Proof.
  intros Hb Hp Hm Hpos Hlt.
  unfold Binary64.Custom1Strategy._execute_stop_loss, Binary64.try_except,
    Binary64.bind, Binary64.lift.
  rewrite Hb, Hpos, Hp, Hm. simpl. rewrite Hlt. reflexivity.
Qed.

(** With a balance that is positive and worth the minimum notional or
    more, as the code computes it, the sell order is sent. *)
Lemma b64_execute_stop_loss_sells
  (coin : Coin.t) (w : Binary64.World) (balance current_price min_notional : float) :
  Binary64.Manager.get_currency_balance manager (Coin.symbol coin) = Ok balance ->
  Binary64.Manager.get_ticker_price manager
    (Coin.add coin (Binary64.Config.BRIDGE config)) = Ok (Some current_price) ->
  Binary64.Manager.get_min_notional manager
    (Coin.symbol coin) (Coin.symbol (Binary64.Config.BRIDGE config)) = Ok min_notional ->
  PrimFloat.leb balance 0 = false ->
  PrimFloat.ltb (balance * current_price)%float min_notional = false ->
  In (SellAlt coin (Binary64.Config.BRIDGE config))
     (Binary64.order_calls
        (snd (Binary64.Custom1Strategy._execute_stop_loss config manager coin w))).
Proof.
  intros Hb Hp Hm Hpos Hlt.
  unfold Binary64.Custom1Strategy._execute_stop_loss, Binary64.try_except,
    Binary64.bind, Binary64.lift, Binary64.ret, Binary64.logger, Binary64.reads,
    Binary64.sell_alt, Binary64.buy_alt, Binary64.Database.set_current_coin.
  rewrite Hb, Hpos, Hp, Hm. simpl. rewrite Hlt. simpl.
  split_calls; simpl; auto.
Qed.

(** The test of [_check_trailing_stop_loss] once the recent high is known. *)
Lemma b64_check_trailing_stop_loss_resolved
  (coin : Coin.t) (current_price : float) (ct : option Z) (w w1 : Binary64.World)
  (recent_high : float) :
  is_USDT coin = false ->
  Binary64.Custom1Strategy._get_recent_high_price config manager coin ct w
  = (Ok (Some recent_high), w1) ->
  PrimFloat.eqb recent_high 0 = false ->
  Binary64.Custom1Strategy._check_trailing_stop_loss config manager coin current_price ct w =
  if PrimFloat.leb (Binary64.Config.STOP_LOSS_PERCENTAGE config)
       ((recent_high - current_price) / recent_high * 100)%float
  then Binary64.Custom1Strategy._execute_stop_loss config manager coin w1
  else (Ok false, w1).
Proof.
  intros Hc Hrh Hnz.
  unfold Binary64.Custom1Strategy._check_trailing_stop_loss, Binary64.try_except,
    Binary64.bind.
  rewrite Hc, Hrh.
  unfold Binary64.lift, Binary64.Custom1Strategy.price_drop_percentage.
  rewrite (b64_py_div_ok _ _ Hnz).
  destruct (PrimFloat.leb _ _); [|reflexivity].
  destruct (b64_execute_stop_loss_returns coin w1) as [b Hb].
  destruct (Binary64.Custom1Strategy._execute_stop_loss config manager coin w1) as [r w2].
  simpl in Hb. subst r. reflexivity.
Qed.

(** A cycle whose stop-loss check returns [False] goes on to
    [_jump_to_best_coin], with the price the cycle fetched first. *)
Lemma b64_scout_continues
  (py_sum : list float -> float)
  (_get_ratios : Coin.t -> float -> Binary64.M Binary64.RatioDict)
  (_jump_to_best_coin : Coin.t -> float -> Binary64.M unit)
  (ct : option Z) (w w2 : Binary64.World) (coin : Coin.t) (current_coin_price : float) :
  Binary64.Database.get_current_coin w = Some coin ->
  is_USDT coin = false ->
  Binary64.Manager.get_ticker_price manager
    (Coin.add coin (Binary64.Config.BRIDGE config)) = Ok (Some current_coin_price) ->
  Binary64.Config.STOP_LOSS_ENABLED config = true ->
  Binary64.Custom1Strategy._check_trailing_stop_loss
    config manager coin current_coin_price ct w = (Ok false, w2) ->
  Binary64.Custom1Strategy.scout config manager py_sum _get_ratios _jump_to_best_coin ct w
  = _jump_to_best_coin coin current_coin_price w2.
Proof.
  intros Hcur Hc Hp Hen Hchk.
  unfold Binary64.Custom1Strategy.scout, Binary64.bind, Binary64.reads, Binary64.lift.
  rewrite Hcur, Hc, Hp, Hen, Hchk.
  destruct (_jump_to_best_coin coin current_coin_price w2) as [[[]|e] w3]; reflexivity.
Qed.

End B64StopLoss.

(** C6 (as amended). For a held coin other than USDT whose recent high is
    resolved (and not zero), [_check_trailing_stop_loss] runs the
    liquidation [_execute_stop_loss] exactly when the drop computed in
    binary64, [((recent_high - current_price) / recent_high) * 100] with
    every operation rounded, is at least [STOP_LOSS_PERCENTAGE], and
    otherwise returns [False] with no further effect.  With a recent high
    of 100, a current price of 80 and a threshold of 15% the computed drop
    is 20 and the coin is sold. *)
Theorem C6_stop_loss_trips :
  (forall (config : Binary64.Config.t) (manager : Binary64.Manager.t) (coin : Coin.t)
          (current_price : float) (ct : option Z) (w w1 : Binary64.World)
          (recent_high : float),
      is_USDT coin = false ->
      Binary64.Custom1Strategy._get_recent_high_price config manager coin ct w
      = (Ok (Some recent_high), w1) ->
      PrimFloat.eqb recent_high 0 = false ->
      let drop_pct := ((recent_high - current_price) / recent_high * 100)%float in
      let c := Binary64.Custom1Strategy._check_trailing_stop_loss
                 config manager coin current_price ct w in
      Binary64.Custom1Strategy.price_drop_percentage recent_high current_price
      = Ok drop_pct /\
      (PrimFloat.leb (Binary64.Config.STOP_LOSS_PERCENTAGE config) drop_pct = true ->
       c = Binary64.Custom1Strategy._execute_stop_loss config manager coin w1) /\
      (PrimFloat.leb (Binary64.Config.STOP_LOSS_PERCENTAGE config) drop_pct = false ->
       c = (Ok false, w1)))
  /\
  (let manager := Binary64.Scenario.manager_at 80 1 in
   Binary64.Custom1Strategy._get_recent_high_price
     Binary64.Scenario.config manager Binary64.Scenario.ETH None
     Binary64.Scenario.world_high_100
   = (Ok (Some 100%float), Binary64.Scenario.world_high_100) /\
   Binary64.Custom1Strategy.price_drop_percentage 100 80 = Ok 20%float /\
   let c := Binary64.Custom1Strategy._check_trailing_stop_loss
              Binary64.Scenario.config manager Binary64.Scenario.ETH 80 None
              Binary64.Scenario.world_high_100 in
   c = Binary64.Custom1Strategy._execute_stop_loss
         Binary64.Scenario.config manager Binary64.Scenario.ETH
         Binary64.Scenario.world_high_100 /\
   fst c = Ok true /\
   Binary64.order_calls (snd c)
   = [SellAlt Binary64.Scenario.ETH Binary64.Scenario.USDT] /\
   Binary64.current_coin_history (snd c)
   = [Binary64.Scenario.USDT; Binary64.Scenario.ETH]).
Proof.
  split.
  - intros config manager coin current_price ct w w1 recent_high Hc Hrh Hnz drop_pct c.
    subst c drop_pct.
    rewrite (b64_check_trailing_stop_loss_resolved config manager coin current_price ct
               w w1 recent_high Hc Hrh Hnz).
    split; [|split].
    + unfold Binary64.Custom1Strategy.price_drop_percentage.
      now rewrite (b64_py_div_ok _ _ Hnz).
    + intro Hle. now rewrite Hle.
    + intro Hlt. now rewrite Hlt.
  - vm_compute. repeat split.
Qed.

(** C6, at the scenario: a recent high of 100 against a price of 80. *)
Lemma C6_stop_loss_trips_witness :
  Binary64.Custom1Strategy._check_trailing_stop_loss
    Binary64.Scenario.config (Binary64.Scenario.manager_at 80 1) Binary64.Scenario.ETH
    80 None Binary64.Scenario.world_high_100
  = Binary64.Custom1Strategy._execute_stop_loss
      Binary64.Scenario.config (Binary64.Scenario.manager_at 80 1) Binary64.Scenario.ETH
      Binary64.Scenario.world_high_100.
Proof.
  destruct C6_stop_loss_trips as [H _].
  destruct (H Binary64.Scenario.config (Binary64.Scenario.manager_at 80 1)
              Binary64.Scenario.ETH 80%float None
              Binary64.Scenario.world_high_100 Binary64.Scenario.world_high_100 100%float)
    as [_ [Htrip _]].
  - reflexivity.
  - vm_compute. reflexivity.
  - vm_compute. reflexivity.
  - apply Htrip. vm_compute. reflexivity.
Defined.

(** C6 as stated fails: a drop that reaches the threshold in exact
    arithmetic can stay below it as computed.  With a recent high of 100, a
    price of 71 and a threshold of 29% - three numbers binary64 holds
    exactly - the drop [(100 - 71) / 100 * 100] is 29, but the code computes
    28.999999999999996, returns [False] and sends no order. *)
Lemma C6_rounding_misses_the_threshold :
  Binary64.exact 100 = Some 100 /\
  Binary64.exact 71 = Some 71 /\
  Binary64.exact 29 = Some 29 /\
  29 <= (100 - 71) / 100 * 100 /\
  Binary64.Custom1Strategy.price_drop_percentage 100 71
  = Ok 28.999999999999996%float /\
  PrimFloat.leb 29 28.999999999999996 = false /\
  (let config := Binary64.Scenario.config_at 29 in
   let manager := Binary64.Scenario.manager_at 71 1 in
   Binary64.Custom1Strategy._get_recent_high_price
     config manager Binary64.Scenario.ETH None Binary64.Scenario.world_high_100
   = (Ok (Some 100%float), Binary64.Scenario.world_high_100) /\
   Binary64.Custom1Strategy._check_trailing_stop_loss
     config manager Binary64.Scenario.ETH 71 None Binary64.Scenario.world_high_100
   = (Ok false, Binary64.Scenario.world_high_100)).
Proof.
  split; [vm_compute; reflexivity|].
  split; [vm_compute; reflexivity|].
  split; [vm_compute; reflexivity|].
  split; [vm_compute; discriminate|].
  split; [vm_compute; reflexivity|].
  split; [vm_compute; reflexivity|].
  vm_compute. split; reflexivity.
Qed.

(** C8 (as amended). [_execute_stop_loss] sends no order and returns
    [False] after one INFO line - no error is logged, nothing else changes
    - whenever the balance of the held coin is zero or less, or the product
    of the balance and the current price, as computed in binary64, is
    below the minimum notional; the scouting cycle then goes on to
    [_jump_to_best_coin].  When the computed product is not below the
    minimum, the sell order is sent. *)
Theorem C8_liquidation_noop
  (config : Binary64.Config.t) (manager : Binary64.Manager.t)
  (py_sum : list float -> float)
  (_get_ratios : Coin.t -> float -> Binary64.M Binary64.RatioDict)
  (_jump_to_best_coin : Coin.t -> float -> Binary64.M unit)
  (coin : Coin.t) :
  (forall w balance,
      Binary64.Manager.get_currency_balance manager (Coin.symbol coin) = Ok balance ->
      PrimFloat.leb balance 0 = true ->
      let r := Binary64.Custom1Strategy._execute_stop_loss config manager coin w in
      r = (Ok false, Binary64.with_log (no_balance :: Binary64.log w) w) /\
      Binary64.order_calls (snd r) = Binary64.order_calls w /\
      Binary64.current_coin_history (snd r) = Binary64.current_coin_history w /\
      level no_balance = INFO)
  /\
  (forall w balance current_price min_notional,
      Binary64.Manager.get_currency_balance manager (Coin.symbol coin) = Ok balance ->
      Binary64.Manager.get_ticker_price manager
        (Coin.add coin (Binary64.Config.BRIDGE config)) = Ok (Some current_price) ->
      Binary64.Manager.get_min_notional manager
        (Coin.symbol coin) (Coin.symbol (Binary64.Config.BRIDGE config))
      = Ok min_notional ->
      PrimFloat.leb balance 0 = false ->
      (PrimFloat.ltb (balance * current_price)%float min_notional = true ->
       let r := Binary64.Custom1Strategy._execute_stop_loss config manager coin w in
       r = (Ok false, Binary64.with_log (balance_too_small :: Binary64.log w) w) /\
       Binary64.order_calls (snd r) = Binary64.order_calls w /\
       Binary64.current_coin_history (snd r) = Binary64.current_coin_history w /\
       level balance_too_small = INFO) /\
      (PrimFloat.ltb (balance * current_price)%float min_notional = false ->
       In (SellAlt coin (Binary64.Config.BRIDGE config))
          (Binary64.order_calls
             (snd (Binary64.Custom1Strategy._execute_stop_loss config manager coin w)))))
  /\
  (forall ct w w1 w2 current_coin_price recent_high,
      Binary64.Database.get_current_coin w = Some coin ->
      is_USDT coin = false ->
      Binary64.Manager.get_ticker_price manager
        (Coin.add coin (Binary64.Config.BRIDGE config)) = Ok (Some current_coin_price) ->
      Binary64.Config.STOP_LOSS_ENABLED config = true ->
      Binary64.Custom1Strategy._get_recent_high_price config manager coin ct w
      = (Ok (Some recent_high), w1) ->
      PrimFloat.eqb recent_high 0 = false ->
      PrimFloat.leb (Binary64.Config.STOP_LOSS_PERCENTAGE config)
        ((recent_high - current_coin_price) / recent_high * 100)%float = true ->
      Binary64.Custom1Strategy._execute_stop_loss config manager coin w1 = (Ok false, w2) ->
      Binary64.Custom1Strategy.scout
        config manager py_sum _get_ratios _jump_to_best_coin ct w
      = _jump_to_best_coin coin current_coin_price w2).
Proof.
  split; [|split].
  - intros w balance Hb Hle r. subst r.
    rewrite (b64_execute_stop_loss_no_balance config manager coin w balance Hb Hle).
    simpl. auto.
  - intros w balance current_price min_notional Hb Hp Hm Hpos. split.
    + intros Hlt r. subst r.
      rewrite (b64_execute_stop_loss_too_small config manager coin w balance current_price
                 min_notional Hb Hp Hm Hpos Hlt).
      simpl. auto.
    + intro Hge.
      exact (b64_execute_stop_loss_sells config manager coin w balance current_price
               min_notional Hb Hp Hm Hpos Hge).
  - intros ct w w1 w2 cp rh Hcur Hc Hp Hen Hrh Hnz Hle Hex.
    apply (b64_scout_continues config manager py_sum _get_ratios _jump_to_best_coin
             ct w w2 coin cp Hcur Hc Hp Hen).
    rewrite (b64_check_trailing_stop_loss_resolved config manager coin cp ct w w1 rh
               Hc Hrh Hnz).
    now rewrite Hle.
Qed.

(** C8, at the scenario: 0.001 ETH at 2000 is below the minimum notional
    of 10. *)
Lemma C8_liquidation_noop_witness :
  let manager := Binary64.Scenario.manager_at 2000 0.001 in
  let r := Binary64.Custom1Strategy._execute_stop_loss
             Binary64.Scenario.config manager Binary64.Scenario.ETH
             Binary64.Scenario.world in
  r = (Ok false,
       Binary64.with_log (balance_too_small :: Binary64.log Binary64.Scenario.world)
         Binary64.Scenario.world) /\
  Binary64.order_calls (snd r) = [] /\
  Binary64.current_coin_history (snd r) = [Binary64.Scenario.ETH] /\
  level balance_too_small = INFO.
Proof.
  intro manager.
  refine (proj1 (proj1 (proj2 (C8_liquidation_noop Binary64.Scenario.config manager
                          Binary64.Scenario.py_sum Binary64.Scenario._get_ratios
                          Binary64.Scenario._jump_to_best_coin Binary64.Scenario.ETH))
            Binary64.Scenario.world 0.001%float 2000%float 10%float _ _ _ _) _);
    reflexivity.
Defined.

(** C8 as stated fails: a holding worth less than the minimum notional can
    be sold.  The balance 0.3333333333333333 at a price of 30 is worth less
    than the minimum notional 10 - the three floats taken at their exact
    value - but the product the code computes is rounded to 10.0, the
    guard does not hold, and the sell order is sent. *)
Lemma C8_rounding_sells_below_the_minimum :
  (exists balance,
      Binary64.exact 0.3333333333333333 = Some balance /\
      Binary64.exact 30 = Some 30 /\
      Binary64.exact 10 = Some 10 /\
      balance * 30 < 10) /\
  (0.3333333333333333 * 30)%float = 10%float /\
  (let manager := Binary64.Scenario.manager_at 30 0.3333333333333333 in
   let r := Binary64.Custom1Strategy._execute_stop_loss
              Binary64.Scenario.config manager Binary64.Scenario.ETH
              Binary64.Scenario.world in
   fst r = Ok true /\
   Binary64.order_calls (snd r)
   = [SellAlt Binary64.Scenario.ETH Binary64.Scenario.USDT] /\
   Binary64.current_coin_history (snd r)
   = [Binary64.Scenario.USDT; Binary64.Scenario.ETH]).
Proof.
  split; [|split].
  - eexists. repeat split; vm_compute; reflexivity.
  - vm_compute. reflexivity.
  - vm_compute. repeat split.
Qed.

Section B64SellGuard.

Variable config : Binary64.Config.t.
Variable manager : Binary64.Manager.t.

(** [can_sell] either holds and leaves the world alone, or fails to hold and
    logs the skipped sell, or raises before any effect. *)
Lemma b64_can_sell_cases (pair : Binary64.Pair.t) (w : Binary64.World) :
  Binary64.Test1Strategy.can_sell config manager pair w = (Ok true, w) \/
  Binary64.Test1Strategy.can_sell config manager pair w
    = (Ok false, Binary64.with_log (skipping_sell :: Binary64.log w) w) \/
  exists e, Binary64.Test1Strategy.can_sell config manager pair w = (Raise e, w).
Proof.
  unfold Binary64.Test1Strategy.can_sell, Binary64.bind, Binary64.lift, Binary64.ret,
    Binary64.logger.
  destruct (Binary64.Manager.get_currency_balance manager _) as [balance|e]; [|eauto].
  destruct (Binary64.Manager.get_ticker_price manager _) as [price|e]; [|eauto].
  destruct (negb (is_USDT (Binary64.Pair.from_coin pair)) && Binary64.truthy balance);
    [|auto].
  destruct (Binary64.py_mul_opt balance price) as [notional|e]; [|eauto].
  destruct (Binary64.Manager.get_min_notional manager _ _) as [min_notional|e]; [|eauto].
  destruct (PrimFloat.ltb min_notional notional); auto.
Qed.

Lemma b64_can_sell_guard (pair : Binary64.Pair.t) (w : Binary64.World) :
  fst (Binary64.Test1Strategy.can_sell config manager pair w) = Ok true ->
  is_USDT (Binary64.Pair.from_coin pair) = false /\
  exists balance price min_notional,
    Binary64.Manager.get_currency_balance manager
      (Coin.symbol (Binary64.Pair.from_coin pair)) = Ok balance /\
    Binary64.Manager.get_ticker_price manager
      (Coin.add (Binary64.Pair.from_coin pair) (Binary64.Config.BRIDGE config))
    = Ok (Some price) /\
    Binary64.Manager.get_min_notional manager
      (Coin.symbol (Binary64.Pair.from_coin pair))
      (Coin.symbol (Binary64.Config.BRIDGE config)) = Ok min_notional /\
    PrimFloat.eqb balance 0 = false /\
    PrimFloat.ltb min_notional (balance * price)%float = true.
Proof.
  unfold Binary64.Test1Strategy.can_sell, Binary64.bind, Binary64.lift, Binary64.ret,
    Binary64.logger.
  destruct (Binary64.Manager.get_currency_balance manager _) as [balance|e];
    [|discriminate].
  destruct (Binary64.Manager.get_ticker_price manager _) as [price|e]; [|discriminate].
  destruct (is_USDT (Binary64.Pair.from_coin pair)); simpl; [discriminate|].
  destruct (Binary64.truthy balance) eqn:Hb; simpl; [|discriminate].
  destruct price as [price|]; simpl; [|discriminate].
  destruct (Binary64.Manager.get_min_notional manager _ _) as [min_notional|e];
    [|discriminate].
  destruct (PrimFloat.ltb min_notional (balance * price)%float) eqn:Hlt; simpl;
    [|discriminate].
  intros _. split; [reflexivity|].
  exists balance, price, min_notional.
  split; [reflexivity|]. split; [reflexivity|]. split; [reflexivity|].
  split; [|exact Hlt].
  unfold Binary64.truthy in Hb. now apply negb_true_iff in Hb.
Qed.

End B64SellGuard.

(** X14. The sell leg of [transaction_through_bridge] is taken exactly
    when the source is not USDT, its balance is known and not zero, its
    price resolves, and the product of balance and price, as computed in
    binary64, compares greater than the minimum notional; when it is not
    taken (and nothing raised) the only effect is the log line "Skipping
    sell".  The product is rounded before it is compared: 0.007853793775083055
    of a coin at 1273.27 is worth more than the minimum notional 10, the
    floats taken at their exact value, and the sell is skipped. *)
Theorem X14_sell_leg_guard
  (config : Binary64.Config.t) (manager : Binary64.Manager.t)
  (pair : Binary64.Pair.t) (w : Binary64.World) :
  (fst (Binary64.Test1Strategy.can_sell config manager pair w) = Ok true <->
   is_USDT (Binary64.Pair.from_coin pair) = false /\
   exists balance price min_notional,
     Binary64.Manager.get_currency_balance manager
       (Coin.symbol (Binary64.Pair.from_coin pair)) = Ok balance /\
     Binary64.Manager.get_ticker_price manager
       (Coin.add (Binary64.Pair.from_coin pair) (Binary64.Config.BRIDGE config))
     = Ok (Some price) /\
     Binary64.Manager.get_min_notional manager
       (Coin.symbol (Binary64.Pair.from_coin pair))
       (Coin.symbol (Binary64.Config.BRIDGE config)) = Ok min_notional /\
     PrimFloat.eqb balance 0 = false /\
     PrimFloat.ltb min_notional (balance * price)%float = true) /\
  (fst (Binary64.Test1Strategy.can_sell config manager pair w) = Ok true ->
   snd (Binary64.Test1Strategy.can_sell config manager pair w) = w) /\
  (fst (Binary64.Test1Strategy.can_sell config manager pair w) = Ok false ->
   snd (Binary64.Test1Strategy.can_sell config manager pair w)
   = Binary64.with_log (skipping_sell :: Binary64.log w) w) /\
  ((exists balance price,
       Binary64.exact 0.007853793775083055 = Some balance /\
       Binary64.exact 1273.27 = Some price /\
       Binary64.exact 10 = Some 10 /\
       10 < balance * price) /\
   fst (Binary64.Test1Strategy.can_sell Binary64.Scenario.config
          (Binary64.Scenario.manager_at 1273.27 0.007853793775083055)
          Binary64.Scenario.ETH_BTC Binary64.Scenario.world) = Ok false).
Proof.
  split; [split|split; [|split]].
  - apply b64_can_sell_guard.
  - intros [Hfrom [balance [price [min_notional [Hb [Hp [Hm [Hnz Hlt]]]]]]]].
    unfold Binary64.Test1Strategy.can_sell, Binary64.bind, Binary64.lift, Binary64.ret.
    rewrite Hb, Hp, Hfrom. simpl.
    unfold Binary64.truthy. rewrite Hnz. simpl.
    rewrite Hm. simpl. rewrite Hlt. reflexivity.
  - intro H. destruct (b64_can_sell_cases config manager pair w) as [E|[E|[e E]]];
      rewrite E in *; simpl in *; try discriminate; reflexivity.
  - intro H. destruct (b64_can_sell_cases config manager pair w) as [E|[E|[e E]]];
      rewrite E in *; simpl in *; try discriminate; reflexivity.
  - split; [|vm_compute; reflexivity].
    eexists. eexists. repeat split; vm_compute; reflexivity.
Qed.

(* ================================================================== *)
(** * Binary64: scouting from USDT                                     *)
(* ================================================================== *)

Section B64ScoutFromUSDT.

Variable config : Binary64.Config.t.
Variable manager : Binary64.Manager.t.
Variable py_sum : list float -> float.
Variable _get_ratios : Coin.t -> float -> Binary64.M Binary64.RatioDict.









(** The inherited [_get_ratios] does not move the holding pointer. *)
Hypothesis _get_ratios_frame :
  forall coin coin_price w,
    Binary64.current_coin_history (snd (_get_ratios coin coin_price w))
    = Binary64.current_coin_history w.




End B64ScoutFromUSDT.


